(** * Atlanta Municipal Court client: a shallow embedding of
      [atlanta_court/client.py] and the properties of its search,
      token-bootstrap and case-detail extraction pipeline.

    The embedding follows the Python source method by method.  What the
    source takes from outside the repository is kept outside here too:
    - the HTML parser ([BeautifulSoup(text, 'html.parser')]) is a
      parameter that maps a response body to a document tree; the tree
      has tags and strings, a string has the class the parser gave it
      (plain, or a comment, a script, a stylesheet, ...), and [find],
      [find_all], [get], [get_text] and [.string] are written out for
      the forms the client uses;
    - the network ([requests.Session.get/post]) is a parameter that maps
      a request, the cookie jar and the state of the world outside to a
      response (or an exception), a new jar and a new world state;
    - [urllib.parse.urljoin] and the clock behind [datetime.now()] are
      parameters.
    Python [str] values are modelled as strings of code points below 256.
    Subscripts ([l[i]]) are fallible here as they are in Python: they
    return [IndexError] out of range, and the functions that use them
    live in an error monad.  A dictionary is a [gmap] with string keys:
    assignment is insertion, [update] is a union that prefers the
    argument. *)

From Stdlib Require Import Ascii String List Bool Arith Lia DecimalString.
From stdpp Require Import base option list gmap strings.

(* ================================================================== *)
(** * Python string methods used by the client *)
(* ================================================================== *)

Module PyStr.

Definition code (c : ascii) : nat := nat_of_ascii c.

Definition between (lo hi : nat) (c : ascii) : bool :=
  (lo <=? code c)%nat && (code c <=? hi)%nat.

(** [str.isspace] on the code points below 256. *)
Definition isspace (c : ascii) : bool :=
  between 9 13 c || between 28 32 c
  || (code c =? 133)%nat || (code c =? 160)%nat.

(** [\d] of the [re] module on the code points below 256. *)
Definition isdigit (c : ascii) : bool := between 48 57 c.

(** The character class [[A-Z]]. *)
Definition isupper_az (c : ascii) : bool := between 65 90 c.

Definition lower_char (c : ascii) : ascii :=
  if between 65 90 c
     || (between 192 222 c && negb (code c =? 215)%nat)
  then ascii_of_nat (code c + 32) else c.

(** [s.lower()] *)
Fixpoint lower (s : string) : string :=
  match s with
  | EmptyString => EmptyString
  | String c s' => String (lower_char c) (lower s')
  end.

Fixpoint lstrip_by (p : ascii -> bool) (s : string) : string :=
  match s with
  | EmptyString => EmptyString
  | String c s' => if p c then lstrip_by p s' else s
  end.

Definition rstrip_by (p : ascii -> bool) (s : string) : string :=
  String.rev (lstrip_by p (String.rev s)).

(** [s.strip()] *)
Definition strip (s : string) : string :=
  rstrip_by isspace (lstrip_by isspace s).

(** [s.rstrip(':')] *)
Definition rstrip_colon (s : string) : string :=
  rstrip_by (fun c => Ascii.eqb c ":") s.

(** [s.startswith(p)] *)
Fixpoint startswith (p s : string) : bool :=
  match p, s with
  | EmptyString, _ => true
  | String a p', String b s' => Ascii.eqb a b && startswith p' s'
  | String _ _, EmptyString => false
  end.

(** The rest of [s] after the prefix [p], when [s] starts with [p]. *)
Fixpoint strip_prefix (p s : string) : option string :=
  match p, s with
  | EmptyString, _ => Some s
  | String a p', String b s' =>
      if Ascii.eqb a b then strip_prefix p' s' else None
  | String _ _, EmptyString => None
  end.

(** [sub in s] *)
Fixpoint contains (sub s : string) : bool :=
  startswith sub s
  || match s with
     | EmptyString => false
     | String _ s' => contains sub s'
     end.

(** [sep.join(l)] *)
Fixpoint join (sep : string) (l : list string) : string :=
  match l with
  | [] => EmptyString
  | [x] => x
  | x :: l' => x +:+ sep +:+ join sep l'
  end.

(** [s.split(sep)] for a one-character separator: the pieces between
    the separators, in order; never the empty list. *)
Fixpoint split (sep : ascii) (s : string) : list string :=
  match s with
  | EmptyString => [EmptyString]
  | String c s' =>
      if Ascii.eqb c sep then EmptyString :: split sep s'
      else match split sep s' with
           | p :: ps => String c p :: ps
           | [] => [String c EmptyString]
           end
  end.

(** [s.replace(old, new)] for a non-empty [old]: the occurrences of
    [old] are found left to right without overlap.  [skip] counts the
    characters of a matched occurrence still to be passed over. *)
Fixpoint replace_go (old new : string) (skip : nat) (s : string) : string :=
  match s with
  | EmptyString => EmptyString
  | String c s' =>
      match skip with
      | S k => replace_go old new k s'
      | O =>
          if startswith old s
          then new +:+ replace_go old new (String.length old - 1) s'
          else String c (replace_go old new 0 s')
      end
  end.

Definition replace (old new s : string) : string := replace_go old new 0 s.

(** Truth value of a [str]. *)
Definition truthy (s : string) : bool :=
  match s with EmptyString => false | _ => true end.

(** ** The four regular expressions of the client, as [re.search] *)

(** [re.search] tries the pattern at every start position, leftmost
    first (the position after the last character included). *)
Fixpoint search_from {A} (here : string -> option A) (s : string) : option A :=
  match here s with
  | Some r => Some r
  | None =>
      match s with
      | EmptyString => None
      | String _ s' => search_from here s'
      end
  end.

(** The longest prefix of [s] whose characters satisfy [p]. *)
Fixpoint span_while (p : ascii -> bool) (s : string) : string :=
  match s with
  | EmptyString => EmptyString
  | String c s' => if p c then String c (span_while p s') else EmptyString
  end.

(** [prefix(\d+)]: group 1 of a match that starts here. *)
Definition digits_here (prefix s : string) : option string :=
  match strip_prefix prefix s with
  | Some rest =>
      let g := span_while isdigit rest in
      if truthy g then Some g else None
  | None => None
  end.

(** [re.search(r'var cid = (\d+)', html)], group 1 *)
Definition re_search_cid (html : string) : option string :=
  search_from (digits_here "var cid = ") html.

Definition not_quote (c : ascii) : bool := negb (Ascii.eqb c "'").

(** [prefix'([^']+)']: group 1 of a match that starts here.  The class
    [[^']] cannot step over a quote, so the group is the whole run up
    to the next quote, which has to be there. *)
Definition quoted_here (prefix s : string) : option string :=
  match strip_prefix (prefix +:+ "'") s with
  | Some rest =>
      let g := span_while not_quote rest in
      if truthy g && startswith "'" (lstrip_by not_quote rest)
      then Some g else None
  | None => None
  end.

(** [re.search(r"var caseDigest = '([^']+)'", html)], group 1 *)
Definition re_search_caseDigest (html : string) : option string :=
  search_from (quoted_here "var caseDigest = ") html.

(** [re.search(r"var caseNumber = '([^']+)'", s)], group 1 *)
Definition re_search_caseNumber (s : string) : option string :=
  search_from (quoted_here "var caseNumber = ") s.

(** [re.search(r'[A-Z]+.*\d+', s)] as a truth value.  [armed] says that
    some capital letter was seen with no line break since ([.] does not
    match a line break): a digit met in that state completes a match. *)
Fixpoint case_like_go (armed : bool) (s : string) : bool :=
  match s with
  | EmptyString => false
  | String c s' =>
      if armed && isdigit c then true
      else if isupper_az c then case_like_go true s'
      else if Ascii.eqb c "010" then case_like_go false s'
      else case_like_go armed s'
  end.

Definition re_search_case_like (s : string) : bool := case_like_go false s.

End PyStr.


(* ================================================================== *)
(** * Exceptions and the error monad *)
(* ================================================================== *)

(** The exceptions that can leave the client: [IndexError] from a
    subscript, [ValueError] from the token bootstrap, [HTTPError] from
    [raise_for_status], and [RequestException] for a transport failure
    inside [requests]. *)
Inductive exn :=
| IndexError
| ValueError (msg : string)
| HTTPError (status : nat)
| RequestException.

Definition result (A : Type) : Type := (exn + A)%type.

Definition Ok {A} (a : A) : result A := inr a.
Definition Raise {A} (e : exn) : result A := inl e.

#[global] Instance result_ret : MRet result := fun A a => Ok a.
#[global] Instance result_bind : MBind result :=
  fun A B f m => match m with inl e => inl e | inr a => f a end.

(** A [for] loop that threads an accumulator and stops at the first
    exception. *)
Fixpoint foldM {A B} (f : A -> B -> result A) (a : A) (l : list B) : result A :=
  match l with
  | [] => Ok a
  | b :: l' => match f a b with inl e => inl e | inr a' => foldM f a' l' end
  end.

(** [l[i]] *)
Definition getitem {A} (l : list A) (i : nat) : result A :=
  match l !! i with
  | Some x => Ok x
  | None => Raise IndexError
  end.

(** Truth value of a list. *)
Definition nonempty {A} (l : list A) : bool :=
  match l with [] => false | _ => true end.

(** Truth value of an [Optional[str]]. *)
Definition truthy_opt (o : option string) : bool :=
  match o with Some s => PyStr.truthy s | None => false end.

(** [str(i)] for a non-negative [int]. *)
Definition str_of_nat (i : nat) : string :=
  DecimalString.NilZero.string_of_uint (Nat.to_uint i).

(* ================================================================== *)
(** * The values the client builds *)
(* ================================================================== *)

(** A dictionary value of a party, charge, docket entry or form body:
    a [str] or [None]. *)
Inductive scalar :=
| SNone
| SStr (s : string).

(** An element of a list held in a case record: a [str] or a [dict]. *)
Inductive item :=
| IStr (s : string)
| IDict (d : gmap string scalar).

(** A value held in a case record under a key. *)
Inductive value :=
| VStr (s : string)
| VList (l : list item).

(* ================================================================== *)
(** * The document tree of BeautifulSoup *)
(* ================================================================== *)

Module Soup.

(** An attribute value: a [str], or a list of [str] for the attributes
    the parser treats as multi-valued ([class], [rel], ...). *)
Inductive attr_value :=
| AStr (s : string)
| AList (l : list string).

Set Warnings "-register-all".

(** The subclasses of [NavigableString] that a parsed tree holds.  The
    parser gives a string that stands inside a [script], [style],
    [template], [rt] or [rp] element the class of the innermost such
    element around it ([Script], [Stylesheet], [TemplateString],
    [RubyTextString], [RubyParenthesisString]); comments, CDATA
    sections and declarations have classes of their own. *)
Inductive string_class :=
| Comment
| CData
| ProcessingInstruction
| Declaration
| Doctype
| Script
| Stylesheet
| TemplateString
| RubyTextString
| RubyParenthesisString.

#[global] Instance string_class_eq_dec : EqDecision string_class.
Proof. solve_decision. Defined.

(** A node: a plain [NavigableString], a string of one of its
    subclasses, or a [Tag].  The [BeautifulSoup] object itself is the
    [Tag] at the root. *)
Inductive node :=
| NavigableString (s : string)
| SubclassString (cls : string_class) (s : string)
| Tag (name : string) (attrs : gmap string attr_value) (contents : list node).

(** All nodes below [n], in document order ([Tag.descendants]). *)
Fixpoint descendants (n : node) : list node :=
  match n with
  | NavigableString _ | SubclassString _ _ => []
  | Tag _ _ cs =>
      (fix go (l : list node) : list node :=
         match l with
         | [] => []
         | c :: l' => c :: descendants c ++ go l'
         end) cs
  end.

(** [tag.get(key)] *)
Definition get (n : node) (key : string) : option attr_value :=
  match n with
  | NavigableString _ | SubclassString _ _ => None
  | Tag _ at_ _ => at_ !! key
  end.

(** Truth value of [tag.get(key)]. *)
Definition attr_truthy (v : attr_value) : bool :=
  match v with
  | AStr s => PyStr.truthy s
  | AList l => nonempty l
  end.

(** [tag.get(key) == want] for a [str] [want]: a list never equals it. *)
Definition attr_eq_str (o : option attr_value) (want : string) : bool :=
  match o with
  | Some (AStr s) => String.eqb s want
  | _ => false
  end.

(** The attribute test of [find]/[find_all] against a [str]: a list
    value matches when one of its elements or its space-joined whole
    does. *)
Definition attr_matches (want : string) (v : attr_value) : bool :=
  match v with
  | AStr s => String.eqb s want
  | AList l => existsb (String.eqb want) l || String.eqb (PyStr.join " " l) want
  end.

(** The element filter of [find]/[find_all]: a tag whose name is one of
    [names] and whose attributes pass every test of [tests]. *)
Definition selects (names : list string) (tests : list (string * string))
    (n : node) : bool :=
  match n with
  | NavigableString _ | SubclassString _ _ => false
  | Tag nm at_ _ =>
      existsb (String.eqb nm) names
      && forallb (fun t => match at_ !! t.1 with
                           | Some v => attr_matches t.2 v
                           | None => false
                           end) tests
  end.

(** [tag.find_all(names, attrs)] *)
Definition find_all (names : list string) (tests : list (string * string))
    (n : node) : list node :=
  List.filter (selects names tests) (descendants n).

(** [tag.find(names, attrs)]: the first of [find_all], or [None]. *)
Definition find (names : list string) (tests : list (string * string))
    (n : node) : option node :=
  head (find_all names tests n).

(** [builder.string_containers]: the elements whose strings get a
    class of their own. *)
Definition string_containers (name : string) : option string_class :=
  if String.eqb name "rt" then Some RubyTextString
  else if String.eqb name "rp" then Some RubyParenthesisString
  else if String.eqb name "style" then Some Stylesheet
  else if String.eqb name "script" then Some Script
  else if String.eqb name "template" then Some TemplateString
  else None.

(** [tag.interesting_string_types], as a test on the class of a string
    ([None] for a plain [NavigableString]): a string container is
    interested in its own class only, any other tag in plain strings
    and CDATA sections. *)
Definition interesting_string_types (name : string) (cls : option string_class) : bool :=
  match string_containers name with
  | Some container => bool_decide (cls = Some container)
  | None => bool_decide (cls = None) || bool_decide (cls = Some CData)
  end.

(** [tag._all_strings()]: the strings below a tag whose class the tag
    is interested in, in document order.  The strings inside a
    [script], [style] or [template] element of a cell are therefore
    not among the strings of the cell, and a comment never is. *)
Definition _all_strings (n : node) : list string :=
  match n with
  | NavigableString s => [s]
  | SubclassString cls s => if bool_decide (cls = CData) then [s] else []
  | Tag name _ _ =>
      omap (fun d => match d with
                     | NavigableString s =>
                         if interesting_string_types name None then Some s else None
                     | SubclassString cls s =>
                         if interesting_string_types name (Some cls) then Some s else None
                     | Tag _ _ _ => None
                     end)
           (descendants n)
  end.

(** [tag.get_text(strip=True)]: every string of [_all_strings]
    stripped, the empty ones dropped, the rest concatenated. *)
Definition get_text_strip (n : node) : string :=
  PyStr.join "" (List.filter PyStr.truthy (PyStr.strip <$> _all_strings n)).

(** [tag.string]: the only child when it is a string of any class, the
    [.string] of the only child when it is a tag, [None] otherwise. *)
Fixpoint string_of (n : node) : option string :=
  match n with
  | NavigableString s | SubclassString _ s => Some s
  | Tag _ _ [c] => string_of c
  | Tag _ _ _ => None
  end.

Definition tag_string (n : node) : option string :=
  match n with
  | NavigableString _ | SubclassString _ _ => None
  | Tag _ _ _ => string_of n
  end.

(** [v[0] if isinstance(v, list) else v] *)
Definition first_of (v : attr_value) : result string :=
  match v with
  | AList l => getitem l 0
  | AStr s => Ok s
  end.

(** The value of an attribute when it is there and truthy. *)
Definition truthy_attr (o : option attr_value) : option attr_value :=
  match o with
  | Some v => if attr_truthy v then Some v else None
  | None => None
  end.

End Soup.

Import Soup.

(* ================================================================== *)
(** * [AtlantaMunicipalClient.parse_case_details] (client.py 217-370) *)
(* ================================================================== *)

(** A case record under construction: the [case_data] dictionary. *)
Abbreviation record := (gmap string value).

(** [label.lower().replace(' ', '_')] *)
Definition snake_case (label : string) : string :=
  PyStr.replace " " "_" (PyStr.lower label).

(** Method 1 (lines 234-245): the stripped title text before the first
    dash, when [re.search(r'[A-Z]+.*\d+', ...)] accepts it. *)
Definition case_number_from_title (soup : node) : result (option string) :=
  match find ["title"] [] soup with
  | Some title_tag =>
      let title_text := get_text_strip title_tag in
      let parts := PyStr.split "-" title_text in
      if nonempty parts then
        p0 ← getitem parts 0;
        let potential_case := PyStr.strip p0 in
        if PyStr.re_search_case_like potential_case
        then mret (Some potential_case)
        else mret None
      else mret None
  | None => mret None
  end.

(** Method 2 (lines 247-251): the text of the first [h2] of class
    [case-heading], tried when there is no truthy case number yet. *)
Definition case_number_from_heading (soup : node) (case_number : option string)
    : option string :=
  if negb (truthy_opt case_number) then
    match find ["h2"] [("class", "case-heading")] soup with
    | Some case_heading => Some (get_text_strip case_heading)
    | None => case_number
    end
  else case_number.

(** The loop of method 3 (lines 256-261): the first script whose
    [.string] is truthy and matches gives the captured value. *)
Fixpoint first_script_match (scripts : list node) : option string :=
  match scripts with
  | [] => None
  | script :: rest =>
      match tag_string script with
      | Some s =>
          if PyStr.truthy s then
            match PyStr.re_search_caseNumber s with
            | Some g => Some g
            | None => first_script_match rest
            end
          else first_script_match rest
      | None => first_script_match rest
      end
  end.

(** Method 3 (lines 253-261). *)
Definition case_number_from_script (soup : node) (case_number : option string)
    : option string :=
  if negb (truthy_opt case_number) then
    match first_script_match (find_all ["script"] [] soup) with
    | Some g => Some g
    | None => case_number
    end
  else case_number.

(** Lines 231-261: the value of the local [case_number] after the three
    methods. *)
Definition recover_case_number (soup : node) : result (option string) :=
  case_number ← case_number_from_title soup;
  let case_number := case_number_from_heading soup case_number in
  let case_number := case_number_from_script soup case_number in
  mret case_number.

(** Lines 263-264. *)
Definition store_case_number (case_number : option string) (case_data : record)
    : record :=
  match case_number with
  | Some cn => if PyStr.truthy cn then <["case_number" := VStr cn]> case_data
               else case_data
  | None => case_data
  end.

(** One row of a detail table (lines 276-283). *)
Definition detail_row (case_data : record) (row : node) : result record :=
  let cells := find_all ["th"; "td"] [] row in
  if (2 <=? length cells)%nat then
    c0 ← getitem cells 0;
    c1 ← getitem cells 1;
    let label := PyStr.rstrip_colon (get_text_strip c0) in
    let value := get_text_strip c1 in
    if PyStr.truthy label && PyStr.truthy value then
      let key := snake_case label in
      mret (<[key := VStr value]> case_data)
    else mret case_data
  else mret case_data.

(** One table of class [table] (lines 269-283); the docket table is
    skipped. *)
Definition detail_table (case_data : record) (table : node) : result record :=
  if attr_eq_str (get table "id") "gridDockets" then mret case_data
  else foldM detail_row case_data (find_all ["tr"] [] table).

(** Lines 266-283. *)
Definition extract_details (soup : node) (case_data : record) : result record :=
  let detail_tables := find_all ["table"] [("class", "table")] soup in
  foldM detail_table case_data detail_tables.

(** [soup.find(a_names, a_tests) or soup.find(b_names, b_tests)]: a tag
    is always truthy. *)
Definition find_or (soup : node) (a_names : list string) (a_tests : list (string * string))
    (b_names : list string) (b_tests : list (string * string)) : option node :=
  match find a_names a_tests soup with
  | Some t => Some t
  | None => find b_names b_tests soup
  end.

(** One row of the parties section (lines 291-296). *)
Definition party_row (parties : list item) (row : node) : result (list item) :=
  let cells := find_all ["td"] [] row in
  if (2 <=? length cells)%nat then
    c0 ← getitem cells 0;
    type_ ← (if (1 <? length cells)%nat
             then c1 ← getitem cells 1; mret (SStr (get_text_strip c1))
             else mret SNone);
    mret (parties ++ [IDict (<["type" := type_]>
                             (<["name" := SStr (get_text_strip c0)]> ∅))])
  else mret parties.

(** Lines 285-298. *)
Definition extract_parties (soup : node) (case_data : record) : result record :=
  match find_or soup ["div"] [("id", "parties")] ["section"] [("class", "parties")] with
  | Some parties_section =>
      parties ← foldM party_row [] (find_all ["tr"] [] parties_section);
      if nonempty parties then mret (<["parties" := VList parties]> case_data)
      else mret case_data
  | None => mret case_data
  end.

(** One row of the charges section (lines 306-310): the texts of its
    cells joined by a space, kept when not empty. *)
Definition charge_row (charges : list item) (row : node) : list item :=
  let cells := find_all ["td"] [] row in
  if nonempty cells then
    let charge_text := PyStr.join " " (get_text_strip <$> cells) in
    if PyStr.truthy charge_text then charges ++ [IStr charge_text]
    else charges
  else charges.

(** Lines 300-312. *)
Definition extract_charges (soup : node) (case_data : record) : record :=
  match find_or soup ["div"] [("id", "charges")] ["section"] [("class", "charges")] with
  | Some charges_section =>
      let charges := foldl charge_row [] (find_all ["tr"] [] charges_section) in
      if nonempty charges then <["charges" := VList charges]> case_data
      else case_data
  | None => case_data
  end.

(** [[cell.get_text(strip=True).lower().replace(' ', '_') for cell in
    header_row.find_all('th')]], or [[]] without a [thead]. *)
Definition header_keys (table : node) : list string :=
  match find ["thead"] [] table with
  | Some header_row =>
      (fun cell => snake_case (get_text_strip cell)) <$> find_all ["th"] [] header_row
  | None => []
  end.

(** [enumerate(l)] *)
Definition enumerate {A} (l : list A) : list (nat * A) :=
  zip (seq 0 (length l)) l.

(** Lines 335-350: the docket id read from the image of the first cell. *)
Definition docket_id_of_row (cells : list node) : result string :=
  if nonempty cells then
    first_cell ← getitem cells 0;
    match find ["img"] [] first_cell with
    | Some img_tag =>
        let rel_attr := get img_tag "rel" in
        let id_attr := get img_tag "id" in
        match truthy_attr rel_attr with
        | Some r => first_of r
        | None =>
            match truthy_attr id_attr with
            | Some i =>
                id_val ← first_of i;
                mret (PyStr.replace "img_" "" id_val)
            | None => mret ""
            end
        end
    | None => mret ""
    end
  else mret "".

(** Lines 352-364: the entry of one docket row. *)
Definition docket_entry_of_row (headers : list string) (cells : list node)
    (docket_id : string) : result (gmap string scalar) :=
  if nonempty headers && (length headers =? length cells)%nat then
    entry ← foldM (fun (e : gmap string scalar) i =>
                     h ← getitem headers i;
                     c ← getitem cells i;
                     mret (<[h := SStr (get_text_strip c)]> e))
                  ∅ (seq 0 (length cells));
    if bool_decide (is_Some (entry !! ""))
    then mret (<["id" := SStr docket_id]> (delete "" entry))
    else mret (<["id" := SStr docket_id]> entry)
  else
    let entry := foldl (fun (e : gmap string scalar) ic =>
                          <["column_" +:+ str_of_nat ic.1 := SStr (get_text_strip ic.2)]> e)
                       ∅ (enumerate cells) in
    mret (<["id" := SStr docket_id]> entry).

(** One row of the docket body (lines 331-365). *)
Definition docket_row (headers : list string) (docket_entries : list item)
    (row : node) : result (list item) :=
  let cells := find_all ["td"] [] row in
  if nonempty cells then
    docket_id ← docket_id_of_row cells;
    entry ← docket_entry_of_row headers cells docket_id;
    mret (docket_entries ++ [IDict entry])
  else mret docket_entries.

(** Lines 318-365: the local [docket_entries] for a docket table. *)
Definition docket_entries_of (docket_table : node) : result (list item) :=
  let headers := header_keys docket_table in
  match find ["tbody"] [] docket_table with
  | Some tbody => foldM (docket_row headers) [] (find_all ["tr"] [] tbody)
  | None => mret []
  end.

(** Lines 314-368. *)
Definition extract_dockets (soup : node) (case_data : record) : result record :=
  match find ["table"] [("id", "gridDockets")] soup with
  | Some docket_table =>
      docket_entries ← docket_entries_of docket_table;
      if nonempty docket_entries
      then mret (<["docket_history" := VList docket_entries]> case_data)
      else mret case_data
  | None => mret case_data
  end.

Definition parse_case_details (soup : node) : result record :=
  let case_data : record := ∅ in
  case_number ← recover_case_number soup;
  let case_data := store_case_number case_number case_data in
  case_data ← extract_details soup case_data;
  case_data ← extract_parties soup case_data;
  let case_data := extract_charges soup case_data in
  case_data ← extract_dockets soup case_data;
  mret case_data.

(* ================================================================== *)
(** * The session: requests, responses, client state *)
(* ================================================================== *)

Inductive verb := GET | POST.

(** What [session.get]/[session.post] is called with. *)
Record request := mk_request {
  req_verb : verb;
  req_url : string;
  req_params : gmap string scalar;   (* [params=]: the query string *)
  req_data : gmap string scalar;     (* [data=]: the form body *)
  req_headers : gmap string string;  (* [headers=] of this call *)
}.

(** What the client reads of a [requests.Response]. *)
Record response := mk_response {
  status_code : nat;
  text : string;
  url : string;                      (* the final URL, after redirects *)
}.

(** The instance attributes of the client, the cookie jar of its
    session, the state of the world outside, and the requests issued so
    far (oldest first). *)
Record state (World : Type) := mk_state {
  base_url : string;
  cookies : list (string * string);
  _csrf_token_body : option string;
  _csrf_cookie_name : option string;
  world : World;
  sent : list request;
}.

Arguments mk_state {World}.
Arguments base_url {World}.
Arguments cookies {World}.
Arguments _csrf_token_body {World}.
Arguments _csrf_cookie_name {World}.
Arguments world {World}.
Arguments sent {World}.

(** The dictionary returned by [search]. *)
Record search_result := mk_search_result {
  success : bool;
  response_type : string;
  message : option string;
  html : string;
  soup_of : option node;
  result_url : string;
}.

(** The dictionary returned by [get_case_summary]. *)
Record summary_result := mk_summary_result {
  summary_success : bool;
  summary_data : gmap string value;
  summary_html : string;
}.

(** The dictionary returned by [get_case_dockets]. *)
Record dockets_result := mk_dockets_result {
  dockets_success : bool;
  docket_history : list item;
  dockets_html : option string;
}.

(** [session.get]/[session.post] as a function: from the request, the
    cookie jar and the world to the answer of the portal (or the
    exception [requests] raises), the jar after the exchange and the
    world after it. *)
Definition transport (World : Type) : Type :=
  request -> list (string * string) -> World ->
  result response * list (string * string) * World.

Definition DEFAULT_BASE_URL : string := "https://benchmark.atlantaga.gov".
Definition SEARCH_TYPE_NAME : string := "Name".
Definition SEARCH_TYPE_CASE_NUMBER : string := "CaseNumber".
Definition SEARCH_TYPE_ATTORNEY : string := "Attorney".

(** [__init__] (lines 30-49): the state of a new client in a world [w];
    the jar of a new session is empty. *)
Definition init {World} (base : option string) (w : World) : state World :=
  mk_state (match base with
            | Some b => if PyStr.truthy b then b else DEFAULT_BASE_URL
            | None => DEFAULT_BASE_URL
            end) [] None None w [].

(** [x or ''] for an [Optional[str]]. *)
Definition or_empty (o : option string) : string :=
  match o with
  | Some s => if PyStr.truthy s then s else ""
  | None => ""
  end.

(** Lines 119-157 of [search]: the defaults, the form body and the
    merge of the extra keyword arguments, which win. *)
Definition form_data_of (token : option string) (search_term search_type : string)
    (court_types party_types divisions : option (list string))
    (opened_from opened_to closed_from closed_to : option string)
    (kwargs : gmap string scalar) : gmap string scalar :=
  let court_types := match court_types with
                     | None => ["22"; "2"; "20"; "21"; "7"; "10"]
                     | Some l => l
                     end in
  let party_types := match party_types with
                     | None => ["1"; "2"; "3"; "4"; "5"]
                     | Some l => l
                     end in
  let divisions := match divisions with
                   | None => ["1"]
                   | Some l => l
                   end in
  let form_data : gmap string scalar :=
    foldl (fun (m : gmap string scalar) kv => <[kv.1 := kv.2]> m) ∅
      [ ("__RequestVerificationToken",
           match token with Some t => SStr t | None => SNone end);
        ("type", SStr search_type);
        ("search", SStr search_term);
        ("openedFrom", SStr (or_empty opened_from));
        ("openedTo", SStr (or_empty opened_to));
        ("closedFrom", SStr (or_empty closed_from));
        ("closedTo", SStr (or_empty closed_to));
        ("courtTypes", SStr (PyStr.join "," court_types));
        ("caseTypes", SStr "");
        ("partyTypes", SStr (PyStr.join "," party_types));
        ("divisions", SStr (PyStr.join "," divisions));
        ("statutes", SStr "");
        ("partyBirthYear", SStr "");
        ("partyDOB", SStr "");
        ("caseStatus", SStr "");
        ("propertyAddress", SStr "");
        ("propertyCity", SStr "");
        ("propertyZip", SStr "");
        ("propertySubDivision", SStr "");
        ("lawFirm", SStr "");
        ("unpaidPrincipleBalanceFrom", SStr "");
        ("unpaidPrincipleBalanceTo", SStr "");
        ("electionDemandFrom", SStr "");
        ("electionDemandTo", SStr "");
        ("attorneyFileNumber", SStr "") ] in
  (* form_data.update(kwargs) *)
  kwargs ∪ form_data.

(** Lines 177-215 of [search]: the dictionary built from the parsed
    body, the body and the final URL. *)
Definition classify (soup : node) (body final_url : string) : search_result :=
  let results_table := find ["table"] [("id", "gridSearchResults")] soup in
  let is_case_details := PyStr.contains "/CourtCase.aspx/Details/" final_url in
  match results_table with
  | Some _ =>
      mk_search_result true "search_results" None body (Some soup) final_url
  | None =>
      if is_case_details then
        mk_search_result true "case_details" None body (Some soup) final_url
      else
        mk_search_result false "unknown"
          (Some "No results found or search failed") body None final_url
  end.

(** Lines 550-577 of [get_case_summary]: one row of the parties table. *)
Definition summary_party_row (parties : list item) (row : node) : result (list item) :=
  let cells := find_all ["td"] [] row in
  if (2 <=? length cells)%nat then
    c0 ← getitem cells 0;
    c1 ← getitem cells 1;
    let party_type := get_text_strip c0 in
    let name := match find ["a"] [] c1 with
                | Some name_link => get_text_strip name_link
                | None => get_text_strip c1
                end in
    attorney ← (if (2 <? length cells)%nat
                then c2 ← getitem cells 2; mret (Some (get_text_strip c2))
                else mret None);
    let party : gmap string scalar :=
      <["name" := SStr name]> (<["type" := SStr party_type]> ∅) in
    let party := match attorney with
                 | Some a => if PyStr.truthy a then <["attorney" := SStr a]> party
                             else party
                 | None => party
                 end in
    mret (parties ++ [IDict party])
  else mret parties.

(** [text and text not in ['', '\xa0', '&#160;']] *)
Definition shown (text : string) : bool :=
  PyStr.truthy text
  && negb (String.eqb text "" || String.eqb text (String "160" "")
           || String.eqb text "&#160;").

(** Lines 531-548: one [dt]/[dd] pair of a definition list. *)
Definition summary_pair (case_data : record) (p : node * node) : record :=
  let label := PyStr.rstrip_colon (get_text_strip p.1) in
  let value := get_text_strip p.2 in
  if PyStr.truthy label && shown value
  then <[snake_case label := VStr value]> case_data
  else case_data.

(** Lines 534-548: one definition list, [zip(dts, dds)]. *)
Definition summary_dl (case_data : record) (dl : node) : record :=
  let dts := find_all ["dt"] [] dl in
  let dds := find_all ["dd"] [] dl in
  foldl summary_pair case_data (zip dts dds).

(** Lines 593-612: one row of the charges table. *)
Definition summary_charge_row (headers : list string) (charges : list item)
    (row : node) : result (list item) :=
  let cells := find_all ["td"] [] row in
  if nonempty cells then
    charge ←
      (if nonempty headers && (length headers =? length cells)%nat then
         foldM (fun (charge : gmap string scalar) ic =>
                  let text := get_text_strip ic.2 in
                  if shown text then
                    h ← getitem headers ic.1;
                    mret (<[h := SStr text]> charge)
                  else mret charge)
               ∅ (enumerate cells)
       else
         mret (foldl (fun (charge : gmap string scalar) ic =>
                        let text := get_text_strip ic.2 in
                        if shown text
                        then <["field_" +:+ str_of_nat ic.1 := SStr text]> charge
                        else charge)
                     ∅ (enumerate cells)));
    if bool_decide (charge ≠ ∅) then mret (charges ++ [IDict charge])
    else mret charges
  else mret charges.

(** Lines 528-615 of [get_case_summary]: the [case_data] built from the
    parsed fragment. *)
Definition summary_of_soup (soup : node) : result record :=
  let case_data : record := ∅ in
  let detail_lists := find_all ["dl"] [("class", "dl-horizontal")] soup in
  let case_data := foldl summary_dl case_data detail_lists in
  case_data ←
    match find ["table"] [("id", "gridParties")] soup with
    | Some parties_table =>
        parties ←
          match find ["tbody"] [] parties_table with
          | Some party_rows => foldM summary_party_row [] (find_all ["tr"] [] party_rows)
          | None => mret []
          end;
        if nonempty parties then mret (<["parties" := VList parties]> case_data)
        else mret case_data
    | None => mret case_data
    end;
  match find ["table"] [("id", "gridCharges")] soup with
  | Some charges_table =>
      let headers := header_keys charges_table in
      charges ←
        match find ["tbody"] [] charges_table with
        | Some charge_rows =>
            foldM (summary_charge_row headers) [] (find_all ["tr"] [] charge_rows)
        | None => mret []
        end;
      if nonempty charges then mret (<["charges" := VList charges]> case_data)
      else mret case_data
  | None => mret case_data
  end.

(** Lines 698-713 of [get_case_dockets]: the docket id of a row. *)
Definition fragment_docket_id (cells : list node) : result string :=
  if nonempty cells then
    first_cell ← getitem cells 0;
    match find ["img"] [] first_cell with
    | Some img_tag =>
        let rel_attr := get img_tag "rel" in
        let id_attr := get img_tag "id" in
        match truthy_attr rel_attr with
        | Some r => first_of r
        | None =>
            match truthy_attr id_attr with
            | Some i =>
                id_val ← first_of i;
                mret (PyStr.replace "img_" "" id_val)
            | None => mret ""
            end
        end
    | None => mret ""
    end
  else mret "".

(** Lines 715-727 of [get_case_dockets]: the entry of a row. *)
Definition fragment_docket_entry (headers : list string) (cells : list node)
    (docket_id : string) : result (gmap string scalar) :=
  if nonempty headers && (length headers =? length cells)%nat then
    entry ← foldM (fun (e : gmap string scalar) i =>
                     h ← getitem headers i;
                     c ← getitem cells i;
                     mret (<[h := SStr (get_text_strip c)]> e))
                  ∅ (seq 0 (length cells));
    if bool_decide (is_Some (entry !! ""))
    then mret (<["id" := SStr docket_id]> (delete "" entry))
    else mret (<["id" := SStr docket_id]> entry)
  else
    let entry := foldl (fun (e : gmap string scalar) ic =>
                          <["column_" +:+ str_of_nat ic.1 := SStr (get_text_strip ic.2)]> e)
                       ∅ (enumerate cells) in
    mret (<["id" := SStr docket_id]> entry).

(** Lines 694-728 of [get_case_dockets]: one row of the body. *)
Definition fragment_docket_row (headers : list string) (docket_entries : list item)
    (row : node) : result (list item) :=
  let cells := find_all ["td"] [] row in
  if nonempty cells then
    docket_id ← fragment_docket_id cells;
    entry ← fragment_docket_entry headers cells docket_id;
    mret (docket_entries ++ [IDict entry])
  else mret docket_entries.

(** Lines 681-728 of [get_case_dockets]: the local [docket_entries]. *)
Definition fragment_docket_entries (docket_table : node) : result (list item) :=
  let headers :=
    match find ["thead"] [] docket_table with
    | Some header_row =>
        (fun cell => snake_case (get_text_strip cell)) <$> find_all ["th"] [] header_row
    | None => []
    end in
  match find ["tbody"] [] docket_table with
  | Some tbody => foldM (fragment_docket_row headers) [] (find_all ["tr"] [] tbody)
  | None => mret []
  end.

(** Lines 668-736 of [get_case_dockets]: the dictionary built from the
    parsed fragment and its text. *)
Definition dockets_of_soup (soup : node) (body : string) : result dockets_result :=
  match find ["table"] [("id", "gridDockets")] soup with
  | None => mret (mk_dockets_result false [] None)
  | Some docket_table =>
      docket_entries ← fragment_docket_entries docket_table;
      mret (mk_dockets_result true docket_entries (Some body))
  end.

(* ================================================================== *)
(** * The methods of [AtlantaMunicipalClient] that talk to the portal *)
(* ================================================================== *)

Section Client.

Context {World : Type}.

(** [session.get]/[session.post] *)
Variable send : transport World.

(** [BeautifulSoup(text, 'html.parser')] *)
Variable BeautifulSoup : string -> node.

(** [urllib.parse.urljoin] *)
Variable urljoin : string -> string -> string.

(** [datetime.now().strftime('%I:%M:%S %p')] *)
Variable strftime_now : World -> string.

(** A method of the client: it reads and changes the state and returns
    a value or raises.  What it changed before raising stays changed. *)
Definition M (A : Type) : Type := state World -> result A * state World.

#[global] Instance M_ret : MRet M := fun A a s => (Ok a, s).
#[global] Instance M_bind : MBind M :=
  fun A B f m s =>
    match m s with
    | (inl e, s') => (inl e, s')
    | (inr a, s') => f a s'
    end.

Definition raise {A} (e : exn) : M A := fun s => (Raise e, s).

Definition lift {A} (r : result A) : M A := fun s => (r, s).

Definition gets {A} (f : state World -> A) : M A := fun s => (Ok (f s), s).

Definition set_csrf_cookie_name (v : option string) : M unit :=
  fun s => (Ok tt, mk_state (base_url s) (cookies s) (_csrf_token_body s) v
                            (world s) (sent s)).

Definition set_csrf_token_body (v : option string) : M unit :=
  fun s => (Ok tt, mk_state (base_url s) (cookies s) v (_csrf_cookie_name s)
                            (world s) (sent s)).

(** Issue a request: the jar and the world move on, the request is
    recorded. *)
Definition session_request (r : request) : M response :=
  fun s =>
    let '(res, jar, w) := send r (cookies s) (world s) in
    (res, mk_state (base_url s) jar (_csrf_token_body s) (_csrf_cookie_name s)
                   w (sent s ++ [r])).

(** [response.raise_for_status()] *)
Definition raise_for_status (r : response) : M unit :=
  if (400 <=? status_code r)%nat && (status_code r <? 600)%nat
  then raise (HTTPError (status_code r))
  else mret tt.

(** [_get_search_page] (lines 51-82) *)
Definition _get_search_page : M unit :=
  base ← gets base_url;
  let search_url := urljoin base "/BenchmarkWeb/Home.aspx/Search" in
  response ← session_request (mk_request GET search_url ∅ ∅ ∅);
  raise_for_status response;;
  jar ← gets cookies;
  match List.find (fun c => PyStr.startswith "__RequestVerificationToken_" c.1) jar with
  | Some c => set_csrf_cookie_name (Some c.1)
  | None => mret tt
  end;;
  name ← gets _csrf_cookie_name;
  if negb (truthy_opt name) then
    raise (ValueError "Could not find CSRF token cookie in response")
  else
    let soup := BeautifulSoup (text response) in
    let csrf_input := find ["input"] [("name", "__RequestVerificationToken")] soup in
    match csrf_input with
    | None => raise (ValueError "Could not find CSRF token in HTML")
    | Some csrf_input =>
        match truthy_attr (get csrf_input "value") with
        | None => raise (ValueError "Could not find CSRF token in HTML")
        | Some (AList l) =>
            if nonempty l
            then v ← lift (getitem l 0); set_csrf_token_body (Some v)
            else set_csrf_token_body None
        | Some (AStr v) => set_csrf_token_body (Some v)
        end
    end.

(** The request of lines 160-172: the form body posted to the search
    route. *)
Definition search_request (base : string) (form_data : gmap string scalar) : request :=
  let search_url := urljoin base "/BenchmarkWeb/CourtCase.aspx/CaseSearch" in
  mk_request POST search_url ∅ form_data
    (<["Origin" := base]>
     (<["Referer" := urljoin base "/BenchmarkWeb/Home.aspx/Search"]>
      (<["Content-Type" := "application/x-www-form-urlencoded"]> ∅))).

(** [search] (lines 84-215) *)
Definition search (search_term search_type : string)
    (court_types party_types divisions : option (list string))
    (opened_from opened_to closed_from closed_to : option string)
    (kwargs : gmap string scalar) : M search_result :=
  token ← gets _csrf_token_body;
  (if negb (truthy_opt token) then _get_search_page else mret tt);;
  token ← gets _csrf_token_body;
  let form_data :=
    form_data_of token search_term search_type court_types party_types divisions
                 opened_from opened_to closed_from closed_to kwargs in
  base ← gets base_url;
  response ← session_request (search_request base form_data);
  raise_for_status response;;
  let soup := BeautifulSoup (text response) in
  mret (classify soup (text response) (url response)).

(** The headers of the two fragment requests. *)
Definition fragment_headers (base case_id digest : string) : gmap string string :=
  <["Referer" := urljoin base ("/BenchmarkWeb/CourtCase.aspx/Details/" +:+ case_id
                                +:+ "?digest=" +:+ digest)]>
  (<["X-Requested-With" := "XMLHttpRequest"]>
   (<["Accept" := "*/*"]> ∅)).

(** The query parameters of the two fragment requests. *)
Definition fragment_params (digest current_time : string) : gmap string scalar :=
  <["time" := SStr current_time]> (<["digest" := SStr digest]> ∅).

(** [get_case_summary] (lines 482-623) *)
Definition get_case_summary (case_id digest : string) : M summary_result :=
  current_time ← gets (fun s => strftime_now (world s));
  base ← gets base_url;
  let summary_url :=
    urljoin base ("/BenchmarkWeb/CourtCase.aspx/DetailsSummary/" +:+ case_id) in
  response ← session_request
    (mk_request GET summary_url (fragment_params digest current_time) ∅
                (fragment_headers base case_id digest));
  raise_for_status response;;
  let soup := BeautifulSoup (text response) in
  case_data ← lift (summary_of_soup soup);
  mret (mk_summary_result true case_data (text response)).

(** [get_case_dockets] (lines 625-736) *)
Definition get_case_dockets (case_id digest : string) : M dockets_result :=
  current_time ← gets (fun s => strftime_now (world s));
  base ← gets base_url;
  let dockets_url :=
    urljoin base ("/BenchmarkWeb/CourtCase.aspx/CaseDockets/" +:+ case_id) in
  response ← session_request
    (mk_request GET dockets_url (fragment_params digest current_time) ∅
                (fragment_headers base case_id digest));
  raise_for_status response;;
  let soup := BeautifulSoup (text response) in
  lift (dockets_of_soup soup (text response)).

(** [get_case_details_with_dockets] (lines 738-800) *)
Definition get_case_details_with_dockets (case_url : string) : M record :=
  response ← session_request (mk_request GET case_url ∅ ∅ ∅);
  raise_for_status response;;
  let soup := BeautifulSoup (text response) in
  case_data ← lift (parse_case_details soup);
  let case_data := <["url" := VStr (url response)]> case_data in
  let html := text response in
  let cid_match := PyStr.re_search_cid html in
  let digest_match := PyStr.re_search_caseDigest html in
  match cid_match, digest_match with
  | Some case_id, Some digest =>
      summary_result ← get_case_summary case_id digest;
      let case_data :=
        if summary_success summary_result
        then summary_data summary_result ∪ case_data   (* case_data.update(...) *)
        else case_data in
      dockets_result ← get_case_dockets case_id digest;
      if dockets_success dockets_result
      then mret (<["docket_history" := VList (docket_history dockets_result)]> case_data)
      else mret (<["docket_history" := VList []]> case_data)
  | _, _ =>
      mret (<["docket_history" := VList []]> case_data)
  end.

(** A request together with its [raise_for_status]: the way every
    method above obtains a response. *)
Definition fetch (r : request) : M response :=
  response ← session_request r;
  raise_for_status response;;
  mret response.

(** The request of [get_case_dockets]. *)
Definition dockets_request (base case_id digest current_time : string) : request :=
  mk_request GET
    (urljoin base ("/BenchmarkWeb/CourtCase.aspx/CaseDockets/" +:+ case_id))
    (fragment_params digest current_time) ∅
    (fragment_headers base case_id digest).

(** The arguments of one call of [search]. *)
Record search_call := mk_search_call {
  sc_search_term : string;
  sc_search_type : string;
  sc_court_types : option (list string);
  sc_party_types : option (list string);
  sc_divisions : option (list string);
  sc_opened_from : option string;
  sc_opened_to : option string;
  sc_closed_from : option string;
  sc_closed_to : option string;
  sc_kwargs : gmap string scalar;
}.

Definition form_data_of_call (token : option string) (c : search_call)
    : gmap string scalar :=
  form_data_of token (sc_search_term c) (sc_search_type c) (sc_court_types c)
    (sc_party_types c) (sc_divisions c) (sc_opened_from c) (sc_opened_to c)
    (sc_closed_from c) (sc_closed_to c) (sc_kwargs c).

Definition search_with (c : search_call) : M search_result :=
  search (sc_search_term c) (sc_search_type c) (sc_court_types c)
    (sc_party_types c) (sc_divisions c) (sc_opened_from c) (sc_opened_to c)
    (sc_closed_from c) (sc_closed_to c) (sc_kwargs c).

(** The state of the client after a run of searches on one session,
    whatever each of them returned or raised. *)
Definition after_searches (calls : list search_call) (s : state World) : state World :=
  foldl (fun s c => (search_with c s).2) s calls.

(** The landing-page request of [_get_search_page]. *)
Definition landing_request (base : string) : request :=
  mk_request GET (urljoin base "/BenchmarkWeb/Home.aspx/Search") ∅ ∅ ∅.

End Client.

(* ================================================================== *)
(** * Vocabulary of the specification *)
(* ================================================================== *)

(** The three outcomes of a search, as the specification names them. *)
Inductive SearchOutcome :=
| ResultsTable (html url : string)
| CaseDetailsRedirect (html url : string)
| NoResults (message html : string).

(** The outcome a dictionary returned by [search] stands for, read off
    its [response_type]. *)
Definition outcome_of (r : search_result) : option SearchOutcome :=
  if String.eqb (response_type r) "search_results"
  then Some (ResultsTable (html r) (result_url r))
  else if String.eqb (response_type r) "case_details"
  then Some (CaseDetailsRedirect (html r) (result_url r))
  else if String.eqb (response_type r) "unknown"
  then match message r with
       | Some m => Some (NoResults m (html r))
       | None => None
       end
  else None.

(** The body contains a [table] element whose [id] is [want]. *)
Definition contains_table_with_id (want : string) (soup : node) : Prop :=
  ∃ at_ cs v, Tag "table" at_ cs ∈ descendants soup
              ∧ at_ !! "id" = Some v ∧ attr_matches want v = true.

(** The final URL contains the case-details route. *)
Definition is_details_url (final_url : string) : Prop :=
  PyStr.contains "/CourtCase.aspx/Details/" final_url = true.

(** Tier (a): the title's prefix before the first dash, stripped, when
    the pattern accepts it. *)
Definition tier_title (soup : node) : option string :=
  match find ["title"] [] soup with
  | Some title_tag =>
      let prefix :=
        PyStr.strip (PyStr.span_while (fun c => negb (Ascii.eqb c "-"))
                                      (get_text_strip title_tag)) in
      if PyStr.re_search_case_like prefix then Some prefix else None
  | None => None
  end.

(** Tier (b): the text of the first [h2] of class [case-heading], when
    there is any. *)
Definition tier_heading (soup : node) : option string :=
  match find ["h2"] [("class", "case-heading")] soup with
  | Some h => let t := get_text_strip h in
              if PyStr.truthy t then Some t else None
  | None => None
  end.

(** Tier (c): the value captured by [var caseNumber = '<value>'] in the
    first inline script that has the assignment. *)
Definition tier_script (soup : node) : option string :=
  head (omap (fun script => s ← tag_string script; PyStr.re_search_caseNumber s)
             (find_all ["script"] [] soup)).

(** The three tiers in order: the first that succeeds wins, and nothing
    of a later tier is used. *)
Definition three_tier_case_number (soup : node) : option string :=
  match tier_title soup with
  | Some c => Some c
  | None =>
      match tier_heading soup with
      | Some c => Some c
      | None => tier_script soup
      end
  end.

Fixpoint all_chars (p : ascii -> bool) (s : string) : bool :=
  match s with
  | EmptyString => true
  | String c s' => p c && all_chars p s'
  end.

(** A run of capital letters, then any characters of the same line,
    then a run of digits, somewhere in [s]: what [[A-Z]+.*\d+] finds. *)
Definition letters_then_digits (s : string) : Prop :=
  ∃ pre letters mid digits post,
    s = pre +:+ letters +:+ mid +:+ digits +:+ post
    ∧ PyStr.truthy letters = true ∧ all_chars PyStr.isupper_az letters = true
    ∧ all_chars (fun c => negb (Ascii.eqb c "010")) mid = true
    ∧ PyStr.truthy digits = true ∧ all_chars PyStr.isdigit digits = true.

(** A mapping from string keys to string values. *)
Definition mapping_of_strings (i : item) : Prop :=
  ∃ d, i = IDict d ∧ ∀ k x, d !! k = Some x → ∃ s, x = SStr s.

(** An ordered sequence of mappings from strings to strings. *)
Definition sequence_of_mappings (v : value) : Prop :=
  ∃ l, v = VList l ∧ Forall mapping_of_strings l.

(** An ordered sequence of plain strings. *)
Definition sequence_of_strings (v : value) : Prop :=
  ∃ l, v = VList l ∧ Forall (fun i => ∃ s, i = IStr s) l.

(** The docket-table grammar in the words of the specification: the
    cells of a body row zipped positionally against the header keys
    (the entry under the empty key is dropped), or, when the header and
    cell counts disagree or there are no headers, the synthetic keys
    [column_0], [column_1], ...; the row id goes under [id]. *)
Definition docket_entry_grammar (headers : list string) (cells : list node)
    (docket_id : string) : gmap string scalar :=
  if nonempty headers && (length headers =? length cells)%nat then
    <["id" := SStr docket_id]>
      (delete ""
         (foldl (fun (e : gmap string scalar) hc =>
                   <[hc.1 := SStr (get_text_strip hc.2)]> e)
                ∅ (zip headers cells)))
  else
    <["id" := SStr docket_id]>
      (foldl (fun (e : gmap string scalar) ic =>
                <["column_" +:+ str_of_nat ic.1 := SStr (get_text_strip ic.2)]> e)
             ∅ (zip (seq 0 (length cells)) cells)).

(** No cookie of the jar has a name that starts with the prefix of the
    anti-forgery cookie. *)
Definition no_csrf_cookie (jar : list (string * string)) : Prop :=
  ∀ c, c ∈ jar → PyStr.startswith "__RequestVerificationToken_" c.1 = false.

(** The input named [__RequestVerificationToken] is absent, or its
    value is absent or empty. *)
Definition csrf_input_missing (soup : node) : Prop :=
  match find ["input"] [("name", "__RequestVerificationToken")] soup with
  | None => True
  | Some i =>
      match get i "value" with
      | None => True
      | Some v => attr_truthy v = false
      end
  end.

Definition MissingCsrfCookie : exn :=
  ValueError "Could not find CSRF token cookie in response".

Definition MissingCsrfToken : exn :=
  ValueError "Could not find CSRF token in HTML".

(** The record [parse_case_details] holds after the case number and the
    detail tables (lines 229-283), before the parties, the charges and
    the docket history. *)
Definition detail_stage (soup : node) : result record :=
  case_number ← recover_case_number soup;
  extract_details soup (store_case_number case_number ∅).

(** A run of assignments [case_data[key] = value] of strings, oldest
    first. *)
Definition apply_updates (us : list (string * string)) (m : record) : record :=
  foldl (fun (m : record) kv => <[kv.1 := VStr kv.2]> m) m us.

(* ================================================================== *)
(** * Concrete pages and portals *)
(* ================================================================== *)

Module Demo.

(** A tag with its attributes given as a list. *)
Definition El (name : string) (attrs : list (string * attr_value))
    (contents : list node) : node :=
  Tag name (list_to_map attrs) contents.

Definition Txt : string -> node := NavigableString.

(** The string inside a [script] element. *)
Definition ScriptTxt : string -> node := SubclassString Script.

(** A parser given by a table: the listed bodies go to their trees, any
    other body to a document that holds it as one string. *)
Fixpoint parser (pages : list (string * node)) (body : string) : node :=
  match pages with
  | [] => El "[document]" [] [Txt body]
  | (b, tree) :: rest => if String.eqb b body then tree else parser rest body
  end.

(** [urljoin] of a base URL without a path and an absolute path. *)
Definition urljoin (base path : string) : string := base +:+ path.

(** A portal given by a table: the listed URLs answer with their
    response and set the given cookies, any other URL answers 404. *)
Fixpoint portal (routes : list (string * (response * list (string * string))))
    (r : request) (jar : list (string * string)) (w : unit)
    : result response * list (string * string) * unit :=
  match routes with
  | [] => (Ok (mk_response 404 "" (req_url r)), jar, w)
  | (u, (resp, set_cookies)) :: rest =>
      if String.eqb u (req_url r)
      then (Ok resp,
            List.filter (fun c => negb (existsb (fun n => String.eqb n.1 c.1) set_cookies)) jar
            ++ set_cookies, w)
      else portal rest r jar w
  end.

Definition clock (w : unit) : string := "09:15:00 AM".

Definition base : string := "https://benchmark.atlantaga.gov".

(** The landing page of scenario 1: [<html><body><form><input
    type="hidden" name="__RequestVerificationToken" value="tok1"/>
    </form></body></html>], sent with the cookie
    [__RequestVerificationToken_X9=v1]. *)
Definition landing_body : string :=
  "<html><body><form><input type=hidden name=__RequestVerificationToken value=tok1></form></body></html>".

Definition landing_tree : node :=
  El "[document]" []
    [El "html" []
       [El "body" []
          [El "form" []
             [El "input" [("type", AStr "hidden");
                          ("name", AStr "__RequestVerificationToken");
                          ("value", AStr "tok1")] []]]]].

(** A landing page without token, sent without anti-forgery cookie:
    [<html><body>No token here</body></html>]. *)
Definition bare_body : string := "<html><body>No token here</body></html>".

Definition bare_tree : node :=
  El "[document]" [] [El "html" [] [El "body" [] [Txt "No token here"]]].

(** The answer to a search without match:
    [<html><body><p>No results found</p></body></html>]. *)
Definition no_results_body : string := "<html><body><p>No results found</p></body></html>".

Definition no_results_tree : node :=
  El "[document]" []
    [El "html" [] [El "body" [] [El "p" [] [Txt "No results found"]]]].

Definition pages : list (string * node) :=
  [(landing_body, landing_tree); (bare_body, bare_tree);
   (no_results_body, no_results_tree)].

Definition landing_url : string := base +:+ "/BenchmarkWeb/Home.aspx/Search".
Definition search_url : string := base +:+ "/BenchmarkWeb/CourtCase.aspx/CaseSearch".

(** The portal of scenario 1. *)
Definition site : transport unit :=
  portal
    [(landing_url, (mk_response 200 landing_body landing_url,
                    [("ASP.NET_SessionId", "s1"); ("__RequestVerificationToken_X9", "v1")]));
     (search_url, (mk_response 200 no_results_body search_url, []))].

(** A portal whose landing page carries neither cookie nor token. *)
Definition bare_site : transport unit :=
  portal
    [(landing_url, (mk_response 200 bare_body landing_url,
                    [("ASP.NET_SessionId", "s1")]))].

Definition name_search (term : string) : search_call :=
  mk_search_call term SEARCH_TYPE_NAME None None None None None None None ∅.

(** The tree of [<html><body><table class="table"><tr><th>Case Number:
    </th><td>25TR089095</td></tr></table></body></html>]: no title, no
    case heading, no script. *)
Definition page_labelled_number : node :=
  El "[document]" []
    [El "html" []
       [El "body" []
          [El "table" [("class", AList ["table"])]
             [El "tr" []
                [El "th" [] [Txt "Case Number:"];
                 El "td" [] [Txt "25TR089095"]]]]]].

(** The tree of [<html><head><title>25TR089095 - STATE vs DOE</title>
    </head><body><p>No docket yet</p></body></html>]. *)
Definition page_plain : node :=
  El "[document]" []
    [El "html" []
       [El "head" [] [El "title" [] [Txt "25TR089095 - STATE vs DOE"]];
        El "body" [] [El "p" [] [Txt "No docket yet"]]]].

(** The tree of [<html><body><div id="charges"><table><tr>
    <td>40-6-181</td><td>Speeding</td></tr></table></div></body></html>]. *)
Definition page_charges : node :=
  El "[document]" []
    [El "html" []
       [El "body" []
          [El "div" [("id", AStr "charges")]
             [El "table" []
                [El "tr" []
                   [El "td" [] [Txt "40-6-181"];
                    El "td" [] [Txt "Speeding"]]]]]]].

(** The tree of the summary fragment [<dl class="dl-horizontal">
    <dt>Case Type:</dt><dd>Traffic</dd></dl><table id="gridCharges">
    <thead><tr><th>Statute</th><th>Description</th></tr></thead>
    <tbody><tr><td>40-6-181</td><td>Speeding</td></tr></tbody></table>]. *)
Definition fragment_summary : node :=
  El "[document]" []
    [El "dl" [("class", AList ["dl-horizontal"])]
       [El "dt" [] [Txt "Case Type:"]; El "dd" [] [Txt "Traffic"]];
     El "table" [("id", AStr "gridCharges")]
       [El "thead" []
          [El "tr" [] [El "th" [] [Txt "Statute"]; El "th" [] [Txt "Description"]]];
        El "tbody" []
          [El "tr" [] [El "td" [] [Txt "40-6-181"]; El "td" [] [Txt "Speeding"]]]]].

(** The tree of a docket table: [<table id="gridDockets"><thead><tr>
    <th></th><th>Date</th><th>Docket Text</th></tr></thead><tbody>
    <tr><td><img id="img_77"></td><td>1/1/2020</td><td>Filed</td></tr>
    <tr><td><img rel="78"></td><td>1/2/2020</td></tr></tbody></table>]:
    the second row has one cell less than there are headers. *)
Definition docket_table : node :=
  El "table" [("id", AStr "gridDockets")]
    [El "thead" []
       [El "tr" [] [El "th" [] []; El "th" [] [Txt "Date"];
                    El "th" [] [Txt "Docket Text"]]];
     El "tbody" []
       [El "tr" []
          [El "td" [] [El "img" [("id", AStr "img_77")] []];
           El "td" [] [Txt "1/1/2020"]; El "td" [] [Txt "Filed"]];
        El "tr" []
          [El "td" [] [El "img" [("rel", AList ["78"])] []];
           El "td" [] [Txt "1/2/2020"]]]].

Definition fragment_dockets : node := El "[document]" [] [docket_table].

(** The tree of [<dl class="dl-horizontal"><dt>Judge</dt><dt>Status</dt>
    <dd>Smith</dd><dt>Filed</dt><dd>Open</dd></dl>]: three labels and
    two values; [Status] stands next to [Smith] and [Filed] next to
    [Open]. *)
Definition dl_uneven : node :=
  El "dl" [("class", AList ["dl-horizontal"])]
    [El "dt" [] [Txt "Judge"]; El "dt" [] [Txt "Status"];
     El "dd" [] [Txt "Smith"]; El "dt" [] [Txt "Filed"];
     El "dd" [] [Txt "Open"]].

(** A case page without the two script variables, with a detail row
    labelled [URL]: [<html><body><table class=table><tr><td>URL</td>
    <td>x</td></tr></table></body></html>]. *)
Definition case_body_no_ids : string :=
  "<html><body><table class=table><tr><td>URL</td><td>x</td></tr></table></body></html>".

Definition case_tree_no_ids : node :=
  El "[document]" []
    [El "html" []
       [El "body" []
          [El "table" [("class", AList ["table"])]
             [El "tr" [] [El "td" [] [Txt "URL"]; El "td" [] [Txt "x"]]]]]].

(** A case page with both script variables and a docket table of its
    own: [<html><head><title>25TR089095 - STATE vs DOE</title></head>
    <body><script>var cid = 2574263 + 0; var caseDigest = 'F7EK';
    </script>] followed by the docket table of [docket_table] with the
    one row [<tr><td><img rel=1></td><td>old</td><td>stale</td></tr>]. *)
Definition case_body_ids : string :=
  "<html><head><title>25TR089095 - STATE vs DOE</title></head><body><script>var cid = 2574263 + 0; var caseDigest = 'F7EK';</script><table id=gridDockets><thead><tr><th></th><th>Date</th><th>Docket Text</th></tr></thead><tbody><tr><td><img rel=1></td><td>old</td><td>stale</td></tr></tbody></table></body></html>".

Definition case_tree_ids : node :=
  El "[document]" []
    [El "html" []
       [El "head" [] [El "title" [] [Txt "25TR089095 - STATE vs DOE"]];
        El "body" []
          [El "script" [] [ScriptTxt "var cid = 2574263 + 0; var caseDigest = 'F7EK';"];
           El "table" [("id", AStr "gridDockets")]
             [El "thead" []
                [El "tr" [] [El "th" [] []; El "th" [] [Txt "Date"];
                             El "th" [] [Txt "Docket Text"]]];
              El "tbody" []
                [El "tr" []
                   [El "td" [] [El "img" [("rel", AList ["1"])] []];
                    El "td" [] [Txt "old"]; El "td" [] [Txt "stale"]]]]]]].

Definition summary_body : string := "summary fragment".
Definition dockets_body : string := "dockets fragment".

Definition case_pages : list (string * node) :=
  [(case_body_no_ids, case_tree_no_ids); (case_body_ids, case_tree_ids);
   (summary_body, fragment_summary); (dockets_body, fragment_dockets)].

Definition case_url_no_ids : string :=
  base +:+ "/BenchmarkWeb/CourtCase.aspx/Details/1".
Definition case_url_ids : string :=
  base +:+ "/BenchmarkWeb/CourtCase.aspx/Details/2574263".

(** A portal that serves the two case pages and the two fragments of
    case 2574263. *)
Definition case_site : transport unit :=
  portal
    [(case_url_no_ids, (mk_response 200 case_body_no_ids case_url_no_ids, []));
     (case_url_ids, (mk_response 200 case_body_ids case_url_ids, []));
     (base +:+ "/BenchmarkWeb/CourtCase.aspx/DetailsSummary/2574263",
      (mk_response 200 summary_body
         (base +:+ "/BenchmarkWeb/CourtCase.aspx/DetailsSummary/2574263"), []));
     (base +:+ "/BenchmarkWeb/CourtCase.aspx/CaseDockets/2574263",
      (mk_response 200 dockets_body
         (base +:+ "/BenchmarkWeb/CourtCase.aspx/CaseDockets/2574263"), []))].

End Demo.

(* ================================================================== *)
(** * The results endpoint and the orchestrator *)
(* ================================================================== *)

From Stdlib Require DecimalNat.
Set Warnings "-register-all".

(** A Python object as [response.json()] and [search_and_get_results]
    hand it on: [None], a [bool], a number (kept as its literal), a
    [str], a [list] or a [dict] with string keys. *)
Inductive pyobj :=
| PNone
| PBool (b : bool)
| PNum (literal : string)
| PStr (s : string)
| PList (l : list pyobj)
| PDict (d : gmap string pyobj).

Definition obj_of_scalar (x : scalar) : pyobj :=
  match x with
  | SNone => PNone
  | SStr s => PStr s
  end.

Definition obj_of_item (i : item) : pyobj :=
  match i with
  | IStr s => PStr s
  | IDict d => PDict (obj_of_scalar <$> d)
  end.

Definition obj_of_value (v : value) : pyobj :=
  match v with
  | VStr s => PStr s
  | VList l => PList (obj_of_item <$> l)
  end.

(** A case record as a Python object. *)
Definition obj_of_record (r : gmap string value) : pyobj :=
  PDict (obj_of_value <$> r).

(** The exceptions of the methods below: those of the methods above,
    the decode error of [response.json()], and the two errors that
    [data.get(...)] and [len(...)] raise on an object of the wrong
    kind. *)
Inductive error :=
| Client (e : exn)
| JSONDecodeError
| AttributeError
| TypeError.

(** [str(i)] for an [int]. *)
Definition str_of_int (i : Z) : string :=
  if (i <? 0)%Z then "-" +:+ str_of_nat (Z.to_nat (- i)) else str_of_nat (Z.to_nat i).

(** [obj.get(key, default)]: only a [dict] has [get]. *)
Definition obj_get (o : pyobj) (key : string) (dflt : pyobj) : error + pyobj :=
  match o with
  | PDict d => inr (default dflt (d !! key))
  | _ => inl AttributeError
  end.

(** [len(obj)] *)
Definition obj_len (o : pyobj) : error + nat :=
  match o with
  | PStr s => inr (String.length s)
  | PList l => inr (length l)
  | PDict d => inr (size d)
  | _ => inl TypeError
  end.

(** Lines 395-412 of [get_results_data]: the DataTables parameters. *)
Definition results_params (start length_ order_column : Z) (order_direction : string)
    : gmap string scalar :=
  let params : gmap string scalar :=
    <["order[0][dir]" := SStr order_direction]>
    (<["order[0][column]" := SStr (str_of_int order_column)]>
     (<["search[regex]" := SStr "false"]>
      (<["search[value]" := SStr ""]>
       (<["length" := SStr (str_of_int length_)]>
        (<["start" := SStr (str_of_int start)]>
         (<["draw" := SStr "1"]> ∅)))))) in
  foldl (fun (params : gmap string scalar) (i : nat) =>
           let col := "columns[" +:+ str_of_nat i +:+ "]" in
           <[col +:+ "[search][regex]" := SStr "false"]>
           (<[col +:+ "[search][value]" := SStr ""]>
            (<[col +:+ "[orderable]" := SStr (if (0 <? i)%nat then "true" else "false")]>
             (<[col +:+ "[searchable]" := SStr "true"]>
              (<[col +:+ "[data]" := SStr (str_of_nat i)]> params)))))
        params (seq 0 6).

Section Orchestrator.

Context {World : Type}.
Variable send : transport World.
Variable BeautifulSoup : string -> node.
Variable urljoin : string -> string -> string.
Variable strftime_now : World -> string.

(** [response.json()]: the decoded body, or [None] when the body is not
    JSON and the call raises its decode error. *)
Variable json_loads : string -> option pyobj.

(** A method that can also raise the errors of this layer. *)
Definition M2 (A : Type) : Type := state World -> (error + A) * state World.

#[global] Instance M2_ret : MRet M2 := fun A a s => (inr a, s).
#[global] Instance M2_bind : MBind M2 :=
  fun A B f m s =>
    match m s with
    | (inl e, s') => (inl e, s')
    | (inr a, s') => f a s'
    end.

(** A method of the layer above, run in this one. *)
Definition from_client {A} (m : M A) : M2 A :=
  fun s => match m s with
           | (inl e, s') => (inl (Client e), s')
           | (inr a, s') => (inr a, s')
           end.

(** A pure step that may raise. *)
Definition pure2 {A} (r : error + A) : M2 A := fun s => (r, s).

(** The request of [get_results_data] (lines 415-427). *)
Definition results_request (base : string) (params : gmap string scalar) : request :=
  mk_request POST (urljoin base "/BenchmarkWeb/Search.aspx/CaseSearch") ∅ params
    (<["Origin" := base]>
     (<["Referer" := urljoin base "/BenchmarkWeb/CourtCase.aspx/CaseSearch"]>
      (<["X-Requested-With" := "XMLHttpRequest"]>
       (<["Content-Type" := "application/x-www-form-urlencoded; charset=UTF-8"]>
        (<["Accept" := "application/json, text/javascript, */*; q=0.01"]> ∅))))).

(** [get_results_data] (lines 372-433).  The log line of line 431
    evaluates [len(data.get('data', []))] and [data.get('recordsTotal',
    0)] and can raise. *)
Definition get_results_data (start length_ order_column : Z) (order_direction : string)
    : M2 pyobj :=
  let params := results_params start length_ order_column order_direction in
  base ← from_client (gets base_url);
  response ← from_client (session_request send (results_request base params));
  from_client (raise_for_status response);;
  data ← pure2 (match json_loads (text response) with
                | Some o => inr o
                | None => inl JSONDecodeError
                end);
  rows ← pure2 (obj_get data "data" (PList []));
  pure2 (obj_len rows);;
  pure2 (obj_get data "recordsTotal" (PNum "0"));;
  mret data.

(** [search_and_get_results] (lines 435-480) *)
Definition search_and_get_results (c : search_call) (max_results : Z) : M2 pyobj :=
  search_result ← from_client (search_with send BeautifulSoup urljoin c);
  if negb (success search_result) then mret (PList [])
  else
    let response_type := response_type search_result in
    if String.eqb response_type "case_details" then
      let case_url := result_url search_result in
      if PyStr.truthy case_url then
        case_data ← from_client
          (get_case_details_with_dockets send BeautifulSoup urljoin strftime_now case_url);
        mret (PList [obj_of_record case_data])
      else mret (PList [])
    else if String.eqb response_type "search_results" then
      results_data ← get_results_data 0 max_results 4 "desc";
      pure2 (obj_get results_data "data" (PList []))
    else mret (PList []).

End Orchestrator.

(** Lines 119-215 of [search]: what [search] does once the session
    holds a token. *)
Definition post_search {World} (send : transport World)
    (BeautifulSoup : string -> node) (urljoin : string -> string -> string)
    (c : search_call) : M search_result :=
  token ← gets _csrf_token_body;
  base ← gets base_url;
  response ← session_request send
    (search_request urljoin base (form_data_of_call token c));
  raise_for_status response;;
  mret (classify (BeautifulSoup (text response)) (text response) (url response)).

(* ================================================================== *)
(** * The command line: [search_command] of cli.py *)
(* ================================================================== *)

(** The filter options of the [search] sub-command as [argparse] hands
    them over: each is [None] or the text given. *)
Record cli_filters := mk_cli_filters {
  arg_court_types : option string;
  arg_party_types : option string;
  arg_divisions : option string;
  arg_opened_from : option string;
  arg_opened_to : option string;
  arg_closed_from : option string;
  arg_closed_to : option string;
}.

(** The three options of the search group, of which [argparse] admits
    exactly one on a command line. *)
Record cli_selector := mk_cli_selector {
  arg_name : option string;
  arg_case_number : option string;
  arg_attorney : option string;
}.

(** [a or b] on two [Optional[str]] *)
Definition py_or (a b : option string) : option string :=
  if truthy_opt a then a else b.

(** cli.py 34-38: the search type. *)
Definition cli_search_type (a : cli_selector) : string :=
  if truthy_opt (arg_case_number a) then SEARCH_TYPE_CASE_NUMBER
  else if truthy_opt (arg_attorney a) then SEARCH_TYPE_ATTORNEY
  else SEARCH_TYPE_NAME.

(** cli.py 41: the search term, [None] or a string. *)
Definition cli_search_term (a : cli_selector) : option string :=
  py_or (arg_name a) (py_or (arg_case_number a) (arg_attorney a)).

(** Exactly one option of the group is given, with the text [v]. *)
Definition one_given (a : cli_selector) (which : string) (v : string) : Prop :=
  (which = "Name" ∧ a = mk_cli_selector (Some v) None None)
  ∨ (which = "CaseNumber" ∧ a = mk_cli_selector None (Some v) None)
  ∨ (which = "Attorney" ∧ a = mk_cli_selector None None (Some v)).

(** [args.x.split(',')] under [if args.x:] (cli.py 44-49). *)
Definition split_if_given (o : option string) : option (list string) :=
  match o with
  | Some s => if PyStr.truthy s then Some (PyStr.split "," s) else None
  | None => None
  end.

(** [args.x] under [if args.x:] (cli.py 50-57). *)
Definition keep_if_given (o : option string) : option string :=
  match o with
  | Some s => if PyStr.truthy s then Some s else None
  | None => None
  end.

(** cli.py 42-66: the call of [search_and_get_results] that
    [search_command] makes for a search term and type; the keyword
    arguments it collects bind to the named parameters of [search]. *)
Definition cli_search_call (search_term search_type : string) (a : cli_filters)
    : search_call :=
  mk_search_call search_term search_type
    (split_if_given (arg_court_types a))
    (split_if_given (arg_party_types a))
    (split_if_given (arg_divisions a))
    (keep_if_given (arg_opened_from a))
    (keep_if_given (arg_opened_to a))
    (keep_if_given (arg_closed_from a))
    (keep_if_given (arg_closed_to a))
    ∅.

(* ================================================================== *)
(** * Vocabulary of the further properties *)
(* ================================================================== *)

(** The keys of the form body that [search] always writes. *)
Definition form_keys : list string :=
  ["__RequestVerificationToken"; "type"; "search"; "openedFrom"; "openedTo";
   "closedFrom"; "closedTo"; "courtTypes"; "caseTypes"; "partyTypes";
   "divisions"; "statutes"; "partyBirthYear"; "partyDOB"; "caseStatus";
   "propertyAddress"; "propertyCity"; "propertyZip"; "propertySubDivision";
   "lawFirm"; "unpaidPrincipleBalanceFrom"; "unpaidPrincipleBalanceTo";
   "electionDemandFrom"; "electionDemandTo"; "attorneyFileNumber"].

(** A key without space and without capital letter from A to Z. *)
Definition snake_key (k : string) : Prop :=
  all_chars (fun c => negb (Ascii.eqb c " ") && negb (PyStr.isupper_az c)) k = true.

(** The label and the value a row of a detail table contributes: the
    texts of its first two cells, when it has two and neither text is
    empty. *)
Definition row_pair (row : node) : option (string * string) :=
  match find_all ["th"; "td"] [] row with
  | c0 :: c1 :: _ =>
      let label := PyStr.rstrip_colon (get_text_strip c0) in
      let value := get_text_strip c1 in
      if PyStr.truthy label && PyStr.truthy value
      then Some (snake_case label, value) else None
  | _ => None
  end.

(** The key/value pairs of all detail tables of a document, in document
    order; the docket table gives none. *)
Definition detail_pairs (soup : node) : list (string * string) :=
  flat_map (fun table =>
              if attr_eq_str (get table "id") "gridDockets" then []
              else omap row_pair (find_all ["tr"] [] table))
           (find_all ["table"] [("class", "table")] soup).

(** The value the last pair with key [k] gives, if any. *)
Definition last_value (k : string) (pairs : list (string * string)) : option string :=
  snd <$> last (List.filter (fun kv => String.eqb kv.1 k) pairs).

(** A party of the base page: exactly a name and a type, both strings. *)
Definition base_party (i : item) : Prop :=
  ∃ name type_, i = IDict (<["type" := SStr type_]> (<["name" := SStr name]> ∅)).

(** A party of the summary fragment: a type and a name, and an attorney
    only when its text is not empty. *)
Definition summary_party (i : item) : Prop :=
  ∃ d type_ name,
    i = IDict d ∧ d !! "type" = Some (SStr type_) ∧ d !! "name" = Some (SStr name)
    ∧ (∀ k, is_Some (d !! k) → k ∈ ["type"; "name"; "attorney"])
    ∧ (∀ x, d !! "attorney" = Some x → ∃ a, x = SStr a ∧ PyStr.truthy a = true).

(** A docket entry: its id is there, as a string, and no key is empty. *)
Definition docket_entry (i : item) : Prop :=
  ∃ d docket_id,
    i = IDict d ∧ d !! "id" = Some (SStr docket_id) ∧ d !! "" = None
    ∧ ∀ k x, d !! k = Some x → ∃ s, x = SStr s.

(** A charge of the summary fragment: a mapping that is not empty and
    whose values are strings that are shown. *)
Definition summary_charge (i : item) : Prop :=
  ∃ c, i = IDict c ∧ c ≠ ∅ ∧ ∀ k x, c !! k = Some x → ∃ s, x = SStr s ∧ shown s = true.

(** The rows of a table body that have at least one [td]. *)
Definition rows_with_cells (tbody : node) : list node :=
  List.filter (fun row => nonempty (find_all ["td"] [] row)) (find_all ["tr"] [] tbody).

(** The session [s'] comes from [s] by at most [n] requests, each a GET
    without a form body; the base URL and the two cached anti-forgery
    values are those of [s]. *)
Definition only_gets {World} (n : nat) (s s' : state World) : Prop :=
  base_url s' = base_url s
  ∧ _csrf_token_body s' = _csrf_token_body s
  ∧ _csrf_cookie_name s' = _csrf_cookie_name s
  ∧ ∃ extra, sent s' = sent s ++ extra ∧ length extra ≤ n
             ∧ Forall (fun r => req_verb r = GET ∧ req_data r = ∅) extra.

(** The session [s'] comes from [s] by at most [n] requests, and has
    the base URL of [s]. *)
Definition sends_at_most {World} (n : nat) (s s' : state World) : Prop :=
  base_url s' = base_url s ∧ ∃ extra, sent s' = sent s ++ extra ∧ length extra ≤ n.

(* ================================================================== *)
(** * Further concrete pages and portals *)
(* ================================================================== *)

Module Demo2.

(** A session of [Demo.base] that holds the token [tok1]. *)
Definition with_token : state unit :=
  mk_state Demo.base [("__RequestVerificationToken_X9", "v1")] (Some "tok1")
    (Some "__RequestVerificationToken_X9") tt [].

(** A portal whose landing page sets the anti-forgery cookie but has no
    token input. *)
Definition cookie_only_site : transport unit :=
  Demo.portal
    [(Demo.landing_url, (mk_response 200 Demo.bare_body Demo.landing_url,
                         [("__RequestVerificationToken_X9", "v1")]))].

(** A portal that answers every request with the bare page and empties
    the cookie jar. *)
Definition forgetful_site : transport unit :=
  fun r jar w => (Ok (mk_response 200 Demo.bare_body (req_url r)), [], w).

(** The body of a docket table whose second row has only a header cell:
    [<tbody><tr><td><img rel="5"></td><td>1/1/2020</td></tr>
    <tr><th>Older entries</th></tr>
    <tr><td></td><td>1/2/2020</td></tr></tbody>]. *)
Definition gap_tbody : node :=
  Demo.El "tbody" []
    [Demo.El "tr" []
       [Demo.El "td" [] [Demo.El "img" [("rel", AList ["5"])] []];
        Demo.El "td" [] [Demo.Txt "1/1/2020"]];
     Demo.El "tr" [] [Demo.El "th" [] [Demo.Txt "Older entries"]];
     Demo.El "tr" []
       [Demo.El "td" [] []; Demo.El "td" [] [Demo.Txt "1/2/2020"]]].

(** A docket table with that body; two of its three headers are the
    same, and one reads [Id]. *)
Definition gap_table : node :=
  Demo.El "table" [("id", AStr "gridDockets")]
    [Demo.El "thead" []
       [Demo.El "tr" [] [Demo.El "th" [] [Demo.Txt "Id"];
                         Demo.El "th" [] [Demo.Txt "Date"]]];
     gap_tbody].

(** A summary fragment with blank places: [<dl class="dl-horizontal">
    <dt>Judge:</dt><dd>&amp;#160;</dd><dt>Case Type:</dt><dd>Traffic</dd>
    </dl><table id="gridParties"><tbody><tr><td>Defendant</td>
    <td><a>Doe, John</a></td><td></td></tr></tbody></table>
    <table id="gridCharges"><tbody><tr><td>&amp;#160;</td></tr></tbody>
    </table>]: the judge, the attorney and the only charge cell are
    blank. *)
Definition blank_summary : node :=
  Demo.El "[document]" []
    [Demo.El "dl" [("class", AList ["dl-horizontal"])]
       [Demo.El "dt" [] [Demo.Txt "Judge:"]; Demo.El "dd" [] [Demo.Txt "&#160;"];
        Demo.El "dt" [] [Demo.Txt "Case Type:"]; Demo.El "dd" [] [Demo.Txt "Traffic"]];
     Demo.El "table" [("id", AStr "gridParties")]
       [Demo.El "tbody" []
          [Demo.El "tr" []
             [Demo.El "td" [] [Demo.Txt "Defendant"];
              Demo.El "td" [] [Demo.El "a" [] [Demo.Txt "Doe, John"]];
              Demo.El "td" [] []]]];
     Demo.El "table" [("id", AStr "gridCharges")]
       [Demo.El "tbody" [] [Demo.El "tr" [] [Demo.El "td" [] [Demo.Txt "&#160;"]]]]].

End Demo2.

(* ================================================================== *)
(** * Properties *)
(* ================================================================== *)

(** ** The document tree *)

Lemma find_all_selects names tests soup n :
  n ∈ find_all names tests soup ↔ n ∈ descendants soup ∧ selects names tests n = true.
Proof.
  unfold find_all. rewrite !list_elem_of_In, filter_In. reflexivity.
Qed.

Lemma find_Some_selects names tests soup n :
  find names tests soup = Some n → n ∈ descendants soup ∧ selects names tests n = true.
Proof.
  unfold find. intros H. apply find_all_selects.
  destruct (find_all names tests soup) as [|x l] eqn:E; simplify_eq/=.
  apply list_elem_of_here.
Qed.

Lemma find_None_selects names tests soup :
  find names tests soup = None ↔
  ∀ n, n ∈ descendants soup → selects names tests n = false.
Proof.
  unfold find. split.
  - intros H n Hn. destruct (selects names tests n) eqn:E; [|done].
    assert (n ∈ find_all names tests soup) as Hin by (by apply find_all_selects).
    destruct (find_all names tests soup); [by apply elem_of_nil in Hin | done].
  - intros H. destruct (find_all names tests soup) as [|x l] eqn:E; [done|].
    assert (x ∈ find_all names tests soup) as Hin by (rewrite E; apply list_elem_of_here).
    apply find_all_selects in Hin as [Hd Hs]. rewrite (H x Hd) in Hs. done.
Qed.

Lemma find_table_with_id want soup :
  is_Some (find ["table"] [("id", want)] soup) ↔ contains_table_with_id want soup.
Proof.
  split.
  - intros [n Hn]. apply find_Some_selects in Hn as [Hd Hs].
    destruct n as [s|cls s|nm at_ cs]; [done..|]. simpl in Hs.
    rewrite orb_false_r, andb_true_r in Hs. apply andb_true_iff in Hs as [Hnm Hat].
    apply String.eqb_eq in Hnm as ->.
    destruct (at_ !! "id") as [v|] eqn:E; [|done].
    exists at_, cs, v. done.
  - intros (at_ & cs & v & Hd & Hid & Hm).
    destruct (find ["table"] [("id", want)] soup) eqn:E; [by eexists|].
    rewrite find_None_selects in E. specialize (E _ Hd). simpl in E.
    rewrite Hid, Hm in E. done.
Qed.

(** ** The string methods on a few inputs *)

Example strip_ex : PyStr.strip "  25TR089095 " = "25TR089095".
Proof. reflexivity. Qed.

Example split_ex :
  PyStr.split "-" "25TR1 - A vs B-C" = ["25TR1 "; " A vs B"; "C"]
  ∧ PyStr.split "-" "" = [""] ∧ PyStr.split "-" "a-" = ["a"; ""].
Proof. repeat split; reflexivity. Qed.

Example replace_ex : PyStr.replace "img_" "" "img_4711" = "4711".
Proof. reflexivity. Qed.

Example snake_case_ex : snake_case "Case Type" = "case_type".
Proof. reflexivity. Qed.

Example re_search_cid_ex :
  PyStr.re_search_cid "x; var cid = 2574263 + 0;" = Some "2574263"
  ∧ PyStr.re_search_cid "var cid = ;" = None.
Proof. split; reflexivity. Qed.

Example re_search_caseDigest_ex :
  PyStr.re_search_caseDigest "var caseDigest = 'F7EKw+8ZEQ';" = Some "F7EKw+8ZEQ"
  ∧ PyStr.re_search_caseDigest "var caseDigest = 'F7" = None
  ∧ PyStr.re_search_caseDigest "var caseDigest = '';" = None.
Proof. repeat split; reflexivity. Qed.

Example re_search_case_like_ex :
  PyStr.re_search_case_like "25TR089095" = true
  ∧ PyStr.re_search_case_like "Court Case Search" = false
  ∧ PyStr.re_search_case_like "abc123" = false.
Proof. repeat split; reflexivity. Qed.

(** ** The text of a tag on a few inputs *)

(** The text of a cell leaves out what stands inside a [script] or a
    [style] element of the cell and what stands in a comment; the text
    of the [script] element itself is its script, and so is its
    [.string]. *)
Example get_text_strip_ex :
  get_text_strip
    (Tag "td" ∅ [NavigableString " Status "; Tag "script" ∅ [SubclassString Script "var x = 1;"];
                 SubclassString Comment "hidden";
                 Tag "b" ∅ [NavigableString "Open"; Tag "style" ∅ [SubclassString Stylesheet "a{}"]]])
  = "StatusOpen"
  ∧ get_text_strip (Tag "script" ∅ [SubclassString Script " var x = 1; "]) = "var x = 1;"
  ∧ tag_string (Tag "script" ∅ [SubclassString Script " var x = 1; "]) = Some " var x = 1; ".
Proof. repeat split; vm_compute; reflexivity. Qed.

(** ** The error monad *)

Lemma bind_Ok {A B} (a : A) (f : A → result B) : (Ok a ≫= f) = f a.
Proof. reflexivity. Qed.

Lemma bind_inv {A B} (m : result A) (f : A → result B) b :
  (m ≫= f) = Ok b → ∃ a, m = Ok a ∧ f a = Ok b.
Proof. destruct m as [e|a]; [done|]. intros H. by exists a. Qed.

Lemma getitem_Some {A} (l : list A) i x : l !! i = Some x → getitem l i = Ok x.
Proof. unfold getitem. by intros ->. Qed.

Lemma getitem_lt {A} (l : list A) i : i < length l → ∃ x, getitem l i = Ok x.
Proof.
  intros H. destruct (lookup_lt_is_Some_2 l i H) as [x Hx].
  exists x. by apply getitem_Some.
Qed.

Lemma foldM_total {A B} (f : A → B → result A) (l : list B) :
  (∀ a b, b ∈ l → ∃ a', f a b = Ok a') → ∀ a, ∃ a', foldM f a l = Ok a'.
Proof.
  induction l as [|b l IH]; intros Hf a; simpl.
  - by exists a.
  - destruct (Hf a b) as [a' Ha']; [apply list_elem_of_here|]. rewrite Ha'.
    apply IH. intros a0 b0 Hb0. apply Hf. by apply list_elem_of_further.
Qed.

Lemma foldM_invariant {A B} (P : A → Prop) (f : A → B → result A) (l : list B) :
  (∀ a b a', P a → f a b = Ok a' → P a') →
  ∀ a a', P a → foldM f a l = Ok a' → P a'.
Proof.
  intros Hf. induction l as [|b l IH]; intros a a' Ha; simpl.
  - intros [= <-]. done.
  - destruct (f a b) as [e|a1] eqn:E; [done|]. apply IH. by eapply Hf.
Qed.

Lemma foldM_ext {A B} (f g : A → B → result A) (l : list B) a :
  (∀ a b, f a b = g a b) → foldM f a l = foldM g a l.
Proof.
  intros H. revert a. induction l as [|b l IH]; intros a; simpl; [done|].
  rewrite H. destruct (g a b); [done|]. apply IH.
Qed.

(** ** C1: classification of the search response *)

(** What [search] returns is the classification of the response to its
    POST. *)
Lemma search_returns_classification {World} (send : transport World)
    (BeautifulSoup : string → node) (urljoin : string → string → string)
    (c : search_call) (s s' : state World) (r : search_result) :
  search_with send BeautifulSoup urljoin c s = (Ok r, s') →
  ∃ resp, r = classify (BeautifulSoup (text resp)) (text resp) (url resp).
Proof.
  unfold search_with, search, mbind, M_bind, gets, session_request. cbn.
  destruct ((if negb (truthy_opt (_csrf_token_body s))
             then _get_search_page send BeautifulSoup urljoin else mret ()) s)
    as [[e|[]] s1]; [done|].
  destruct (send _ (cookies s1) (world s1)) as [[res jar] w].
  destruct res as [e|resp]; cbn; [done|]. unfold raise_for_status.
  destruct ((400 <=? status_code resp)%nat && (status_code resp <? 600)%nat); cbn; [done|].
  intros [= <- _]. by exists resp.
Qed.

(** C1.  The classification of a search response is first-match-wins:
    a body that contains a [table] with id [gridSearchResults] gives
    ResultsTable whatever the final URL is; otherwise a final URL that
    contains [/CourtCase.aspx/Details/] gives CaseDetailsRedirect;
    otherwise the outcome is NoResults with the fixed message.  Every
    (body, final URL) pair gets exactly one of the three outcomes. *)
Theorem C1_classification_first_match_wins (soup : node) (body final_url : string) :
  let o := outcome_of (classify soup body final_url) in
  (contains_table_with_id "gridSearchResults" soup
     ↔ o = Some (ResultsTable body final_url))
  ∧ (¬ contains_table_with_id "gridSearchResults" soup ∧ is_details_url final_url
     ↔ o = Some (CaseDetailsRedirect body final_url))
  ∧ (¬ contains_table_with_id "gridSearchResults" soup ∧ ¬ is_details_url final_url
     ↔ o = Some (NoResults "No results found or search failed" body))
  ∧ (∃ x, o = Some x ∧ ∀ y, o = Some y → y = x).
Proof.
  unfold classify, is_details_url. rewrite <- find_table_with_id.
  destruct (find ["table"] [("id", "gridSearchResults")] soup) as [t|] eqn:Ht;
    [|destruct (PyStr.contains "/CourtCase.aspx/Details/" final_url) eqn:Hu]; cbn.
  all: pose proof (@is_Some_None node) as HN.
  all: split_and!;
    try (eexists; split; [reflexivity|]; intros y Hy; by injection Hy).
  all: split; intros H; try done; try (by destruct H); try (by eexists);
    try (split; [by intros [? ?] | done]).
  all: destruct H as [H1 H2]; try done; exfalso; apply H1; by eexists.
Qed.

(** ** The extractor never raises *)

Lemma case_number_from_title_total soup :
  ∃ o, case_number_from_title soup = Ok o.
Proof.
  unfold case_number_from_title.
  destruct (find ["title"] [] soup) as [t|]; [|by eexists].
  destruct (PyStr.split "-" (get_text_strip t)) as [|p parts]; [by eexists|].
  cbn. destruct (PyStr.re_search_case_like (PyStr.strip p)); by eexists.
Qed.

Lemma recover_case_number_total soup :
  ∃ o, recover_case_number soup = Ok o.
Proof.
  unfold recover_case_number.
  destruct (case_number_from_title_total soup) as [o ->]. by eexists.
Qed.

Lemma apply_updates_app us vs m :
  apply_updates (us ++ vs) m = apply_updates vs (apply_updates us m).
Proof. unfold apply_updates. by rewrite foldl_app. Qed.

Lemma foldM_updates {B} (f : gmap string value → B → result (gmap string value))
    (l : list B) :
  (∀ b, ∃ us, ∀ m, f m b = Ok (apply_updates us m)) →
  ∃ us, ∀ m, foldM f m l = Ok (apply_updates us m).
Proof.
  intros Hf. induction l as [|b l [vs IH]]; simpl.
  - by exists [].
  - destruct (Hf b) as [us Hus]. exists (us ++ vs). intros m.
    rewrite Hus. cbn. rewrite IH. by rewrite apply_updates_app.
Qed.

Lemma detail_row_updates row :
  ∃ us, ∀ m, detail_row m row = Ok (apply_updates us m).
Proof.
  unfold detail_row.
  destruct (find_all ["th"; "td"] [] row) as [|c0 [|c1 cells]];
    [by exists [] | by exists [] |].
  cbn.
  destruct (PyStr.truthy (PyStr.rstrip_colon (get_text_strip c0))
            && PyStr.truthy (get_text_strip c1)).
  - by exists [(snake_case (PyStr.rstrip_colon (get_text_strip c0)), get_text_strip c1)].
  - by exists [].
Qed.

Lemma detail_table_updates table :
  ∃ us, ∀ m, detail_table m table = Ok (apply_updates us m).
Proof.
  unfold detail_table.
  destruct (attr_eq_str (get table "id") "gridDockets"); [by exists []|].
  apply foldM_updates, detail_row_updates.
Qed.

Lemma extract_details_updates soup :
  ∃ us, ∀ m, extract_details soup m = Ok (apply_updates us m).
Proof. unfold extract_details. apply foldM_updates, detail_table_updates. Qed.

Lemma party_row_total parties row : ∃ p, party_row parties row = Ok p.
Proof.
  unfold party_row.
  destruct (find_all ["td"] [] row) as [|c0 [|c1 cells]]; try by eexists.
Qed.

Lemma extract_parties_total soup m :
  ∃ m', extract_parties soup m = Ok m'
        ∧ (m' = m ∨ ∃ l, m' = <["parties" := VList l]> m)
        ∧ (find_or soup ["div"] [("id", "parties")] ["section"] [("class", "parties")]
             = None → m' = m).
Proof.
  unfold extract_parties.
  destruct (find_or soup _ _ _ _) as [sec|]; [|by exists m; eauto].
  destruct (foldM_total party_row (find_all ["tr"] [] sec)
              (fun a b _ => party_row_total a b) []) as [l ->].
  cbn. destruct (nonempty l); eexists; (split; [reflexivity|]); split; eauto; done.
Qed.

Lemma charge_rows_strings rows acc :
  Forall (fun i => ∃ s, i = IStr s) acc →
  Forall (fun i => ∃ s, i = IStr s) (foldl charge_row acc rows).
Proof.
  revert acc. induction rows as [|row rows IH]; intros acc Hacc; cbn; [done|].
  apply IH. unfold charge_row. destruct (nonempty _); [|done].
  destruct (PyStr.truthy _); [|done].
  apply Forall_app. split; [done|]. apply Forall_singleton. by eexists.
Qed.

Lemma extract_charges_shape soup m :
  (extract_charges soup m = m
   ∨ ∃ l, extract_charges soup m = <["charges" := VList l]> m
          ∧ Forall (fun i => ∃ s, i = IStr s) l)
  ∧ (find_or soup ["div"] [("id", "charges")] ["section"] [("class", "charges")]
       = None → extract_charges soup m = m).
Proof.
  unfold extract_charges.
  destruct (find_or soup _ _ _ _) as [sec|]; [|by eauto].
  destruct (nonempty _); split; eauto; try done.
  right. eexists. split; [done|]. by apply charge_rows_strings.
Qed.

Lemma first_of_truthy o v : truthy_attr o = Some v → ∃ s, first_of v = Ok s.
Proof.
  unfold truthy_attr. destruct o as [w|]; [|done].
  destruct (attr_truthy w) eqn:E; [|done]. intros [= <-].
  destruct w as [s|[|x l]]; try done; by eexists.
Qed.

Lemma docket_id_of_row_total cells : ∃ s, docket_id_of_row cells = Ok s.
Proof.
  unfold docket_id_of_row. destruct cells as [|c cells]; [by eexists|]. cbn.
  destruct (find ["img"] [] c) as [img|]; [|by eexists].
  destruct (truthy_attr (get img "rel")) as [r|] eqn:Er.
  { by apply first_of_truthy in Er. }
  destruct (truthy_attr (get img "id")) as [i|] eqn:Ei; [|by eexists].
  apply first_of_truthy in Ei as [s ->]. by eexists.
Qed.

Lemma zip_fold_total (headers : list string) (cells : list node) (idx : list nat) :
  (∀ i, i ∈ idx → i < length headers ∧ i < length cells) →
  ∀ e : gmap string scalar, ∃ e',
    foldM (fun (e : gmap string scalar) i =>
             h ← getitem headers i;
             c ← getitem cells i;
             mret (<[h := SStr (get_text_strip c)]> e)) e idx = Ok e'.
Proof.
  intros H. apply foldM_total. intros a i Hi.
  destruct (H i Hi) as [Hh Hc].
  destruct (getitem_lt headers i Hh) as [h ->].
  destruct (getitem_lt cells i Hc) as [c ->]. by eexists.
Qed.

Lemma docket_entry_of_row_total headers cells docket_id :
  ∃ e, docket_entry_of_row headers cells docket_id = Ok e.
Proof.
  unfold docket_entry_of_row.
  destruct (nonempty headers && (length headers =? length cells)%nat) eqn:E;
    [|by eexists].
  apply andb_true_iff in E as [_ E]. apply Nat.eqb_eq in E.
  destruct (zip_fold_total headers cells (seq 0 (length cells))) with (e := (∅ : gmap string scalar))
    as [e ->].
  { intros i Hi. apply list_elem_of_In, in_seq in Hi. lia. }
  cbn. destruct (bool_decide _); by eexists.
Qed.

Lemma docket_row_total headers entries row :
  ∃ l, docket_row headers entries row = Ok l.
Proof.
  unfold docket_row. destruct (nonempty _); [|by eexists].
  destruct (docket_id_of_row_total (find_all ["td"] [] row)) as [i ->]. cbn.
  destruct (docket_entry_of_row_total headers (find_all ["td"] [] row) i) as [e ->].
  by eexists.
Qed.

Lemma docket_entries_of_total table : ∃ l, docket_entries_of table = Ok l.
Proof.
  unfold docket_entries_of. destruct (find ["tbody"] [] table); [|by eexists].
  apply foldM_total. intros. apply docket_row_total.
Qed.

Lemma extract_dockets_total soup m :
  ∃ m', extract_dockets soup m = Ok m'
        ∧ (m' = m ∨ ∃ l, m' = <["docket_history" := VList l]> m)
        ∧ (find ["table"] [("id", "gridDockets")] soup = None → m' = m).
Proof.
  unfold extract_dockets.
  destruct (find ["table"] [("id", "gridDockets")] soup) as [t|]; [|by exists m; eauto].
  destruct (docket_entries_of_total t) as [l ->]. cbn.
  destruct (nonempty l); eexists; (split; [reflexivity|]); split; eauto; done.
Qed.

Lemma detail_stage_total soup : ∃ d, detail_stage soup = Ok d.
Proof.
  unfold detail_stage. destruct (recover_case_number_total soup) as [o ->]. cbn.
  destruct (extract_details_updates soup) as [us ->]. by eexists.
Qed.

(** [parse_case_details] returns a record for every document: no
    subscript of it is ever out of range. *)
Lemma parse_case_details_total soup : ∃ r, parse_case_details soup = Ok r.
Proof.
  unfold parse_case_details. destruct (recover_case_number_total soup) as [o ->]. cbn.
  destruct (extract_details_updates soup) as [us ->]. cbn.
  destruct (extract_parties_total soup (apply_updates us (store_case_number o ∅)))
    as (m1 & -> & _). cbn.
  destruct (extract_dockets_total soup (extract_charges soup m1)) as (m2 & -> & _).
  by eexists.
Qed.

(** The stages after the detail tables, in terms of [detail_stage]. *)
Lemma parse_case_details_stages soup d :
  detail_stage soup = Ok d →
  ∃ m1 r, extract_parties soup d = Ok m1
          ∧ extract_dockets soup (extract_charges soup m1) = Ok r
          ∧ parse_case_details soup = Ok r.
Proof.
  unfold detail_stage, parse_case_details.
  destruct (recover_case_number soup) as [e|o]; [done|]. cbn. intros ->. cbn.
  destruct (extract_parties_total soup d) as (m1 & -> & _). cbn.
  destruct (extract_dockets_total soup (extract_charges soup m1)) as (m2 & Hm2 & _).
  exists m1, m2. rewrite Hm2. done.
Qed.

(** ** C3: absent sections *)

Lemma apply_updates_lookup us (m : gmap string value) k v :
  apply_updates us m !! k = Some v → (∃ s, v = VStr s) ∨ m !! k = Some v.
Proof.
  revert m. induction us as [|[k' s'] us IH]; intros m; cbn; [by right|].
  intros H. apply IH in H as [H|H]; [by left|].
  destruct (decide (k' = k)) as [->|Hne].
  - rewrite lookup_insert_eq in H. left. exists s'. congruence.
  - rewrite lookup_insert_ne in H by done. by right.
Qed.

Lemma store_case_number_lookup o k v :
  store_case_number o ∅ !! k = Some v → ∃ s, v = VStr s.
Proof.
  unfold store_case_number. destruct o as [cn|]; [destruct (PyStr.truthy cn)|];
    try (by rewrite lookup_empty).
  destruct (decide ("case_number" = k)) as [<-|Hne].
  - rewrite lookup_insert_eq. intros [= <-]. by eexists.
  - rewrite lookup_insert_ne, lookup_empty by done. done.
Qed.

(** After the detail tables every value of the record is a string. *)
Lemma detail_stage_strings soup d k v :
  detail_stage soup = Ok d → d !! k = Some v → ∃ s, v = VStr s.
Proof.
  unfold detail_stage. destruct (recover_case_number soup) as [e|o]; [done|]. cbn.
  destruct (extract_details_updates soup) as [us ->]. intros [= <-] H.
  apply apply_updates_lookup in H as [H|H]; [done|].
  by eapply store_case_number_lookup.
Qed.

(** The claim as written fails: the page [Demo.page_plain] has no docket
    table, and the record parsed from it has no [docket_history] entry
    at all, so it does not hold an empty sequence under that key. *)
Lemma C3_counterexample_docket_key_omitted :
  ¬ (find ["table"] [("id", "gridDockets")] Demo.page_plain = None →
     ∃ r, parse_case_details Demo.page_plain = Ok r
          ∧ r !! "docket_history" = Some (VList [])).
Proof.
  intros H. destruct (H eq_refl) as (r & Hr & Hd).
  assert (parse_case_details Demo.page_plain
          = Ok (<["case_number" := VStr "25TR089095"]> ∅)) as Hp
    by (vm_compute; reflexivity).
  rewrite Hp in Hr. injection Hr as <-. by rewrite lookup_insert_ne in Hd.
Qed.

(** C3 (amended).  [parse_case_details] raises no error on any
    document.  When the docket table ([gridDockets]) is absent it adds
    no [docket_history] entry: the key is omitted, it does not hold an
    empty sequence.  Likewise an absent parties or charges section adds
    no [parties] or [charges] entry.  Such a key is then in the record
    only if a generic detail-table row carries that label, and then it
    holds that row's text, never a sequence. *)
Theorem C3_absent_sections_add_no_entry (soup : node) :
  ∃ d r,
    detail_stage soup = Ok d
    ∧ parse_case_details soup = Ok r
    ∧ (∀ k l, d !! k ≠ Some (VList l))
    ∧ (find ["table"] [("id", "gridDockets")] soup = None →
       r !! "docket_history" = d !! "docket_history")
    ∧ (find_or soup ["div"] [("id", "parties")] ["section"] [("class", "parties")] = None →
       r !! "parties" = d !! "parties")
    ∧ (find_or soup ["div"] [("id", "charges")] ["section"] [("class", "charges")] = None →
       r !! "charges" = d !! "charges").
Proof.
  destruct (detail_stage_total soup) as [d Hd].
  destruct (parse_case_details_stages soup d Hd) as (m1 & r & Hp & Hk & Hr).
  exists d, r. split_and!; try done.
  - intros k l Hl. by destruct (detail_stage_strings soup d k _ Hd Hl).
  - intros Hnone.
    destruct (extract_dockets_total soup (extract_charges soup m1)) as (r' & Hr' & _ & Habs).
    rewrite Hk in Hr'. injection Hr' as <-. rewrite (Habs Hnone).
    destruct (extract_charges_shape soup m1) as [[->|(l & -> & _)] _];
      [|rewrite lookup_insert_ne by done];
      destruct (extract_parties_total soup d) as (m1' & Hm1 & [->|[l' ->]] & _);
      rewrite Hp in Hm1; injection Hm1 as ->; try done;
      by rewrite lookup_insert_ne.
  - intros Hnone.
    destruct (extract_parties_total soup d) as (m1' & Hm1 & _ & Habs).
    rewrite Hp in Hm1. injection Hm1 as ->. rewrite (Habs Hnone) in Hk.
    destruct (extract_dockets_total soup (extract_charges soup d)) as (r' & Hr' & [->|[l ->]] & _);
      rewrite Hk in Hr'; injection Hr' as ->;
      [|rewrite lookup_insert_ne by done];
      destruct (extract_charges_shape soup d) as [[->|(l' & -> & _)] _]; try done;
      by rewrite lookup_insert_ne.
  - intros Hnone.
    destruct (extract_charges_shape soup m1) as [_ Habs]. rewrite (Habs Hnone) in Hk.
    destruct (extract_dockets_total soup m1) as (r' & Hr' & [->|[l ->]] & _);
      rewrite Hk in Hr'; injection Hr' as ->;
      [|rewrite lookup_insert_ne by done];
      destruct (extract_parties_total soup d) as (m1' & Hm1 & [->|[l' ->]] & _);
      rewrite Hp in Hm1; injection Hm1 as ->; try done;
      by rewrite lookup_insert_ne.
Qed.

(** ** C7: recovery of the case number *)

Lemma split_head sep s :
  ∃ tl, PyStr.split sep s
        = PyStr.span_while (fun c => negb (Ascii.eqb c sep)) s :: tl.
Proof.
  induction s as [|c s [tl IH]]; cbn; [by eexists|].
  destruct (Ascii.eqb c sep); cbn; [by eexists|].
  rewrite IH. by eexists.
Qed.

Lemma case_number_from_title_spec soup :
  case_number_from_title soup = Ok (tier_title soup).
Proof.
  unfold case_number_from_title, tier_title.
  destruct (find ["title"] [] soup) as [t|]; [|done].
  destruct (split_head "-" (get_text_strip t)) as [tl ->]. cbn.
  by destruct (PyStr.re_search_case_like _).
Qed.

Lemma case_like_truthy armed s :
  PyStr.case_like_go armed s = true → PyStr.truthy s = true.
Proof. by destruct s. Qed.

Lemma tier_title_truthy soup c : tier_title soup = Some c → PyStr.truthy c = true.
Proof.
  unfold tier_title. destruct (find ["title"] [] soup); [|done].
  destruct (PyStr.re_search_case_like _) eqn:E; [|done].
  intros [= <-]. by eapply case_like_truthy.
Qed.

Lemma search_from_inv {A} (here : string → option A) s r :
  PyStr.search_from here s = Some r → ∃ s', here s' = Some r.
Proof.
  induction s as [|c s IH]; cbn.
  - destruct (here EmptyString) eqn:E; [|done]. intros [= <-]. by eexists.
  - destruct (here (String c s)) eqn:E; [intros [= <-]; by eexists | apply IH].
Qed.

Lemma re_search_caseNumber_truthy s g :
  PyStr.re_search_caseNumber s = Some g → PyStr.truthy g = true.
Proof.
  intros H. apply search_from_inv in H as [s' H]. unfold PyStr.quoted_here in H.
  destruct (PyStr.strip_prefix _ s') as [rest|]; [|done].
  destruct (PyStr.truthy (PyStr.span_while PyStr.not_quote rest)) eqn:E; [|done].
  destruct (true && _); [|done]. by injection H as <-.
Qed.

Lemma re_search_caseNumber_empty : PyStr.re_search_caseNumber "" = None.
Proof. reflexivity. Qed.

Lemma first_script_match_spec scripts :
  first_script_match scripts
  = head (omap (fun script => s ← tag_string script; PyStr.re_search_caseNumber s)
               scripts).
Proof.
  induction scripts as [|sc scripts IH]; cbn; [done|].
  destruct (tag_string sc) as [s|]; cbn; [|done].
  destruct s as [|c s]; cbn -[PyStr.re_search_caseNumber].
  - by rewrite re_search_caseNumber_empty.
  - by destruct (PyStr.re_search_caseNumber (String c s)).
Qed.

Lemma tier_script_truthy soup g : tier_script soup = Some g → PyStr.truthy g = true.
Proof.
  unfold tier_script. intros H. apply head_Some in H as [l' H].
  assert (g ∈ omap (fun script => s ← tag_string script; PyStr.re_search_caseNumber s)
                   (find_all ["script"] [] soup)) as Hin
    by (rewrite H; apply list_elem_of_here).
  apply list_elem_of_omap in Hin as (sc & _ & Hg). clear H. rename Hg into H.
  destruct (tag_string sc) as [s|]; [|done]. cbn in H.
  by eapply re_search_caseNumber_truthy.
Qed.

(** What lines 231-264 store: the case number of the first tier that
    succeeds, or nothing. *)
Lemma recover_case_number_spec soup :
  ∃ cn, recover_case_number soup = Ok cn
        ∧ ∀ m : gmap string value,
            store_case_number cn m
            = match three_tier_case_number soup with
              | Some c => <["case_number" := VStr c]> m
              | None => m
              end.
Proof.
  unfold recover_case_number. rewrite case_number_from_title_spec. cbn.
  eexists; split; [reflexivity|]. intros m.
  unfold three_tier_case_number, case_number_from_heading, case_number_from_script.
  destruct (tier_title soup) as [c|] eqn:Ea.
  { assert (truthy_opt (Some c) = true) as Ht by (by eapply tier_title_truthy).
    rewrite !Ht. cbn [negb]. rewrite Ht. cbn [negb].
    unfold store_case_number. cbn in Ht. by rewrite Ht. }
  cbn [truthy_opt negb]. unfold tier_heading.
  rewrite first_script_match_spec. fold (tier_script soup).
  destruct (find ["h2"] [("class", "case-heading")] soup) as [h|].
  - destruct (PyStr.truthy (get_text_strip h)) eqn:Eb; cbn [truthy_opt]; rewrite Eb; cbn [negb].
    + unfold store_case_number. by rewrite Eb.
    + destruct (tier_script soup) as [g|] eqn:Ec; unfold store_case_number.
      * by rewrite (tier_script_truthy _ _ Ec).
      * by rewrite Eb.
  - cbn [truthy_opt negb].
    destruct (tier_script soup) as [g|] eqn:Ec; unfold store_case_number; [|done].
    by rewrite (tier_script_truthy _ _ Ec).
Qed.

Lemma apply_updates_notin us (m : gmap string value) k :
  k ∉ us.*1 → apply_updates us m !! k = m !! k.
Proof.
  revert m. induction us as [|[k' s'] us IH]; intros m Hk; [done|].
  cbn in Hk. apply not_elem_of_cons in Hk as [Hne Hk].
  change (apply_updates ((k', s') :: us) m)
    with (apply_updates us (<[k' := VStr s']> m)).
  rewrite IH by done. by rewrite lookup_insert_ne.
Qed.

Lemma parse_case_details_case_number soup d r :
  detail_stage soup = Ok d → parse_case_details soup = Ok r →
  r !! "case_number" = d !! "case_number".
Proof.
  intros Hd Hr.
  destruct (parse_case_details_stages soup d Hd) as (m1 & r' & Hp & Hk & Hr').
  rewrite Hr in Hr'. injection Hr' as <-.
  destruct (extract_dockets_total soup (extract_charges soup m1)) as (r' & Hr' & [->|[l ->]] & _);
    rewrite Hk in Hr'; injection Hr' as ->;
    [|rewrite lookup_insert_ne by done];
    (destruct (extract_charges_shape soup m1) as [[->|(l' & -> & _)] _];
     [|rewrite lookup_insert_ne by done]);
    destruct (extract_parties_total soup d) as (m1' & Hm1 & [->|[l2 ->]] & _);
    rewrite Hp in Hm1; injection Hm1 as ->; try done;
    by rewrite lookup_insert_ne.
Qed.

(** The pattern test of tier (a) is [[A-Z]+.*\d+] searched anywhere. *)

Lemma append_nil (X : string) : EmptyString +:+ X = X.
Proof. reflexivity. Qed.

Lemma append_cons c (s X : string) : String c s +:+ X = String c (s +:+ X).
Proof. reflexivity. Qed.

Lemma case_like_armed_mono s :
  PyStr.case_like_go false s = true → PyStr.case_like_go true s = true.
Proof.
  induction s as [|c s IH]; cbn; [done|].
  destruct (PyStr.isdigit c); [done|].
  destruct (PyStr.isupper_az c); [done|].
  destruct (Ascii.eqb c "010"); [done|]. apply IH.
Qed.

Lemma case_like_skip pre X armed :
  PyStr.case_like_go false X = true → PyStr.case_like_go armed (pre +:+ X) = true.
Proof.
  intros HX. revert armed.
  induction pre as [|c pre IH]; intros armed; rewrite ?append_nil, ?append_cons; cbn.
  - destruct armed; [by apply case_like_armed_mono | done].
  - destruct (armed && PyStr.isdigit c); [done|].
    destruct (PyStr.isupper_az c); [apply IH|].
    destruct (Ascii.eqb c "010"); apply IH.
Qed.

Lemma case_like_run l X :
  all_chars (fun c => negb (Ascii.eqb c "010")) l = true →
  PyStr.case_like_go true X = true → PyStr.case_like_go true (l +:+ X) = true.
Proof.
  intros Hl HX. induction l as [|c l IH]; rewrite ?append_nil, ?append_cons; cbn; [done|].
  cbn in Hl. apply andb_true_iff in Hl as [Hc Hl].
  destruct (PyStr.isdigit c); [done|].
  destruct (PyStr.isupper_az c); [by apply IH|].
  apply negb_true_iff in Hc. rewrite Hc. by apply IH.
Qed.

Lemma upper_not_newline c :
  PyStr.isupper_az c = true → negb (Ascii.eqb c "010") = true.
Proof.
  intros H. apply negb_true_iff. destruct (Ascii.eqb c "010") eqn:E; [|done].
  apply Ascii.eqb_eq in E as ->. done.
Qed.

Lemma all_upper_not_newline l :
  all_chars PyStr.isupper_az l = true →
  all_chars (fun c => negb (Ascii.eqb c "010")) l = true.
Proof.
  induction l as [|c l IH]; cbn; [done|].
  intros [Hc Hl]%andb_true_iff. by rewrite upper_not_newline, IH.
Qed.

Lemma letters_then_digits_cons c s :
  letters_then_digits s → letters_then_digits (String c s).
Proof.
  intros (pre & letters & mid & digits & post & -> & H).
  exists (String c pre), letters, mid, digits, post. by rewrite append_cons.
Qed.

Lemma case_like_go_inv s armed :
  PyStr.case_like_go armed s = true →
  (armed = true
   ∧ ∃ mid d post, s = mid +:+ String d post
                   ∧ all_chars (fun c => negb (Ascii.eqb c "010")) mid = true
                   ∧ PyStr.isdigit d = true)
  ∨ letters_then_digits s.
Proof.
  revert armed. induction s as [|c s IH]; intros armed; cbn; [done|].
  destruct (armed && PyStr.isdigit c) eqn:E1.
  { apply andb_true_iff in E1 as [-> Hd]. intros _. left. split; [done|].
    by exists EmptyString, c, s. }
  destruct (PyStr.isupper_az c) eqn:E2.
  { intros H. right. apply IH in H as [(_ & mid & d & post & -> & Hm & Hd)|H].
    - exists EmptyString, (String c EmptyString), mid, (String d EmptyString), post.
      rewrite !append_cons, !append_nil. cbn. rewrite E2, Hd. done.
    - by apply letters_then_digits_cons. }
  destruct (Ascii.eqb c "010") eqn:E3.
  { intros H. right. apply IH in H as [[? _]|H]; [done|].
    by apply letters_then_digits_cons. }
  intros H. apply IH in H as [(-> & mid & d & post & -> & Hm & Hd)|H].
  - left. split; [done|]. exists (String c mid), d, post.
    rewrite append_cons. cbn. by rewrite E3, Hm.
  - right. by apply letters_then_digits_cons.
Qed.

Lemma re_search_case_like_spec s :
  PyStr.re_search_case_like s = true ↔ letters_then_digits s.
Proof.
  split.
  - intros H. by apply case_like_go_inv in H as [[? _]|H].
  - intros (pre & letters & mid & digits & post & -> & Hl & Hu & Hm & Hd & Hds).
    apply case_like_skip.
    destruct letters as [|u letters]; [done|]. destruct digits as [|d digits]; [done|].
    rewrite !append_cons. cbn in Hu, Hds |- *.
    apply andb_true_iff in Hu as [Hu Hus]. apply andb_true_iff in Hds as [Hd1 _].
    rewrite Hu.
    apply case_like_run; [by apply all_upper_not_newline|].
    apply case_like_run; [done|]. cbn. by rewrite Hd1.
Qed.

(** The claim as written fails: on [Demo.page_labelled_number] all
    three tiers fail, and yet the record has a [case_number], taken from
    the detail-table row labelled "Case Number:". *)
Lemma C7_counterexample_detail_row_supplies_number :
  ¬ (three_tier_case_number Demo.page_labelled_number = None →
     ∃ r, parse_case_details Demo.page_labelled_number = Ok r
          ∧ r !! "case_number" = None).
Proof.
  intros H. destruct (H eq_refl) as (r & Hr & Hn).
  assert (parse_case_details Demo.page_labelled_number
          = Ok (<["case_number" := VStr "25TR089095"]> ∅)) as Hp
    by (vm_compute; reflexivity).
  rewrite Hp in Hr. injection Hr as <-. by rewrite lookup_insert_eq in Hn.
Qed.

(** C7 (amended).  The recovery of the case number is a three-tier
    fallback in which the first succeeding tier wins and nothing is
    merged across tiers: (a) the stripped title text before the first
    dash, accepted when and only when a run of capital letters is
    followed on the same line by a run of digits somewhere in it; else
    (b) the text of the first [h2] of class [case-heading], when not
    empty; else (c) the value captured by [var caseNumber = '<value>']
    in the first inline script that has it.  If all three fail the
    recovery stores no [case_number].  The record returned holds the
    recovered number under [case_number] unless a generic detail-table
    row is labelled that way: the row's text then takes the key. *)
Theorem C7_case_number_three_tier_fallback (soup : node) :
  ∃ cn us r,
    recover_case_number soup = Ok cn
    ∧ (∀ m : gmap string value,
         store_case_number cn m
         = match three_tier_case_number soup with
           | Some c => <["case_number" := VStr c]> m
           | None => m
           end)
    ∧ (∀ title_tag, find ["title"] [] soup = Some title_tag →
         let prefix :=
           PyStr.strip (PyStr.span_while (fun c => negb (Ascii.eqb c "-"))
                                         (get_text_strip title_tag)) in
         tier_title soup = Some prefix ↔ letters_then_digits prefix)
    ∧ (∀ m, extract_details soup m = Ok (apply_updates us m))
    ∧ parse_case_details soup = Ok r
    ∧ r !! "case_number" = apply_updates us (store_case_number cn ∅) !! "case_number"
    ∧ ("case_number" ∉ us.*1 →
       r !! "case_number" = VStr <$> three_tier_case_number soup).
Proof.
  destruct (recover_case_number_spec soup) as (cn & Hcn & Hstore).
  destruct (extract_details_updates soup) as [us Hus].
  destruct (parse_case_details_total soup) as [r Hr].
  assert (detail_stage soup = Ok (apply_updates us (store_case_number cn ∅))) as Hd.
  { unfold detail_stage. rewrite Hcn. cbn. apply Hus. }
  pose proof (parse_case_details_case_number soup _ r Hd Hr) as Hk.
  exists cn, us, r. split_and!; try done.
  - intros t Ht. cbv zeta. rewrite <- re_search_case_like_spec.
    unfold tier_title. rewrite Ht.
    destruct (PyStr.re_search_case_like _); split; done.
  - intros Hnot. rewrite Hk, apply_updates_notin, Hstore by done.
    destruct (three_tier_case_number soup); [by rewrite lookup_insert_eq | done].
Qed.

(** ** C4: the default identifier lists of the form body *)

(** The claim as written fails: the extra keyword arguments are merged
    last, so a search that leaves [court_types] unset and passes
    [courtTypes=''] posts an empty [courtTypes]. *)
Lemma C4_counterexample_kwargs_override :
  ¬ (form_data_of (Some "tok1") "Doe, John" SEARCH_TYPE_NAME None None None
       None None None None {["courtTypes" := SStr ""]} !! "courtTypes"
     = Some (SStr "22,2,20,21,7,10")).
Proof. vm_compute. discriminate. Qed.

(** C4 (amended).  For every search in which [court_types],
    [party_types] and [divisions] are unset, the built form body holds
    the documented non-empty defaults, comma-joined, under [courtTypes],
    [partyTypes] and [divisions], each unless the extra keyword
    arguments carry that very form key, whose value then wins. *)
Theorem C4_default_identifier_lists (token : option string)
    (search_term search_type : string)
    (opened_from opened_to closed_from closed_to : option string)
    (kwargs : gmap string scalar) :
  let form := form_data_of token search_term search_type None None None
                opened_from opened_to closed_from closed_to kwargs in
  form !! "courtTypes" = Some (default (SStr "22,2,20,21,7,10") (kwargs !! "courtTypes"))
  ∧ form !! "partyTypes" = Some (default (SStr "1,2,3,4,5") (kwargs !! "partyTypes"))
  ∧ form !! "divisions" = Some (default (SStr "1") (kwargs !! "divisions")).
Proof.
  cbv zeta. unfold form_data_of. rewrite !lookup_union.
  split_and!.
  - destruct (kwargs !! "courtTypes"); vm_compute; reflexivity.
  - destruct (kwargs !! "partyTypes"); vm_compute; reflexivity.
  - destruct (kwargs !! "divisions"); vm_compute; reflexivity.
Qed.

(** ** C8: the shape of the charges *)

Lemma foldl_updates {B} (f : gmap string value → B → gmap string value) (l : list B) :
  (∀ b, ∃ us, ∀ m, f m b = apply_updates us m) →
  ∃ us, ∀ m, foldl f m l = apply_updates us m.
Proof.
  intros Hf. induction l as [|b l [vs IH]]; cbn.
  - by exists [].
  - destruct (Hf b) as [us Hus]. exists (us ++ vs). intros m.
    by rewrite Hus, IH, apply_updates_app.
Qed.

Lemma summary_pair_updates p : ∃ us, ∀ m, summary_pair m p = apply_updates us m.
Proof.
  unfold summary_pair.
  destruct (PyStr.truthy _ && shown _).
  - by exists [(snake_case (PyStr.rstrip_colon (get_text_strip p.1)), get_text_strip p.2)].
  - by exists [].
Qed.

Lemma summary_dl_updates dl : ∃ us, ∀ m, summary_dl m dl = apply_updates us m.
Proof. unfold summary_dl. apply foldl_updates, summary_pair_updates. Qed.

Lemma insert_all_strings (d : gmap string scalar) h s :
  (∀ k x, d !! k = Some x → ∃ s, x = SStr s) →
  ∀ k x, <[h := SStr s]> d !! k = Some x → ∃ s, x = SStr s.
Proof.
  intros Hd k x. destruct (decide (h = k)) as [->|Hne].
  - rewrite lookup_insert_eq. intros [= <-]. by eexists.
  - rewrite lookup_insert_ne by done. apply Hd.
Qed.

Lemma foldl_invariant {A B} (P : A → Prop) (f : A → B → A) (l : list B) a :
  (∀ a b, P a → P (f a b)) → P a → P (foldl f a l).
Proof.
  intros Hf. revert a. induction l as [|b l IH]; intros a Ha; cbn; [done|].
  apply IH. by apply Hf.
Qed.

Lemma summary_charge_row_shape headers charges row l :
  summary_charge_row headers charges row = Ok l →
  Forall mapping_of_strings charges → Forall mapping_of_strings l.
Proof.
  unfold summary_charge_row. intros H Hc.
  destruct (nonempty (find_all ["td"] [] row)); [|by injection H as <-].
  apply bind_inv in H as (charge & Hcharge & H).
  assert (∀ k x, charge !! k = Some x → ∃ s, x = SStr s) as Hs.
  { destruct (nonempty headers && _).
    - eapply (foldM_invariant
                (fun d : gmap string scalar => ∀ k x, d !! k = Some x → ∃ s, x = SStr s));
        [| |exact Hcharge]; [|by intros ??; rewrite lookup_empty].
      intros a ic a' Ha. cbn. destruct (shown _); [|by intros [= <-]].
      intros Hb. apply bind_inv in Hb as (h & _ & [= <-]).
      by apply insert_all_strings.
    - injection Hcharge as <-.
      apply (foldl_invariant
               (fun d : gmap string scalar => ∀ k x, d !! k = Some x → ∃ s, x = SStr s));
        [|by intros ??; rewrite lookup_empty].
      intros a ic Ha. destruct (shown _); [|done]. by apply insert_all_strings. }
  destruct (bool_decide (charge ≠ ∅)); injection H as <-; [|done].
  apply Forall_app. split; [done|]. apply Forall_singleton. by exists charge.
Qed.

Lemma summary_charges_shape headers rows acc l :
  foldM (summary_charge_row headers) acc rows = Ok l →
  Forall mapping_of_strings acc → Forall mapping_of_strings l.
Proof.
  intros H Hacc.
  eapply (foldM_invariant (Forall mapping_of_strings)); [|exact Hacc|exact H].
  intros a b a' Ha Hb. by eapply summary_charge_row_shape.
Qed.

Lemma summary_of_soup_charges soup d v :
  summary_of_soup soup = Ok d → d !! "charges" = Some v →
  (∃ s, v = VStr s) ∨ sequence_of_mappings v.
Proof.
  unfold summary_of_soup.
  destruct (foldl_updates summary_dl (find_all ["dl"] [("class", "dl-horizontal")] soup)
              summary_dl_updates) as [us Hus].
  rewrite Hus. intros H Hv.
  apply bind_inv in H as (m1 & Hm1 & H).
  assert (∀ x, m1 !! "charges" = Some x → ∃ s, x = VStr s) as Hm1c.
  { intros x Hx.
    assert (m1 !! "charges" = apply_updates us ∅ !! "charges") as Heq.
    { destruct (find ["table"] [("id", "gridParties")] soup); [|by injection Hm1 as <-].
      apply bind_inv in Hm1 as (parties & _ & Hm1).
      destruct (nonempty parties); injection Hm1 as <-; [|done].
      by rewrite lookup_insert_ne. }
    rewrite Heq in Hx. apply apply_updates_lookup in Hx as [Hx|Hx]; [done|].
    by rewrite lookup_empty in Hx. }
  destruct (find ["table"] [("id", "gridCharges")] soup) as [t|];
    [|injection H as <-; left; by apply Hm1c].
  apply bind_inv in H as (charges & Hch & H).
  destruct (nonempty charges); injection H as <-; [|left; by apply Hm1c].
  rewrite lookup_insert_eq in Hv. injection Hv as <-. right.
  exists charges. split; [done|].
  destruct (find ["tbody"] [] t); [|by injection Hch as <-].
  by eapply summary_charges_shape.
Qed.

Lemma parse_case_details_charges soup r v :
  parse_case_details soup = Ok r → r !! "charges" = Some v →
  (∃ s, v = VStr s) ∨ sequence_of_strings v.
Proof.
  intros Hr Hv. destruct (detail_stage_total soup) as [d Hd].
  destruct (parse_case_details_stages soup d Hd) as (m1 & r' & Hp & Hk & Hr').
  rewrite Hr in Hr'. injection Hr' as <-.
  assert (r !! "charges" = extract_charges soup m1 !! "charges") as Heq.
  { destruct (extract_dockets_total soup (extract_charges soup m1))
      as (r' & Hr' & [->|[l ->]] & _); rewrite Hk in Hr'; injection Hr' as ->;
      [done | by rewrite lookup_insert_ne]. }
  rewrite Heq in Hv.
  destruct (extract_charges_shape soup m1) as [[Hc|(l & Hc & Hl)] _]; rewrite Hc in Hv.
  - left. eapply (detail_stage_strings soup d "charges"); [done|].
    destruct (extract_parties_total soup d) as (m1' & Hm1 & [->|[l' ->]] & _);
      rewrite Hp in Hm1; injection Hm1 as ->; [done|].
    by rewrite lookup_insert_ne in Hv.
  - rewrite lookup_insert_eq in Hv. injection Hv as <-. right. by exists l.
Qed.

(** The claim as written fails: the record parsed from the base page
    [Demo.page_charges] has a [charges] entry, and the entry is a
    sequence of strings, not of mappings. *)
Lemma C8_counterexample_base_page_charges_are_strings :
  ¬ (∀ r v, parse_case_details Demo.page_charges = Ok r →
            r !! "charges" = Some v → sequence_of_mappings v).
Proof.
  intros H.
  destruct (H (<["charges" := VList [IStr "40-6-181 Speeding"]]> ∅)
              (VList [IStr "40-6-181 Speeding"])) as (l & Hl & Hm).
  - vm_compute. reflexivity.
  - vm_compute. reflexivity.
  - injection Hl as <-. apply Forall_cons in Hm as [(d & Hd & _) _]. discriminate.
Qed.

(** C8 (amended).  The [charges] field of a record, when it holds a
    sequence, is an ordered sequence of mappings from string keys to
    string values when the summary fragment produced it, and an ordered
    sequence of plain strings (the cell texts of a row joined by a
    space) when the base case-details page produced it.  The only other
    value the key can hold in either is the text of a row or definition
    labelled that way. *)
Theorem C8_charges_shape (page fragment : node) (r d : gmap string value) :
  parse_case_details page = Ok r →
  summary_of_soup fragment = Ok d →
  (∀ v, r !! "charges" = Some v → (∃ s, v = VStr s) ∨ sequence_of_strings v)
  ∧ (∀ v, d !! "charges" = Some v → (∃ s, v = VStr s) ∨ sequence_of_mappings v).
Proof.
  intros Hr Hd. split; intros v Hv.
  - by eapply parse_case_details_charges.
  - by eapply summary_of_soup_charges.
Qed.

Lemma C8_charges_shape_witness :
  let r : gmap string value := <["charges" := VList [IStr "40-6-181 Speeding"]]> ∅ in
  let d : gmap string value :=
    <["charges" := VList [IDict (<["description" := SStr "Speeding"]>
                                 (<["statute" := SStr "40-6-181"]> ∅))]]>
      (<["case_type" := VStr "Traffic"]> ∅) in
  parse_case_details Demo.page_charges = Ok r
  ∧ summary_of_soup Demo.fragment_summary = Ok d
  ∧ (∀ v, r !! "charges" = Some v → (∃ s, v = VStr s) ∨ sequence_of_strings v)
  ∧ (∀ v, d !! "charges" = Some v → (∃ s, v = VStr s) ∨ sequence_of_mappings v).
Proof.
  cbv zeta.
  split; [vm_compute; reflexivity|]. split; [vm_compute; reflexivity|].
  apply (C8_charges_shape Demo.page_charges Demo.fragment_summary);
    vm_compute; reflexivity.
Defined.

(** ** C9: one docket grammar in two places *)

Lemma fragment_docket_id_eq cells : fragment_docket_id cells = docket_id_of_row cells.
Proof. reflexivity. Qed.

Lemma zip_fold_offset (hpre hs : list string) (cpre cs : list node) :
  length hpre = length cpre → length hs = length cs →
  ∀ e : gmap string scalar,
    foldM (fun (e : gmap string scalar) i =>
             h ← getitem (hpre ++ hs) i;
             c ← getitem (cpre ++ cs) i;
             mret (<[h := SStr (get_text_strip c)]> e))
          e (seq (length cpre) (length cs))
    = Ok (foldl (fun (e : gmap string scalar) hc =>
                   <[hc.1 := SStr (get_text_strip hc.2)]> e) e (zip hs cs)).
Proof.
  revert hpre cpre cs.
  induction hs as [|h hs IH]; intros hpre cpre [|c cs] Hpre Hlen e; try done.
  cbn [length seq foldM]. unfold getitem at 1 2.
  rewrite <- Hpre at 1. rewrite !list_lookup_middle by done. cbn.
  rewrite (cons_middle h hpre hs), (cons_middle c cpre cs), !app_assoc.
  replace (S (length cpre)) with (length (cpre ++ [c])) by (rewrite length_app; cbn; lia).
  apply IH; [rewrite !length_app; cbn; lia | by injection Hlen].
Qed.

Lemma zip_fold_spec (headers : list string) (cells : list node) :
  length headers = length cells →
  foldM (fun (e : gmap string scalar) i =>
           h ← getitem headers i;
           c ← getitem cells i;
           mret (<[h := SStr (get_text_strip c)]> e))
        ∅ (seq 0 (length cells))
  = Ok (foldl (fun (e : gmap string scalar) hc =>
                 <[hc.1 := SStr (get_text_strip hc.2)]> e) ∅ (zip headers cells)).
Proof. intros H. by apply (zip_fold_offset [] headers [] cells). Qed.

Lemma docket_entry_of_row_spec headers cells docket_id :
  docket_entry_of_row headers cells docket_id
  = Ok (docket_entry_grammar headers cells docket_id).
Proof.
  unfold docket_entry_of_row, docket_entry_grammar.
  destruct (nonempty headers && (length headers =? length cells)%nat) eqn:E; [|done].
  apply andb_true_iff in E as [_ E]. apply Nat.eqb_eq in E.
  rewrite zip_fold_spec by done. cbn.
  case_bool_decide as Hin; [done|].
  rewrite delete_id; [done|]. by apply eq_None_not_Some.
Qed.

Lemma fragment_docket_entry_spec headers cells docket_id :
  fragment_docket_entry headers cells docket_id
  = Ok (docket_entry_grammar headers cells docket_id).
Proof.
  unfold fragment_docket_entry, docket_entry_grammar.
  destruct (nonempty headers && (length headers =? length cells)%nat) eqn:E; [|done].
  apply andb_true_iff in E as [_ E]. apply Nat.eqb_eq in E.
  rewrite zip_fold_spec by done. cbn.
  case_bool_decide as Hin; [done|].
  rewrite delete_id; [done|]. by apply eq_None_not_Some.
Qed.

Lemma fragment_docket_row_eq headers entries row :
  fragment_docket_row headers entries row = docket_row headers entries row.
Proof.
  unfold fragment_docket_row, docket_row.
  destruct (nonempty _); [|done]. rewrite fragment_docket_id_eq.
  destruct (docket_id_of_row _) as [e|i]; [done|]. cbn.
  by rewrite fragment_docket_entry_spec, docket_entry_of_row_spec.
Qed.

Lemma fragment_docket_entries_eq table :
  fragment_docket_entries table = docket_entries_of table.
Proof.
  unfold fragment_docket_entries, docket_entries_of, header_keys.
  destruct (find ["tbody"] [] table); [|done].
  apply foldM_ext. intros. apply fragment_docket_row_eq.
Qed.

(** C9.  The docket fragment parser and the docket part of the base-page
    parser implement one grammar: on every docket table (id
    [gridDockets]) both produce the same ordered entries, entry for
    entry and key for key, and each entry is the one the grammar of the
    specification gives (snake-case header keys zipped positionally
    with the cells, [column_N] keys on a count mismatch, the id read
    from the image of the first cell in the same way). *)
Theorem C9_docket_parsers_agree (soup table : node) (body : string)
    (case_data : gmap string value) :
  find ["table"] [("id", "gridDockets")] soup = Some table →
  (∃ entries,
     docket_entries_of table = Ok entries
     ∧ fragment_docket_entries table = Ok entries
     ∧ dockets_of_soup soup body = Ok (mk_dockets_result true entries (Some body))
     ∧ extract_dockets soup case_data
       = Ok (if nonempty entries
             then <["docket_history" := VList entries]> case_data
             else case_data))
  ∧ (∀ cells, fragment_docket_id cells = docket_id_of_row cells)
  ∧ (∀ headers cells docket_id,
       docket_entry_of_row headers cells docket_id
       = Ok (docket_entry_grammar headers cells docket_id)
       ∧ fragment_docket_entry headers cells docket_id
         = Ok (docket_entry_grammar headers cells docket_id)).
Proof.
  intros Ht. split_and!.
  - destruct (docket_entries_of_total table) as [entries He].
    exists entries. split_and!; [done|by rewrite fragment_docket_entries_eq| |].
    + unfold dockets_of_soup. rewrite Ht, fragment_docket_entries_eq, He. done.
    + unfold extract_dockets. rewrite Ht, He. cbn. by destruct (nonempty entries).
  - apply fragment_docket_id_eq.
  - intros. split; [apply docket_entry_of_row_spec | apply fragment_docket_entry_spec].
Qed.

Lemma C9_docket_parsers_agree_witness :
  find ["table"] [("id", "gridDockets")] Demo.fragment_dockets = Some Demo.docket_table
  ∧ ∃ entries,
      docket_entries_of Demo.docket_table = Ok entries
      ∧ fragment_docket_entries Demo.docket_table = Ok entries
      ∧ entries
        = [IDict (<["id" := SStr "77"]>
                  (<["docket_text" := SStr "Filed"]> (<["date" := SStr "1/1/2020"]> ∅)));
           IDict (<["id" := SStr "78"]>
                  (<["column_1" := SStr "1/2/2020"]> (<["column_0" := SStr ""]> ∅)))].
Proof.
  split; [vm_compute; reflexivity|].
  destruct (C9_docket_parsers_agree Demo.fragment_dockets Demo.docket_table "" ∅)
    as [(entries & He & Hf & _) _]; [vm_compute; reflexivity|].
  exists entries. split; [done|]. split; [done|].
  vm_compute in He. by injection He as <-.
Defined.

(** ** C10: definition lists of the summary fragment *)

Lemma summary_party_row_total parties row : ∃ p, summary_party_row parties row = Ok p.
Proof.
  unfold summary_party_row.
  destruct (find_all ["td"] [] row) as [|c0 [|c1 [|c2 cells]]]; try by eexists.
Qed.

Lemma enumerate_lt {A} (l : list A) i x : (i, x) ∈ enumerate l → i < length l.
Proof.
  unfold enumerate. intros H. apply elem_of_zip_l in H.
  apply list_elem_of_In, in_seq in H. lia.
Qed.

Lemma summary_charge_row_total headers charges row :
  ∃ l, summary_charge_row headers charges row = Ok l.
Proof.
  unfold summary_charge_row. destruct (nonempty (find_all ["td"] [] row)); [|by eexists].
  destruct (nonempty headers && (length headers =? length _)%nat) eqn:E.
  - apply andb_true_iff in E as [_ E]. apply Nat.eqb_eq in E.
    edestruct (foldM_total
                 (fun (charge : gmap string scalar) (ic : nat * node) =>
                    let text := get_text_strip ic.2 in
                    if shown text then
                      h ← getitem headers ic.1;
                      mret (<[h := SStr text]> charge)
                    else mret charge)
                 (enumerate (find_all ["td"] [] row))) as [charge ->].
    { intros a [i c] Hic. cbn. destruct (shown _); [|by eexists].
      apply enumerate_lt in Hic. rewrite <- E in Hic.
      destruct (getitem_lt headers i Hic) as [h ->]. by eexists. }
    cbn. destruct (bool_decide _); by eexists.
  - cbn. destruct (bool_decide _); by eexists.
Qed.

(** [get_case_summary] never raises while it reads the fragment. *)
Lemma summary_of_soup_total soup : ∃ d, summary_of_soup soup = Ok d.
Proof.
  unfold summary_of_soup.
  set (m0 := foldl summary_dl ∅ _).
  assert (∃ m1,
    match find ["table"] [("id", "gridParties")] soup with
    | Some parties_table =>
        parties ←
          match find ["tbody"] [] parties_table with
          | Some party_rows => foldM summary_party_row [] (find_all ["tr"] [] party_rows)
          | None => mret []
          end;
        if nonempty parties then mret (<["parties" := VList parties]> m0)
        else mret m0
    | None => mret m0
    end = Ok m1) as [m1 ->].
  { destruct (find ["table"] [("id", "gridParties")] soup) as [t|]; [|by eexists].
    destruct (find ["tbody"] [] t) as [b|].
    - destruct (foldM_total summary_party_row (find_all ["tr"] [] b)
                  (fun a r _ => summary_party_row_total a r) []) as [l ->].
      cbn. destruct (nonempty l); by eexists.
    - by eexists. }
  cbn. destruct (find ["table"] [("id", "gridCharges")] soup) as [t|]; [|by eexists].
  destruct (find ["tbody"] [] t) as [b|].
  - destruct (foldM_total (summary_charge_row (header_keys t)) (find_all ["tr"] [] b)
                (fun a r _ => summary_charge_row_total (header_keys t) a r) []) as [l ->].
    cbn. destruct (nonempty l); by eexists.
  - by eexists.
Qed.

(** What one [dt]/[dd] pair leaves of a key other than its own, and
    what it stores under its own key. *)
Lemma summary_pair_other (m : gmap string value) (p : node * node) k :
  snake_case (PyStr.rstrip_colon (get_text_strip p.1)) ≠ k →
  summary_pair m p !! k = m !! k.
Proof.
  intros Hne. unfold summary_pair.
  destruct (PyStr.truthy _ && shown _); [|done]. by rewrite lookup_insert_ne.
Qed.

Lemma summary_pair_own (m : gmap string value) (p : node * node) :
  PyStr.truthy (PyStr.rstrip_colon (get_text_strip p.1)) = true →
  shown (get_text_strip p.2) = true →
  summary_pair m p !! snake_case (PyStr.rstrip_colon (get_text_strip p.1))
  = Some (VStr (get_text_strip p.2)).
Proof.
  intros Hl Hv. unfold summary_pair. rewrite Hl, Hv. cbn. apply lookup_insert_eq.
Qed.

Lemma summary_pairs_frame (l : list (node * node)) (m : gmap string value) k :
  (∀ p, p ∈ l → snake_case (PyStr.rstrip_colon (get_text_strip p.1)) ≠ k) →
  foldl summary_pair m l !! k = m !! k.
Proof.
  revert m. induction l as [|p l IH]; intros m H; cbn [foldl]; [done|].
  rewrite IH by (intros q Hq; apply H; by right).
  apply summary_pair_other, H. by left.
Qed.

Lemma summary_pairs_written (l : list (node * node)) (m : gmap string value) i p :
  l !! i = Some p →
  PyStr.truthy (PyStr.rstrip_colon (get_text_strip p.1)) = true →
  shown (get_text_strip p.2) = true →
  (∀ j q, i < j → l !! j = Some q →
     snake_case (PyStr.rstrip_colon (get_text_strip q.1))
     ≠ snake_case (PyStr.rstrip_colon (get_text_strip p.1))) →
  foldl summary_pair m l !! snake_case (PyStr.rstrip_colon (get_text_strip p.1))
  = Some (VStr (get_text_strip p.2)).
Proof.
  revert m i. induction l as [|q l IH]; intros m [|i] Hi Hl Hv Hlast; try done.
  - cbn in Hi. injection Hi as ->. cbn [foldl].
    rewrite summary_pairs_frame; [by apply summary_pair_own|].
    intros q [j Hj]%list_elem_of_lookup_1. apply (Hlast (S j)); [lia|done].
  - cbn [foldl]. apply (IH _ i); [done..|].
    intros j q' Hj Hq'. apply (Hlast (S j)); [lia|done].
Qed.

Lemma summary_pairs_origin (l : list (node * node)) (m : gmap string value) k v :
  foldl summary_pair m l !! k = Some v →
  m !! k = Some v
  ∨ ∃ i p, l !! i = Some p
           ∧ k = snake_case (PyStr.rstrip_colon (get_text_strip p.1))
           ∧ v = VStr (get_text_strip p.2).
Proof.
  revert m. induction l as [|p l IH]; intros m H; cbn [foldl] in H; [by left|].
  apply IH in H as [H|(i & q & Hi & Hk & Hv)].
  - unfold summary_pair in H. destruct (PyStr.truthy _ && shown _); [|by left].
    destruct (decide (snake_case (PyStr.rstrip_colon (get_text_strip p.1)) = k)) as [E|E].
    + rewrite E, lookup_insert_eq in H. injection H as <-.
      right. by exists 0, p.
    + rewrite lookup_insert_ne in H by done. by left.
  - right. by exists (S i), q.
Qed.

(** The definition lists give every key of the summary record but
    [parties] and [charges], which the two tables may overwrite. *)
Lemma summary_of_soup_lists soup d k :
  summary_of_soup soup = Ok d → k ∉ ["parties"; "charges"] →
  d !! k = foldl summary_dl ∅ (find_all ["dl"] [("class", "dl-horizontal")] soup) !! k.
Proof.
  unfold summary_of_soup. intros H Hk.
  assert (k ≠ "parties" ∧ k ≠ "charges") as [Hp Hc].
  { split; intros ->; apply Hk; [by left|right; by left]. }
  apply bind_inv in H as (m1 & Hm1 & H).
  assert (m1 !! k = foldl summary_dl ∅
                      (find_all ["dl"] [("class", "dl-horizontal")] soup) !! k) as <-.
  { destruct (find ["table"] [("id", "gridParties")] soup); [|by injection Hm1 as <-].
    apply bind_inv in Hm1 as (parties & _ & Hm1).
    destruct (nonempty parties); injection Hm1 as <-; [|done].
    by rewrite lookup_insert_ne. }
  destruct (find ["table"] [("id", "gridCharges")] soup); [|by injection H as <-].
  apply bind_inv in H as (charges & _ & H).
  destruct (nonempty charges); injection H as <-; [|done].
  by rewrite lookup_insert_ne.
Qed.

(** C10.  The definition lists of the summary fragment are paired by
    position.  The parse of the fragment never raises, and every key of
    its record other than [parties] and [charges] is as the definition
    lists leave it, folded in document order.  For every [dl], with the
    [dt] and the [dd] elements found anywhere in it: the value stored
    under the key of the i-th [dt] is the text of the i-th [dd]
    (provided label and value pass the blank filter and no later
    position below both counts gives the same key); every entry the
    [dl] writes joins a [dt] and a [dd] of one and the same position;
    and a key that no [dt] at a position below the number of [dd]
    elements gives is left as it was, so that the elements past the
    shorter count are dropped without any error and document adjacency
    plays no part. *)
Theorem C10_definition_list_pairs_by_position (soup : node) :
  let key_of (dt : node) := snake_case (PyStr.rstrip_colon (get_text_strip dt)) in
  ∃ d,
    summary_of_soup soup = Ok d
    ∧ (∀ k, k ∉ ["parties"; "charges"] →
         d !! k
         = foldl summary_dl ∅ (find_all ["dl"] [("class", "dl-horizontal")] soup) !! k)
    ∧ ∀ (dl : node) (case_data : gmap string value),
        let dts := find_all ["dt"] [] dl in
        let dds := find_all ["dd"] [] dl in
        (∀ i dt dd,
           dts !! i = Some dt → dds !! i = Some dd →
           PyStr.truthy (PyStr.rstrip_colon (get_text_strip dt)) = true →
           shown (get_text_strip dd) = true →
           (∀ j dt', i < j → j < length dds → dts !! j = Some dt' →
                     key_of dt' ≠ key_of dt) →
           summary_dl case_data dl !! key_of dt = Some (VStr (get_text_strip dd)))
        ∧ (∀ k v,
             summary_dl case_data dl !! k = Some v →
             case_data !! k = Some v
             ∨ ∃ i dt dd, dts !! i = Some dt ∧ dds !! i = Some dd
                          ∧ k = key_of dt ∧ v = VStr (get_text_strip dd))
        ∧ (∀ k,
             (∀ i dt, i < length dds → dts !! i = Some dt → key_of dt ≠ k) →
             summary_dl case_data dl !! k = case_data !! k).
Proof.
  cbv zeta. destruct (summary_of_soup_total soup) as [d Hd]. exists d.
  split; [done|]. split; [intros k Hk; by apply summary_of_soup_lists|].
  intros dl case_data. unfold summary_dl. split_and!.
  - intros i dt dd Hdt Hdd Hl Hv Hlast.
    apply (summary_pairs_written _ case_data i (dt, dd)); [|done..|].
    + apply lookup_zip_with_Some. by exists dt, dd.
    + intros j [dt' dd'] Hj (? & ? & [= <- <-] & Hdt' & Hdd')%lookup_zip_with_Some.
      cbn. apply (Hlast j); [done| |done]. by eapply lookup_lt_Some.
  - intros k v H. apply summary_pairs_origin in H as [H|(i & [dt dd] & Hi & -> & ->)];
      [by left|right].
    apply lookup_zip_with_Some in Hi as (? & ? & [= <- <-] & Hdt & Hdd).
    by exists i, dt, dd.
  - intros k H. apply summary_pairs_frame.
    intros [dt dd] [i Hi]%list_elem_of_lookup_1.
    apply lookup_zip_with_Some in Hi as (? & ? & [= <- <-] & Hdt & Hdd).
    cbn. apply (H i); [|done]. by eapply lookup_lt_Some.
Qed.

(** On [Demo.dl_uneven] the labels are [Judge], [Status], [Filed] and
    the values [Smith], [Open]: [Judge] gets [Smith], [Status] gets
    [Open] although [Smith] stands next to it, and [Filed] is dropped. *)
Example summary_dl_uneven :
  summary_dl ∅ Demo.dl_uneven
  = <["status" := VStr "Open"]> (<["judge" := VStr "Smith"]> ∅).
Proof. vm_compute. reflexivity. Qed.

Lemma C10_definition_list_pairs_by_position_witness :
  let soup := Demo.El "[document]" [] [Demo.dl_uneven] in
  summary_of_soup soup
  = Ok (<["status" := VStr "Open"]> (<["judge" := VStr "Smith"]> ∅))
  ∧ summary_dl ∅ Demo.dl_uneven !! "status" = Some (VStr "Open")
  ∧ summary_dl ∅ Demo.dl_uneven !! "filed" = None.
Proof.
  cbv zeta.
  destruct (C10_definition_list_pairs_by_position
              (Demo.El "[document]" [] [Demo.dl_uneven])) as (d & Hd & _ & Hdl).
  destruct (Hdl Demo.dl_uneven ∅) as (Hwritten & _ & Hframe).
  split; [vm_compute; reflexivity|]. split.
  - apply (Hwritten 1 (Demo.El "dt" [] [Demo.Txt "Status"])
             (Demo.El "dd" [] [Demo.Txt "Open"])); try reflexivity.
    intros j dt' Hj Hlen. change (j < 2) in Hlen. lia.
  - rewrite Hframe; [done|].
    intros [|[|i]] dt Hlen; [intros [= <-]; vm_compute; discriminate..|].
    change (S (S i) < 2) in Hlen. lia.
Defined.

(** ** C6: the token bootstrap runs once per session *)

(** A search on a session that holds a token sends the form and nothing
    else, and leaves both anti-forgery values as they are. *)
Lemma search_with_cached_token {World} (send : transport World)
    (BeautifulSoup : string → node) (urljoin : string → string → string)
    (s : state World) (t : string) (c : search_call) :
  _csrf_token_body s = Some t → PyStr.truthy t = true →
  ∃ jar w,
    (search_with send BeautifulSoup urljoin c s).2
    = mk_state (base_url s) jar (Some t) (_csrf_cookie_name s) w
        (sent s ++ [search_request urljoin (base_url s) (form_data_of_call (Some t) c)]).
Proof.
  intros Ht Htt. unfold search_with, search.
  unfold mbind, M_bind, gets, session_request. rewrite Ht. cbn. rewrite Htt. cbn.
  rewrite Ht.
  destruct (send _ (cookies s) (world s)) as [[res jar] w]. exists jar, w.
  destruct res as [e|resp]; cbn; [done|].
  unfold raise_for_status.
  destruct ((400 <=? status_code resp)%nat && (status_code resp <? 600)%nat); done.
Qed.

(** C6.  Once a token value is cached in the session state, no later
    search re-issues the landing-page GET or overwrites the cached
    anti-forgery values: after any run of searches the token and the
    cookie name are the ones cached, and the requests sent are exactly
    one POST of the search form per search, filled with the cached
    token (the client has no operation that resets the values). *)
Theorem C6_token_bootstrap_once {World} (send : transport World)
    (BeautifulSoup : string → node) (urljoin : string → string → string)
    (s : state World) (t : string) (calls : list search_call) :
  _csrf_token_body s = Some t → PyStr.truthy t = true →
  let s' := after_searches send BeautifulSoup urljoin calls s in
  _csrf_token_body s' = Some t
  ∧ _csrf_cookie_name s' = _csrf_cookie_name s
  ∧ sent s' = sent s
              ++ ((fun c => search_request urljoin (base_url s)
                              (form_data_of_call (Some t) c)) <$> calls)
  ∧ Forall (fun r => req_verb r = POST) (drop (length (sent s)) (sent s')).
Proof.
  intros Ht Htt. cbv zeta.
  assert (_csrf_token_body (after_searches send BeautifulSoup urljoin calls s) = Some t
          ∧ _csrf_cookie_name (after_searches send BeautifulSoup urljoin calls s)
            = _csrf_cookie_name s
          ∧ sent (after_searches send BeautifulSoup urljoin calls s)
            = sent s ++ ((fun c => search_request urljoin (base_url s)
                                     (form_data_of_call (Some t) c)) <$> calls))
    as (H1 & H2 & H3).
  { revert s Ht. induction calls as [|c calls IH]; intros s Ht.
    - cbn. by rewrite app_nil_r.
    - change (after_searches send BeautifulSoup urljoin (c :: calls) s)
        with (after_searches send BeautifulSoup urljoin calls
                (search_with send BeautifulSoup urljoin c s).2).
      destruct (search_with_cached_token send BeautifulSoup urljoin s t c Ht Htt)
        as (jar & w & ->).
      destruct (IH (mk_state (base_url s) jar (Some t) (_csrf_cookie_name s) w
                      (sent s ++ [search_request urljoin (base_url s)
                                    (form_data_of_call (Some t) c)])) eq_refl)
        as (IH1 & IH2 & IH3).
      split_and!; [done|done|]. rewrite IH3. cbn. by rewrite <- app_assoc. }
  split_and!; try done.
  rewrite H3, drop_app_length. apply Forall_fmap, Forall_true. done.
Qed.

Lemma C6_token_bootstrap_once_witness :
  let s := (search_with Demo.site (Demo.parser Demo.pages) Demo.urljoin
              (Demo.name_search "Doe, John") (init (Some Demo.base) tt)).2 in
  let s' := after_searches Demo.site (Demo.parser Demo.pages) Demo.urljoin
              [Demo.name_search "Doe, Jane"; Demo.name_search "Roe, Richard"] s in
  req_verb <$> sent s = [GET; POST]
  ∧ _csrf_token_body s' = Some "tok1"
  ∧ _csrf_cookie_name s' = Some "__RequestVerificationToken_X9"
  ∧ req_verb <$> sent s' = [GET; POST; POST; POST].
Proof.
  cbv zeta.
  destruct (C6_token_bootstrap_once Demo.site (Demo.parser Demo.pages) Demo.urljoin
              (search_with Demo.site (Demo.parser Demo.pages) Demo.urljoin
                 (Demo.name_search "Doe, John") (init (Some Demo.base) tt)).2
              "tok1"
              [Demo.name_search "Doe, Jane"; Demo.name_search "Roe, Richard"])
    as (Ht & Hn & Hs & _); [vm_compute; reflexivity | reflexivity |].
  split; [vm_compute; reflexivity|]. split; [exact Ht|].
  split; [rewrite Hn; vm_compute; reflexivity|].
  rewrite Hs. vm_compute. reflexivity.
Defined.

(** ** C5: the outcomes of the token bootstrap *)

Lemma find_none_iff {A} (f : A → bool) (l : list A) :
  List.find f l = None ↔ ∀ x, x ∈ l → f x = false.
Proof.
  split.
  - intros H x Hx. apply list_elem_of_In in Hx. by eapply find_none.
  - induction l as [|a l IH]; cbn; [done|]. intros H.
    rewrite (H a) by apply list_elem_of_here.
    apply IH. intros x Hx. apply H. by apply list_elem_of_further.
Qed.

Lemma no_csrf_cookie_find jar :
  List.find (fun c : string * string =>
               PyStr.startswith "__RequestVerificationToken_" c.1) jar = None
  ↔ no_csrf_cookie jar.
Proof. apply find_none_iff. Qed.

Lemma csrf_cookie_name_truthy (c : string * string) :
  PyStr.startswith "__RequestVerificationToken_" c.1 = true → PyStr.truthy c.1 = true.
Proof. by destruct (c.1). Qed.

#[local] Arguments PyStr.startswith : simpl never.

(** The claim as written fails: when the landing page carries neither a
    matching cookie nor the token input, the bootstrap fails with
    MissingCsrfCookie, not with MissingCsrfToken, although the input is
    absent. *)
Lemma C5_counterexample_cookie_checked_first :
  ¬ (csrf_input_missing (Demo.parser Demo.pages Demo.bare_body) →
     (_get_search_page Demo.bare_site (Demo.parser Demo.pages) Demo.urljoin
        (init (Some Demo.base) tt)).1 = Raise MissingCsrfToken).
Proof.
  intros H. assert (csrf_input_missing (Demo.parser Demo.pages Demo.bare_body)) as Hm
    by (vm_compute; exact I).
  specialize (H Hm). vm_compute in H. discriminate.
Qed.

(** C5 (amended).  On a session that has no cookie name cached yet and
    whose landing-page GET succeeds, the token bootstrap fails with
    MissingCsrfCookie exactly when no cookie in the jar has a name that
    starts with [__RequestVerificationToken_]; it fails with
    MissingCsrfToken exactly when some cookie matches and the first
    input named [__RequestVerificationToken] is absent or its value is
    absent or empty; and it succeeds exactly otherwise, writing the name
    of the first matching cookie and the token value into the session
    state. *)
Theorem C5_token_bootstrap_outcomes {World} (send : transport World)
    (BeautifulSoup : string → node) (urljoin : string → string → string)
    (s : state World) (resp : response) (jar : list (string * string)) (w : World) :
  send (landing_request urljoin (base_url s)) (cookies s) (world s) = (Ok resp, jar, w) →
  (400 <=? status_code resp)%nat && (status_code resp <? 600)%nat = false →
  truthy_opt (_csrf_cookie_name s) = false →
  let out := _get_search_page send BeautifulSoup urljoin s in
  let soup := BeautifulSoup (text resp) in
  (out.1 = Raise MissingCsrfCookie ↔ no_csrf_cookie jar)
  ∧ (out.1 = Raise MissingCsrfToken ↔ ¬ no_csrf_cookie jar ∧ csrf_input_missing soup)
  ∧ (out.1 = Ok tt ↔ ¬ no_csrf_cookie jar ∧ ¬ csrf_input_missing soup)
  ∧ (out.1 = Ok tt →
     ∃ c i v tok,
       List.find (fun c : string * string =>
                    PyStr.startswith "__RequestVerificationToken_" c.1) jar = Some c
       ∧ find ["input"] [("name", "__RequestVerificationToken")] soup = Some i
       ∧ get i "value" = Some v ∧ first_of v = Ok tok
       ∧ _csrf_cookie_name out.2 = Some c.1
       ∧ _csrf_token_body out.2 = Some tok
       ∧ cookies out.2 = jar).
Proof.
  intros Hsend Hstatus Hfresh. cbv zeta.
  unfold _get_search_page, mbind, M_bind, gets, session_request, landing_request in *.
  cbn. rewrite Hsend. cbn. unfold raise_for_status. rewrite Hstatus. cbn.
  unfold csrf_input_missing. rewrite <- no_csrf_cookie_find.
  destruct (List.find _ jar) as [c|] eqn:Hc; cbn.
  2:{ rewrite Hfresh. cbn. unfold MissingCsrfCookie, MissingCsrfToken, Raise, Ok.
      split_and!; try (intuition (try discriminate; try congruence)). }
  apply find_some in Hc as [_ Hc]. rewrite (csrf_cookie_name_truthy c Hc). cbn.
  unfold MissingCsrfCookie, MissingCsrfToken, raise, Raise, Ok.
  destruct (find ["input"] _ (BeautifulSoup (text resp))) as [i|]; cbn.
  2:{ split_and!; try (intuition (try discriminate; try congruence)). }
  unfold truthy_attr.
  destruct (get i "value") as [v|] eqn:Hval; cbn.
  2:{ split_and!; try (intuition (try discriminate; try congruence)). }
  destruct (attr_truthy v) eqn:Hv; cbn.
  2:{ split_and!; try (intuition (try discriminate; try congruence)). }
  destruct v as [tok|[|tok l]]; try done; cbn.
  all: split_and!; try (intuition (try discriminate; try congruence)).
  - by exists c, i, (AStr tok), tok.
  - by exists c, i, (AList (tok :: l)), tok.
Qed.

Lemma C5_token_bootstrap_outcomes_witness :
  let out := _get_search_page Demo.site (Demo.parser Demo.pages) Demo.urljoin
               (init (Some Demo.base) tt) in
  out.1 = Ok tt
  ∧ _csrf_cookie_name out.2 = Some "__RequestVerificationToken_X9"
  ∧ _csrf_token_body out.2 = Some "tok1"
  ∧ ¬ no_csrf_cookie (cookies out.2)
  ∧ ¬ csrf_input_missing (Demo.parser Demo.pages Demo.landing_body).
Proof.
  cbv zeta.
  destruct (C5_token_bootstrap_outcomes Demo.site (Demo.parser Demo.pages) Demo.urljoin
              (init (Some Demo.base) tt)
              (mk_response 200 Demo.landing_body Demo.landing_url)
              [("ASP.NET_SessionId", "s1"); ("__RequestVerificationToken_X9", "v1")] tt)
    as (_ & _ & H3 & _); [reflexivity | reflexivity | reflexivity |].
  assert ((_get_search_page Demo.site (Demo.parser Demo.pages) Demo.urljoin
             (init (Some Demo.base) tt)).1 = Ok tt) as Hok by (vm_compute; reflexivity).
  destruct (proj1 H3 Hok) as [Hc Hi].
  split; [exact Hok|]. split; [vm_compute; reflexivity|].
  split; [vm_compute; reflexivity|]. split; [exact Hc | exact Hi].
Defined.

(** ** C2: the docket history of the returned record *)

Lemma bindM_Ok {World A B} (m : M A) (f : A → M B) (s s' : state World) a :
  m s = (Ok a, s') → (m ≫= f) s = f a s'.
Proof. unfold mbind, M_bind. by intros ->. Qed.

Lemma bindM_Err {World A B} (m : M A) (f : A → M B) (s s' : state World) e :
  m s = (inl e, s') → (m ≫= f) s = (inl e, s').
Proof. unfold mbind, M_bind. by intros ->. Qed.

Lemma dockets_of_soup_total soup body :
  ∃ d, dockets_of_soup soup body = Ok d
       ∧ (dockets_success d = false → docket_history d = []).
Proof.
  unfold dockets_of_soup.
  destruct (find ["table"] [("id", "gridDockets")] soup) as [t|]; [|by eexists].
  rewrite fragment_docket_entries_eq.
  destruct (docket_entries_of_total t) as [l ->]. by eexists.
Qed.

(** [get_case_dockets] is one fetch of the docket fragment followed by
    the parse of that fragment. *)
Lemma get_case_dockets_spec {World} (send : transport World)
    (BeautifulSoup : string → node) (urljoin : string → string → string)
    (strftime_now : World → string) (case_id digest : string) (s : state World) :
  get_case_dockets send BeautifulSoup urljoin strftime_now case_id digest s
  = match fetch send (dockets_request urljoin (base_url s) case_id digest
                        (strftime_now (world s))) s with
    | (inl e, s') => (inl e, s')
    | (inr resp, s') => (dockets_of_soup (BeautifulSoup (text resp)) (text resp), s')
    end.
Proof.
  unfold get_case_dockets, fetch, dockets_request, mbind, M_bind, gets, session_request.
  cbn. destruct (send _ (cookies s) (world s)) as [[res jar] w].
  destruct res as [e|resp]; cbn; [done|].
  unfold raise_for_status.
  destruct ((400 <=? status_code resp)%nat && (status_code resp <? 600)%nat); done.
Qed.

(** The claim as written fails: on a case page without the two script
    variables the record does not keep everything else the extractor
    produced.  The extractor reads [url = "x"] off the detail row
    labelled [URL]; the returned record holds the final URL of the
    response under that key. *)
Lemma C2_counterexample_url_entry_replaced :
  ¬ (∀ extracted rec,
       parse_case_details (Demo.parser Demo.case_pages Demo.case_body_no_ids)
         = Ok extracted →
       (get_case_details_with_dockets Demo.case_site (Demo.parser Demo.case_pages)
          Demo.urljoin Demo.clock Demo.case_url_no_ids (init (Some Demo.base) tt)).1
         = Ok rec →
       ∀ k v, k ≠ "docket_history" → extracted !! k = Some v → rec !! k = Some v).
Proof.
  intros H.
  specialize (H (<["url" := VStr "x"]> ∅)
                (<["docket_history" := VList []]>
                   (<["url" := VStr Demo.case_url_no_ids]> ∅))).
  specialize (H ltac:(vm_compute; reflexivity) ltac:(vm_compute; reflexivity)
                "url" (VStr "x") ltac:(discriminate) ltac:(vm_compute; reflexivity)).
  vm_compute in H. discriminate.
Qed.

(** C2 (amended).  For every case-details page that
    [get_case_details_with_dockets] fetches, the docket history of the
    base page never survives.  When both [var cid = N] and
    [var caseDigest = '...'] are found in the page, the summary and the
    docket fragment are fetched, and the [docket_history] of the
    returned record is the parse of the docket fragment (the empty
    sequence when that parse reports failure); an exception raised by
    one of the two fetches is the outcome.  When either is missing, no
    fragment is fetched, [docket_history] is explicitly empty, the
    record's [url] is the final URL of the response, and every other
    entry the extractor produced is kept; this is not an error. *)
Theorem C2_docket_history_from_fragment_only {World} (send : transport World)
    (BeautifulSoup : string → node) (urljoin : string → string → string)
    (strftime_now : World → string) (case_url : string)
    (s s1 : state World) (resp : response) :
  fetch send (mk_request GET case_url ∅ ∅ ∅) s = (Ok resp, s1) →
  let run := get_case_details_with_dockets send BeautifulSoup urljoin strftime_now in
  ∃ extracted,
    parse_case_details (BeautifulSoup (text resp)) = Ok extracted
    ∧ match PyStr.re_search_cid (text resp), PyStr.re_search_caseDigest (text resp) with
      | Some case_id, Some digest =>
          match get_case_summary send BeautifulSoup urljoin strftime_now
                  case_id digest s1 with
          | (inl e, s2) => run case_url s = (inl e, s2)
          | (inr summary, s2) =>
              match fetch send (dockets_request urljoin (base_url s2) case_id digest
                                  (strftime_now (world s2))) s2 with
              | (inl e, s3) => run case_url s = (inl e, s3)
              | (inr fragment, s3) =>
                  ∃ dockets rec,
                    dockets_of_soup (BeautifulSoup (text fragment)) (text fragment)
                      = Ok dockets
                    ∧ run case_url s = (Ok rec, s3)
                    ∧ rec !! "docket_history" = Some (VList (docket_history dockets))
                    ∧ (dockets_success dockets = false → docket_history dockets = [])
                    ∧ ∀ k, k ≠ "docket_history" →
                           rec !! k
                           = (summary_data summary
                              ∪ <["url" := VStr (url resp)]> extracted) !! k
              end
          end
      | _, _ =>
          run case_url s
          = (Ok (<["docket_history" := VList []]>
                   (<["url" := VStr (url resp)]> extracted)), s1)
          ∧ sent s1 = sent s ++ [mk_request GET case_url ∅ ∅ ∅]
      end.
Proof.
  intros Hfetch. cbv zeta.
  destruct (parse_case_details_total (BeautifulSoup (text resp))) as [extracted Hex].
  exists extracted. split; [done|].
  assert (sent s1 = sent s ++ [mk_request GET case_url ∅ ∅ ∅]) as Hsent.
  { revert Hfetch. unfold fetch, mbind, M_bind, session_request.
    destruct (send _ (cookies s) (world s)) as [[res jar] w].
    destruct res as [e|r]; cbn; [done|]. unfold raise_for_status.
    destruct ((400 <=? status_code r)%nat && (status_code r <? 600)%nat); cbn; [done|].
    by intros [= _ <-]. }
  assert (∀ k : response → M (gmap string value),
            (response ← session_request send (mk_request GET case_url ∅ ∅ ∅);
             raise_for_status response;; k response) s = k resp s1) as Hstep.
  { intros k. revert Hfetch. unfold fetch, mbind, M_bind, session_request.
    destruct (send _ (cookies s) (world s)) as [[res jar] w].
    destruct res as [e|r]; cbn; [done|]. unfold raise_for_status.
    destruct ((400 <=? status_code r)%nat && (status_code r <? 600)%nat); cbn; [done|].
    by intros [= -> <-]. }
  unfold get_case_details_with_dockets. rewrite Hstep. clear Hstep.
  rewrite (bindM_Ok _ _ s1 s1 extracted) by (by rewrite Hex).
  destruct (PyStr.re_search_cid (text resp)) as [case_id|];
    [destruct (PyStr.re_search_caseDigest (text resp)) as [digest|]|]; try done.
  destruct (get_case_summary send BeautifulSoup urljoin strftime_now case_id digest s1)
    as [[e|summary] s2] eqn:Hsum.
  { by rewrite (bindM_Err _ _ s1 s2 e). }
  rewrite (bindM_Ok _ _ s1 s2 summary) by done.
  pose proof (get_case_dockets_spec send BeautifulSoup urljoin strftime_now
                case_id digest s2) as Hdk.
  destruct (fetch send _ s2) as [[e|fragment] s3].
  { by rewrite (bindM_Err _ _ s2 s3 e). }
  destruct (dockets_of_soup_total (BeautifulSoup (text fragment)) (text fragment))
    as (dockets & Hd & Hfail).
  rewrite Hd in Hdk. exists dockets.
  rewrite (bindM_Ok _ _ s2 s3 dockets) by done.
  assert (summary_success summary = true) as Hss.
  { revert Hsum. unfold get_case_summary, mbind, M_bind, gets, session_request, lift.
    cbn. destruct (send _ (cookies s1) (world s1)) as [[res jar] w].
    destruct res as [e|r]; cbn; [done|]. unfold raise_for_status.
    destruct ((400 <=? status_code r)%nat && (status_code r <? 600)%nat); cbn; [done|].
    destruct (summary_of_soup _); cbn; [done|]. by intros [= <- _]. }
  rewrite Hss.
  destruct (dockets_success dockets) eqn:Hds; eexists; (split; [done|]);
    (split; [reflexivity|]); split_and!; try done.
  - by rewrite lookup_insert_eq.
  - intros k Hk. by rewrite lookup_insert_ne.
  - rewrite lookup_insert_eq. by rewrite Hfail.
  - intros k Hk. by rewrite lookup_insert_ne.
Qed.


Lemma C2_docket_history_from_fragment_only_witness :
  let s := init (Some Demo.base) tt in
  let page := mk_response 200 Demo.case_body_ids Demo.case_url_ids in
  ∃ extracted rec s',
    parse_case_details (Demo.parser Demo.case_pages (text page)) = Ok extracted
    ∧ extracted !! "docket_history"
      = Some (VList [IDict (<["id" := SStr "1"]>
                            (<["docket_text" := SStr "stale"]>
                             (<["date" := SStr "old"]> ∅)))])
    ∧ get_case_details_with_dockets Demo.case_site (Demo.parser Demo.case_pages)
        Demo.urljoin Demo.clock Demo.case_url_ids s = (Ok rec, s')
    ∧ rec !! "docket_history"
      = Some (VList
                [IDict (<["id" := SStr "77"]>
                        (<["docket_text" := SStr "Filed"]>
                         (<["date" := SStr "1/1/2020"]> ∅)));
                 IDict (<["id" := SStr "78"]>
                        (<["column_1" := SStr "1/2/2020"]>
                         (<["column_0" := SStr ""]> ∅)))]).
Proof.
  cbv zeta.
  pose (req1 := mk_request GET Demo.case_url_ids ∅ ∅ ∅).
  pose (s1 := mk_state Demo.base [] None None tt [req1]).
  pose (req2 := mk_request GET
                  (Demo.urljoin Demo.base "/BenchmarkWeb/CourtCase.aspx/DetailsSummary/2574263")
                  (fragment_params "F7EK" "09:15:00 AM") ∅
                  (fragment_headers Demo.urljoin Demo.base "2574263" "F7EK")).
  pose (s2 := mk_state Demo.base [] None None tt [req1; req2]).
  pose (summary := mk_summary_result true
          (<["charges" := VList [IDict (<["description" := SStr "Speeding"]>
                                        (<["statute" := SStr "40-6-181"]> ∅))]]>
           (<["case_type" := VStr "Traffic"]> ∅)) Demo.summary_body).
  pose (frag := mk_response 200 Demo.dockets_body
                  (Demo.base +:+ "/BenchmarkWeb/CourtCase.aspx/CaseDockets/2574263")).
  destruct (C2_docket_history_from_fragment_only Demo.case_site
              (Demo.parser Demo.case_pages) Demo.urljoin Demo.clock Demo.case_url_ids
              (init (Some Demo.base) tt) s1
              (mk_response 200 Demo.case_body_ids Demo.case_url_ids))
    as (extracted & Hex & H); [vm_compute; reflexivity|].
  exists extracted.
  change (PyStr.re_search_cid
            (text (mk_response 200 Demo.case_body_ids Demo.case_url_ids)))
    with (Some "2574263") in H.
  change (PyStr.re_search_caseDigest
            (text (mk_response 200 Demo.case_body_ids Demo.case_url_ids)))
    with (Some "F7EK") in H.
  cbv iota beta in H.
  assert (get_case_summary Demo.case_site (Demo.parser Demo.case_pages) Demo.urljoin
            Demo.clock "2574263" "F7EK" s1 = (inr summary, s2)) as Hsum
    by (vm_compute; reflexivity).
  rewrite Hsum in H.
  assert (fetch Demo.case_site
            (dockets_request Demo.urljoin (base_url s2) "2574263" "F7EK"
               (Demo.clock (world s2))) s2
          = (inr frag, (fetch Demo.case_site
            (dockets_request Demo.urljoin (base_url s2) "2574263" "F7EK"
               (Demo.clock (world s2))) s2).2)) as Hf
    by (vm_compute; reflexivity).
  rewrite Hf in H.
  destruct H as (dockets & rec & Hd & Hrun & Hdh & _).
  assert (dockets_of_soup (Demo.parser Demo.case_pages (text frag)) (text frag)
          = Ok (mk_dockets_result true
                  [IDict (<["id" := SStr "77"]>
                        (<["docket_text" := SStr "Filed"]>
                         (<["date" := SStr "1/1/2020"]> ∅)));
                 IDict (<["id" := SStr "78"]>
                        (<["column_1" := SStr "1/2/2020"]>
                         (<["column_0" := SStr ""]> ∅)))] (Some Demo.dockets_body)))
    as Hd' by (vm_compute; reflexivity).
  rewrite Hd' in Hd. injection Hd as <-.
  assert (parse_case_details
            (Demo.parser Demo.case_pages
               (text (mk_response 200 Demo.case_body_ids Demo.case_url_ids)))
          = Ok (<["docket_history" :=
                    VList [IDict (<["id" := SStr "1"]>
                            (<["docket_text" := SStr "stale"]>
                             (<["date" := SStr "old"]> ∅)))]]>
                (<["case_number" := VStr "25TR089095"]> ∅))) as Hex'
    by (vm_compute; reflexivity).
  eexists rec, _. split; [exact Hex|].
  split; [rewrite Hex' in Hex; injection Hex as <-; vm_compute; reflexivity|].
  split; [exact Hrun | exact Hdh].
Defined.

(* ================================================================== *)
(** * Further properties of the client *)
(* ================================================================== *)

(** ** The form body *)

Lemma join_cons_cons sep x y l :
  PyStr.join sep (x :: y :: l) = x +:+ sep +:+ PyStr.join sep (y :: l).
Proof. reflexivity. Qed.

Lemma split_cons_eq c s :
  PyStr.split c (String c s) = EmptyString :: PyStr.split c s.
Proof. cbn. by rewrite Ascii.eqb_refl. Qed.

Lemma split_nonempty sep s : PyStr.split sep s ≠ [].
Proof.
  destruct s as [|c s]; cbn; [done|].
  destruct (Ascii.eqb c sep); [done|]. by destruct (PyStr.split sep s).
Qed.

(** [sep.join(s.split(sep))] gives [s] back. *)
Lemma join_split sep s :
  PyStr.join (String sep EmptyString) (PyStr.split sep s) = s.
Proof.
  induction s as [|c s IH]; [done|]. cbn [PyStr.split].
  destruct (Ascii.eqb c sep) eqn:E.
  - apply Ascii.eqb_eq in E as ->.
    destruct (PyStr.split sep s) as [|p ps] eqn:Hs; [by apply split_nonempty in Hs|].
    rewrite join_cons_cons, IH. reflexivity.
  - destruct (PyStr.split sep s) as [|p ps] eqn:Hs; [by apply split_nonempty in Hs|].
    destruct ps as [|q ps].
    + cbn in IH |- *. by rewrite IH.
    + rewrite join_cons_cons in IH. rewrite join_cons_cons.
      rewrite append_cons. by rewrite IH.
Qed.

Lemma keep_if_given_default o :
  or_empty (keep_if_given o) = default EmptyString (keep_if_given o).
Proof. destruct o as [s|]; [|done]. cbn. by destruct s. Qed.

(** X1.  A filter given on the command line reaches the form body
    verbatim: the text of [--court-types], [--party-types] and
    [--divisions] is split at the commas by the command line and joined
    again by [search], which gives the text back; the four dates pass
    through unchanged.  A filter that is missing or empty gets the
    default list, or the empty string for a date. *)
Theorem X1_cli_filters_reach_the_form (token : option string)
    (search_term search_type : string) (a : cli_filters) :
  let form := form_data_of_call token (cli_search_call search_term search_type a) in
  form !! "courtTypes"
    = Some (SStr (default "22,2,20,21,7,10" (keep_if_given (arg_court_types a))))
  ∧ form !! "partyTypes"
    = Some (SStr (default "1,2,3,4,5" (keep_if_given (arg_party_types a))))
  ∧ form !! "divisions"
    = Some (SStr (default "1" (keep_if_given (arg_divisions a))))
  ∧ form !! "openedFrom" = Some (SStr (default "" (keep_if_given (arg_opened_from a))))
  ∧ form !! "openedTo" = Some (SStr (default "" (keep_if_given (arg_opened_to a))))
  ∧ form !! "closedFrom" = Some (SStr (default "" (keep_if_given (arg_closed_from a))))
  ∧ form !! "closedTo" = Some (SStr (default "" (keep_if_given (arg_closed_to a)))).
Proof.
  cbv zeta. unfold form_data_of_call, cli_search_call, form_data_of.
  cbn [sc_search_term sc_search_type sc_court_types sc_party_types sc_divisions
       sc_opened_from sc_opened_to sc_closed_from sc_closed_to sc_kwargs].
  rewrite !lookup_union, !lookup_empty, !keep_if_given_default.
  assert (∀ o d, PyStr.join "," (match split_if_given o with
                                 | Some l => l
                                 | None => PyStr.split "," d
                                 end) = default d (keep_if_given o)) as Hj.
  { intros [s|] d; cbn; [destruct (PyStr.truthy s); cbn|]; apply join_split. }
  change ["22"; "2"; "20"; "21"; "7"; "10"] with (PyStr.split "," "22,2,20,21,7,10").
  change ["1"; "2"; "3"; "4"; "5"] with (PyStr.split "," "1,2,3,4,5").
  change ["1"] with (PyStr.split "," "1").
  rewrite !Hj.
  generalize (default "22,2,20,21,7,10" (keep_if_given (arg_court_types a))).
  generalize (default "1,2,3,4,5" (keep_if_given (arg_party_types a))).
  generalize (default "1" (keep_if_given (arg_divisions a))).
  generalize (default "" (keep_if_given (arg_opened_from a))).
  generalize (default "" (keep_if_given (arg_opened_to a))).
  generalize (default "" (keep_if_given (arg_closed_from a))).
  generalize (default "" (keep_if_given (arg_closed_to a))).
  intros. split_and!; reflexivity.
Qed.

(** X2.  The form body always has the complete fixed key set: each of
    the 25 keys of the search form is present whatever the arguments
    are, an unset filter is sent as the empty string and never left
    out, and the only other keys are those of the extra keyword
    arguments. *)
Theorem X2_form_key_set_complete (token : option string)
    (search_term search_type : string)
    (court_types party_types divisions : option (list string))
    (opened_from opened_to closed_from closed_to : option string)
    (kwargs : gmap string scalar) :
  let form := form_data_of token search_term search_type court_types party_types
                divisions opened_from opened_to closed_from closed_to kwargs in
  (∀ k, is_Some (form !! k) ↔ k ∈ form_keys ∨ is_Some (kwargs !! k))
  ∧ (∀ k, k ∈ ["caseTypes"; "statutes"; "partyBirthYear"; "partyDOB"; "caseStatus";
               "propertyAddress"; "propertyCity"; "propertyZip";
               "propertySubDivision"; "lawFirm"; "unpaidPrincipleBalanceFrom";
               "unpaidPrincipleBalanceTo"; "electionDemandFrom";
               "electionDemandTo"; "attorneyFileNumber"] →
          kwargs !! k = None → form !! k = Some (SStr ""))
  ∧ (opened_from = None → kwargs !! "openedFrom" = None →
     form !! "openedFrom" = Some (SStr ""))
  ∧ (opened_to = None → kwargs !! "openedTo" = None →
     form !! "openedTo" = Some (SStr ""))
  ∧ (closed_from = None → kwargs !! "closedFrom" = None →
     form !! "closedFrom" = Some (SStr ""))
  ∧ (closed_to = None → kwargs !! "closedTo" = None →
     form !! "closedTo" = Some (SStr "")).
Proof.
  cbv zeta. unfold form_data_of.
  generalize (PyStr.join "," (match court_types with
                              | Some l => l | None => ["22"; "2"; "20"; "21"; "7"; "10"]
                              end)).
  generalize (PyStr.join "," (match party_types with
                              | Some l => l | None => ["1"; "2"; "3"; "4"; "5"]
                              end)).
  generalize (PyStr.join "," (match divisions with Some l => l | None => ["1"] end)).
  intros jd jp jc.
  split_and!.
  - intros k. rewrite lookup_union.
    match goal with |- context [foldl ?f ∅ ?l] => set (base := foldl f ∅ l) end.
    assert (is_Some (base !! k) ↔ k ∈ form_keys) as Hb.
    { split.
      - intros Hs. destruct (decide (k ∈ form_keys)) as [|Hn]; [done|]. exfalso.
        revert Hs. subst base. cbn [foldl fst snd].
        rewrite !lookup_insert_ne, lookup_empty; [by intros [? ?]|..];
          intros <-; apply Hn; unfold form_keys;
          repeat first [apply list_elem_of_here | apply list_elem_of_further].
      - intros Hk. unfold form_keys in Hk.
        repeat (apply elem_of_cons in Hk as [->|Hk]; [by eexists|]).
        by apply elem_of_nil in Hk. }
    destruct (kwargs !! k) as [v|], (base !! k) as [w|] eqn:E; cbn;
      rewrite <- Hb; split; try (by eauto); try (by intros [[? ?]|[? ?]]);
      by intros [? ?].
  - intros k Hk Hkw. rewrite lookup_union, Hkw.
    repeat (apply elem_of_cons in Hk as [->|Hk]; [reflexivity|]).
    by apply elem_of_nil in Hk.
  - intros -> Hkw. by rewrite lookup_union, Hkw.
  - intros -> Hkw. by rewrite lookup_union, Hkw.
  - intros -> Hkw. by rewrite lookup_union, Hkw.
  - intros -> Hkw. by rewrite lookup_union, Hkw.
Qed.

(** ** The session *)

(** [_get_search_page] sends the landing request and nothing else,
    leaves the base URL alone, caches a token when it succeeds and
    leaves the token alone when it raises. *)
Lemma get_search_page_effect {World} (send : transport World)
    (BeautifulSoup : string → node) (urljoin : string → string → string)
    (s : state World) :
  let out := _get_search_page send BeautifulSoup urljoin s in
  sent out.2 = sent s ++ [landing_request urljoin (base_url s)]
  ∧ base_url out.2 = base_url s
  ∧ (out.1 = Ok tt → ∃ t, _csrf_token_body out.2 = Some t)
  ∧ (∀ e, out.1 = inl e → _csrf_token_body out.2 = _csrf_token_body s).
Proof.
  cbv zeta.
  unfold _get_search_page, mbind, M_bind, gets, session_request, landing_request.
  cbn. destruct (send _ (cookies s) (world s)) as [[res jar] w].
  destruct res as [e|resp]; cbn; [by split_and!|].
  unfold raise_for_status.
  destruct ((400 <=? status_code resp)%nat && (status_code resp <? 600)%nat); cbn;
    [by split_and!|].
  destruct (List.find _ jar) as [c|]; cbn.
  all: match goal with
       | |- context [negb (truthy_opt ?n)] => destruct (negb (truthy_opt n))
       | |- context [negb (PyStr.truthy ?n)] => destruct (negb (PyStr.truthy n))
       end; cbn; [by split_and!|].
  all: destruct (find ["input"] _ (BeautifulSoup (text resp))) as [i|]; cbn;
    [|by split_and!].
  all: unfold truthy_attr; destruct (get i "value") as [v|]; cbn; [|by split_and!].
  all: destruct (attr_truthy v) eqn:Hv; cbn; [|by split_and!].
  all: destruct v as [tok|[|tok l]]; try done; cbn; split_and!; try done; by eauto.
Qed.

Lemma search_with_unfold {World} (send : transport World)
    (BeautifulSoup : string → node) (urljoin : string → string → string)
    (c : search_call) (s : state World) :
  search_with send BeautifulSoup urljoin c s
  = ((if negb (truthy_opt (_csrf_token_body s))
      then _get_search_page send BeautifulSoup urljoin else mret tt);;
     post_search send BeautifulSoup urljoin c) s.
Proof. reflexivity. Qed.

(** The second half of [search]: one POST of the form filled with the
    cached token; the answer is an exception of the transport, an
    [HTTPError] for a status from 400 to 599, or the classification. *)
Lemma post_search_effect {World} (send : transport World)
    (BeautifulSoup : string → node) (urljoin : string → string → string)
    (c : search_call) (s : state World) :
  let req := search_request urljoin (base_url s)
               (form_data_of_call (_csrf_token_body s) c) in
  let out := post_search send BeautifulSoup urljoin c s in
  let answer := send req (cookies s) (world s) in
  out.2 = mk_state (base_url s) answer.1.2 (_csrf_token_body s) (_csrf_cookie_name s)
            answer.2 (sent s ++ [req])
  ∧ out.1 = match answer.1.1 with
            | inl e => inl e
            | inr resp =>
                if (400 <=? status_code resp)%nat && (status_code resp <? 600)%nat
                then Raise (HTTPError (status_code resp))
                else Ok (classify (BeautifulSoup (text resp)) (text resp) (url resp))
            end.
Proof.
  cbv zeta. unfold post_search, mbind, M_bind, gets, session_request.
  cbn -[Nat.leb Nat.ltb].
  destruct (send _ (cookies s) (world s)) as [[res jar] w].
  destruct res as [e|resp]; cbn -[Nat.leb Nat.ltb]; [done|]. unfold raise_for_status.
  destruct ((400 <=? status_code resp)%nat && (status_code resp <? 600)%nat); done.
Qed.

(** X3.  [search] never posts the form without a token.  On a session
    that holds a token it sends exactly the search POST, filled with
    that token.  On a session without one it first sends the landing
    GET; if the bootstrap raises, [search] raises and nothing is
    posted; otherwise the one POST that follows carries the token just
    cached.  The base URL is never changed. *)
Theorem X3_search_posts_only_with_token {World} (send : transport World)
    (BeautifulSoup : string → node) (urljoin : string → string → string)
    (s : state World) (c : search_call) :
  let out := search_with send BeautifulSoup urljoin c s in
  let base := base_url s in
  base_url out.2 = base
  ∧ (truthy_opt (_csrf_token_body s) = true →
     _csrf_token_body out.2 = _csrf_token_body s
     ∧ sent out.2
       = sent s ++ [search_request urljoin base (form_data_of_call (_csrf_token_body s) c)])
  ∧ (truthy_opt (_csrf_token_body s) = false →
     ((∃ e, out.1 = inl e) ∧ sent out.2 = sent s ++ [landing_request urljoin base])
     ∨ (∃ t, _csrf_token_body out.2 = Some t
             ∧ sent out.2
               = sent s ++ [landing_request urljoin base;
                            search_request urljoin base (form_data_of_call (Some t) c)])).
Proof.
  cbv zeta. rewrite search_with_unfold.
  destruct (truthy_opt (_csrf_token_body s)) eqn:Ht; cbn [negb].
  - rewrite (bindM_Ok _ _ s s tt) by done.
    destruct (post_search_effect send BeautifulSoup urljoin c s) as [-> _]. cbn.
    by split_and!.
  - pose proof (get_search_page_effect send BeautifulSoup urljoin s) as (Hs & Hb & Hok & _).
    destruct (_get_search_page send BeautifulSoup urljoin s) as [[e|[]] s1] eqn:Hg;
      cbn in Hs, Hb, Hok.
    { rewrite (bindM_Err _ _ s s1 e) by done. cbn.
      split_and!; try done. intros _. left. split; [by eexists|done]. }
    destruct (Hok eq_refl) as [t Htok].
    rewrite (bindM_Ok _ _ s s1 tt) by done.
    destruct (post_search_effect send BeautifulSoup urljoin c s1) as [-> _]. cbn.
    split_and!; try done. intros _. right. exists t.
    by rewrite Htok, Hs, Hb, <- app_assoc.
Qed.

(** X4.  On a session that holds a token, [search] is a one-shot
    classification: an exception of the transport is raised as it is, a
    response with a status from 400 to 599 raises [HTTPError] and is
    not classified, and a response with any other status is classified,
    whatever that status is. *)
Theorem X4_search_raises_before_classifying {World} (send : transport World)
    (BeautifulSoup : string → node) (urljoin : string → string → string)
    (s : state World) (t : string) (c : search_call) :
  _csrf_token_body s = Some t → PyStr.truthy t = true →
  let req := search_request urljoin (base_url s) (form_data_of_call (Some t) c) in
  (search_with send BeautifulSoup urljoin c s).1
  = match (send req (cookies s) (world s)).1.1 with
    | inl e => inl e
    | inr resp =>
        if (400 <=? status_code resp)%nat && (status_code resp <? 600)%nat
        then Raise (HTTPError (status_code resp))
        else Ok (classify (BeautifulSoup (text resp)) (text resp) (url resp))
    end.
Proof.
  intros Ht Htt. cbv zeta. rewrite search_with_unfold, Ht. cbn [truthy_opt].
  rewrite Htt. cbn [negb]. rewrite (bindM_Ok _ _ s s tt) by done.
  destruct (post_search_effect send BeautifulSoup urljoin c s) as [_ ->].
  by rewrite Ht.
Qed.

Lemma X4_search_raises_before_classifying_witness :
  (search_with Demo.site (Demo.parser Demo.pages) Demo.urljoin
     (Demo.name_search "Doe, John") Demo2.with_token).1
  = Ok (classify Demo.no_results_tree Demo.no_results_body Demo.search_url)
  ∧ (search_with Demo.bare_site (Demo.parser Demo.pages) Demo.urljoin
       (Demo.name_search "Doe, John") Demo2.with_token).1
    = Raise (HTTPError 404).
Proof.
  split.
  - rewrite (X4_search_raises_before_classifying Demo.site (Demo.parser Demo.pages)
               Demo.urljoin Demo2.with_token "tok1"); [|reflexivity..].
    vm_compute. reflexivity.
  - rewrite (X4_search_raises_before_classifying Demo.bare_site (Demo.parser Demo.pages)
               Demo.urljoin Demo2.with_token "tok1"); [|reflexivity..].
    vm_compute. reflexivity.
Defined.

(** X5.  With a cookie name already cached on the session (as a
    bootstrap leaves it when it fails at the token), the cookie check
    of a later bootstrap cannot fail: whatever the jar holds, the
    bootstrap whose landing-page GET succeeds fails with
    MissingCsrfToken exactly when the token input is missing and
    succeeds otherwise; the cached name is replaced by the first
    matching cookie name when there is one and kept when there is
    none. *)
Theorem X5_cached_cookie_name_skips_cookie_check {World} (send : transport World)
    (BeautifulSoup : string → node) (urljoin : string → string → string)
    (s : state World) (resp : response) (jar : list (string * string)) (w : World) :
  send (landing_request urljoin (base_url s)) (cookies s) (world s) = (Ok resp, jar, w) →
  (400 <=? status_code resp)%nat && (status_code resp <? 600)%nat = false →
  truthy_opt (_csrf_cookie_name s) = true →
  let out := _get_search_page send BeautifulSoup urljoin s in
  let soup := BeautifulSoup (text resp) in
  out.1 ≠ Raise MissingCsrfCookie
  ∧ (out.1 = Raise MissingCsrfToken ↔ csrf_input_missing soup)
  ∧ (out.1 = Ok tt ↔ ¬ csrf_input_missing soup)
  ∧ _csrf_cookie_name out.2
    = match List.find (fun c : string * string =>
                         PyStr.startswith "__RequestVerificationToken_" c.1) jar with
      | Some c => Some c.1
      | None => _csrf_cookie_name s
      end.
Proof.
  intros Hsend Hstatus Hname. cbv zeta.
  unfold _get_search_page, mbind, M_bind, gets, session_request, landing_request in *.
  cbn -[Nat.leb Nat.ltb]. rewrite Hsend. cbn -[Nat.leb Nat.ltb].
  unfold raise_for_status. rewrite Hstatus. cbn.
  unfold csrf_input_missing.
  assert (truthy_opt
            match List.find (fun c : string * string =>
                               PyStr.startswith "__RequestVerificationToken_" c.1) jar with
            | Some c => Some c.1
            | None => _csrf_cookie_name s
            end = true) as Hn.
  { destruct (List.find _ jar) as [c|] eqn:Hc; [|done].
    apply find_some in Hc as [_ Hc]. by apply csrf_cookie_name_truthy. }
  destruct (List.find _ jar) as [c|] eqn:Hc; cbn; cbn in Hn; rewrite Hn; cbn.
  all: unfold MissingCsrfCookie, MissingCsrfToken, raise, Raise, Ok.
  all: destruct (find ["input"] _ (BeautifulSoup (text resp))) as [i|]; cbn;
    [|split_and!; try (intuition (try discriminate; try congruence))].
  all: unfold truthy_attr; destruct (get i "value") as [v|] eqn:Hval; cbn;
    [|split_and!; try (intuition (try discriminate; try congruence))].
  all: destruct (attr_truthy v) eqn:Hv; cbn;
    [|split_and!; try (intuition (try discriminate; try congruence))].
  all: destruct v as [tok|[|tok l]]; try done; cbn.
  all: split_and!; try (intuition (try discriminate; try congruence)).
Qed.

Lemma X5_cached_cookie_name_skips_cookie_check_witness :
  let out := _get_search_page Demo2.forgetful_site (Demo.parser Demo.pages)
               Demo.urljoin Demo2.with_token in
  cookies out.2 = []
  ∧ out.1 = Raise MissingCsrfToken
  ∧ _csrf_cookie_name out.2 = Some "__RequestVerificationToken_X9".
Proof.
  cbv zeta.
  destruct (X5_cached_cookie_name_skips_cookie_check Demo2.forgetful_site
              (Demo.parser Demo.pages) Demo.urljoin Demo2.with_token
              (mk_response 200 Demo.bare_body Demo.landing_url) [] tt)
    as (_ & H2 & _ & H4); [reflexivity..|].
  split; [vm_compute; reflexivity|]. split; [|exact H4].
  apply H2. vm_compute. exact I.
Defined.

(** ** The detail tables *)

Lemma lower_char_not_upper c : PyStr.isupper_az (PyStr.lower_char c) = false.
Proof. destruct c as [[] [] [] [] [] [] [] []]; reflexivity. Qed.

Lemma lower_no_capital s :
  all_chars (fun c => negb (PyStr.isupper_az c)) (PyStr.lower s) = true.
Proof. induction s as [|c s IH]; cbn; [done|]. by rewrite lower_char_not_upper, IH. Qed.

Lemma lower_truthy s : PyStr.truthy (PyStr.lower s) = PyStr.truthy s.
Proof. by destruct s. Qed.

Lemma replace_space_go s :
  PyStr.replace_go " " "_" 0 s
  = match s with
    | EmptyString => EmptyString
    | String c s' =>
        String (if Ascii.eqb " " c then "_"%char else c) (PyStr.replace_go " " "_" 0 s')
    end.
Proof.
  destruct s as [|c s]; [done|]. cbn [PyStr.replace_go String.length].
  change (PyStr.startswith " " (String c s)) with (Ascii.eqb " " c && true).
  rewrite andb_true_r. by destruct (Ascii.eqb " " c).
Qed.

Lemma replace_space_snake s :
  all_chars (fun c => negb (PyStr.isupper_az c)) s = true →
  snake_key (PyStr.replace " " "_" s).
Proof.
  unfold snake_key, PyStr.replace. induction s as [|c s IH]; [done|].
  rewrite replace_space_go. cbn [all_chars]. intros [Hc Hs]%andb_true_iff.
  rewrite (IH Hs), andb_true_r. destruct (Ascii.eqb " " c) eqn:E; [done|].
  rewrite Hc, andb_true_r. rewrite Ascii.eqb_sym in E. by rewrite E.
Qed.

Lemma replace_space_truthy s :
  PyStr.truthy (PyStr.replace " " "_" s) = PyStr.truthy s.
Proof. unfold PyStr.replace. rewrite replace_space_go. by destruct s. Qed.

Lemma snake_case_snake label : snake_key (snake_case label).
Proof. apply replace_space_snake, lower_no_capital. Qed.

Lemma snake_case_truthy label : PyStr.truthy (snake_case label) = PyStr.truthy label.
Proof. unfold snake_case. by rewrite replace_space_truthy, lower_truthy. Qed.

Lemma detail_row_pair m row :
  detail_row m row = Ok (apply_updates (option_list (row_pair row)) m).
Proof.
  unfold detail_row, row_pair.
  destruct (find_all ["th"; "td"] [] row) as [|c0 [|c1 cells]]; [done..|].
  cbn. by destruct (PyStr.truthy _ && PyStr.truthy _).
Qed.

Lemma foldM_apply_updates {B} (f : gmap string value → B → result (gmap string value))
    (g : B → list (string * string)) (l : list B) :
  (∀ m b, f m b = Ok (apply_updates (g b) m)) →
  ∀ m, foldM f m l = Ok (apply_updates (flat_map g l) m).
Proof.
  intros Hf. induction l as [|b l IH]; intros m; cbn [foldM flat_map]; [done|].
  rewrite Hf, apply_updates_app. apply IH.
Qed.

Lemma flat_map_option_list {A B} (f : A → option B) (l : list A) :
  flat_map (fun a => option_list (f a)) l = omap f l.
Proof.
  induction l as [|a l IH]; cbn; [done|]. rewrite IH. by destruct (f a).
Qed.

Lemma extract_details_pairs soup m :
  extract_details soup m = Ok (apply_updates (detail_pairs soup) m).
Proof.
  unfold extract_details, detail_pairs. apply foldM_apply_updates.
  intros m0 table. unfold detail_table.
  destruct (attr_eq_str (get table "id") "gridDockets"); [done|].
  rewrite <- flat_map_option_list. apply foldM_apply_updates, detail_row_pair.
Qed.

Lemma apply_updates_last us (m : gmap string value) k :
  apply_updates us m !! k
  = match last_value k us with
    | Some v => Some (VStr v)
    | None => m !! k
    end.
Proof.
  unfold last_value. revert m. induction us as [|[k' v'] us IH]; intros m; [done|].
  change (apply_updates ((k', v') :: us) m)
    with (apply_updates us (<[k' := VStr v']> m)).
  rewrite IH. cbn [List.filter fst].
  destruct (String.eqb k' k) eqn:E.
  - apply String.eqb_eq in E as ->.
    destruct (List.filter _ us) as [|kv l]; cbn; [by rewrite lookup_insert_eq|].
    destruct (last (kv :: l)) eqn:EL; [done | by apply last_None in EL].
  - apply String.eqb_neq in E.
    destruct (last (List.filter _ us)); cbn; [done|]. by rewrite lookup_insert_ne.
Qed.

Lemma parse_case_details_other_keys soup d r k :
  detail_stage soup = Ok d → parse_case_details soup = Ok r →
  k ∉ ["parties"; "charges"; "docket_history"] → r !! k = d !! k.
Proof.
  intros Hd Hr Hk.
  assert (k ≠ "parties" ∧ k ≠ "charges" ∧ k ≠ "docket_history") as (H1 & H2 & H3).
  { split_and!; intros ->; apply Hk;
      repeat first [apply list_elem_of_here | apply list_elem_of_further]. }
  destruct (parse_case_details_stages soup d Hd) as (m1 & r' & Hp & Hkk & Hr').
  rewrite Hr in Hr'. injection Hr' as <-.
  destruct (extract_dockets_total soup (extract_charges soup m1))
    as (r' & Hr' & [->|[l ->]] & _); rewrite Hkk in Hr'; injection Hr' as ->;
    [|rewrite lookup_insert_ne by done];
    (destruct (extract_charges_shape soup m1) as [[->|(l' & -> & _)] _];
     [|rewrite lookup_insert_ne by done]);
    destruct (extract_parties_total soup d) as (m1' & Hm1 & [->|[l2 ->]] & _);
    rewrite Hp in Hm1; injection Hm1 as ->; try done;
    by rewrite lookup_insert_ne.
Qed.

(** X6.  Last table wins.  The detail tables are read in document
    order, and the record holds under a detail key the value of the
    last row, of the last table, whose label gives that key; the rows
    of the docket table give nothing.  A key that no row gives keeps
    what the case-number recovery stored. *)
Theorem X6_last_detail_row_wins (soup : node) :
  ∃ case_number r,
    recover_case_number soup = Ok case_number
    ∧ parse_case_details soup = Ok r
    ∧ (∀ m, extract_details soup m = Ok (apply_updates (detail_pairs soup) m))
    ∧ ∀ k, k ∉ ["parties"; "charges"; "docket_history"] →
           r !! k = match last_value k (detail_pairs soup) with
                    | Some v => Some (VStr v)
                    | None => store_case_number case_number ∅ !! k
                    end.
Proof.
  destruct (recover_case_number_total soup) as [cn Hcn].
  destruct (parse_case_details_total soup) as [r Hr].
  exists cn, r. split_and!; try done; [apply extract_details_pairs|].
  intros k Hk.
  assert (detail_stage soup
          = Ok (apply_updates (detail_pairs soup) (store_case_number cn ∅))) as Hd.
  { unfold detail_stage. rewrite Hcn. cbn. apply extract_details_pairs. }
  rewrite (parse_case_details_other_keys soup _ r k Hd Hr Hk).
  apply apply_updates_last.
Qed.

(** ** The shape of a parsed record *)

Lemma nonempty_true {A} (l : list A) : nonempty l = true ↔ l ≠ [].
Proof. by destruct l. Qed.

Lemma party_row_shape parties row p :
  party_row parties row = Ok p → Forall base_party parties → Forall base_party p.
Proof.
  unfold party_row.
  destruct (find_all ["td"] [] row) as [|c0 [|c1 cells]]; cbn;
    try (by intros [= <-]).
  intros [= <-] H. apply Forall_app. split; [done|].
  apply Forall_singleton. by eexists _, _.
Qed.

Lemma extract_parties_shape soup m :
  ∃ o, extract_parties soup m
       = Ok (match o with Some l => <["parties" := VList l]> m | None => m end)
       ∧ ∀ l, o = Some l → l ≠ [] ∧ Forall base_party l.
Proof.
  unfold extract_parties.
  destruct (find_or soup _ _ _ _) as [sec|]; [|by exists None].
  destruct (foldM_total party_row (find_all ["tr"] [] sec)
              (fun a b _ => party_row_total a b) []) as [l Hl].
  rewrite Hl. cbn. destruct (nonempty l) eqn:E; [|by exists None].
  exists (Some l). split; [done|]. intros ? [= <-]. split; [by apply nonempty_true|].
  eapply (foldM_invariant (Forall base_party)); [|apply Forall_nil_2|exact Hl].
  intros a b a' Ha Hb. by eapply party_row_shape.
Qed.

Lemma charge_rows_shape rows acc :
  Forall (fun i => ∃ s, i = IStr s ∧ PyStr.truthy s = true) acc →
  Forall (fun i => ∃ s, i = IStr s ∧ PyStr.truthy s = true) (foldl charge_row acc rows).
Proof.
  revert acc. induction rows as [|row rows IH]; intros acc Hacc; cbn; [done|].
  apply IH. unfold charge_row. destruct (nonempty _); [|done].
  destruct (PyStr.truthy _) eqn:E; [|done].
  apply Forall_app. split; [done|]. apply Forall_singleton. by eexists.
Qed.

Lemma extract_charges_shape2 soup m :
  ∃ o, extract_charges soup m
       = match o with Some l => <["charges" := VList l]> m | None => m end
       ∧ ∀ l, o = Some l →
              l ≠ [] ∧ Forall (fun i => ∃ s, i = IStr s ∧ PyStr.truthy s = true) l.
Proof.
  unfold extract_charges.
  destruct (find_or soup _ _ _ _) as [sec|]; [|by exists None].
  destruct (nonempty _) eqn:E; [|by exists None].
  eexists (Some _). split; [done|]. intros ? [= <-]. split; [by apply nonempty_true|].
  by apply charge_rows_shape.
Qed.

Lemma column_key_not_empty x : "column_" +:+ x ≠ "".
Proof. rewrite append_cons. discriminate. Qed.

Lemma docket_entry_grammar_ok headers cells docket_id :
  docket_entry (IDict (docket_entry_grammar headers cells docket_id)).
Proof.
  exists (docket_entry_grammar headers cells docket_id), docket_id.
  split; [done|]. unfold docket_entry_grammar.
  destruct (nonempty headers && (length headers =? length cells)%nat).
  - split_and!.
    + apply lookup_insert_eq.
    + rewrite lookup_insert_ne by done. apply lookup_delete_eq.
    + apply insert_all_strings. intros k x Hk.
      apply lookup_delete_Some in Hk as [_ Hk]. revert k x Hk.
      apply (foldl_invariant
               (fun d : gmap string scalar => ∀ k x, d !! k = Some x → ∃ s, x = SStr s));
        [|by intros ??; rewrite lookup_empty].
      intros a hc Ha. by apply insert_all_strings.
  - assert ((foldl (fun (e : gmap string scalar) (ic : nat * node) =>
                      <["column_" +:+ str_of_nat ic.1 := SStr (get_text_strip ic.2)]> e)
                   ∅ (zip (seq 0 (length cells)) cells)) !! "" = None
            ∧ ∀ k x, (foldl (fun (e : gmap string scalar) (ic : nat * node) =>
                      <["column_" +:+ str_of_nat ic.1 := SStr (get_text_strip ic.2)]> e)
                   ∅ (zip (seq 0 (length cells)) cells)) !! k = Some x
                     → ∃ s, x = SStr s) as [H1 H2].
    { apply (foldl_invariant
               (fun d : gmap string scalar =>
                  d !! "" = None ∧ ∀ k x, d !! k = Some x → ∃ s, x = SStr s)).
      - intros a ic [Ha1 Ha2]. split; [|by apply insert_all_strings].
        rewrite lookup_insert_ne; [done|apply column_key_not_empty].
      - split; [done|]. by intros ??; rewrite lookup_empty. }
    split_and!.
    + apply lookup_insert_eq.
    + by rewrite lookup_insert_ne.
    + by apply insert_all_strings.
Qed.

Lemma docket_rows_spec headers rows acc :
  ∃ entries,
    foldM (docket_row headers) acc rows = Ok (acc ++ entries)
    ∧ Forall2 (fun row e =>
                 ∃ docket_id,
                   docket_id_of_row (find_all ["td"] [] row) = Ok docket_id
                   ∧ e = IDict (docket_entry_grammar headers (find_all ["td"] [] row)
                                  docket_id))
              (List.filter (fun row => nonempty (find_all ["td"] [] row)) rows) entries.
Proof.
  revert acc. induction rows as [|row rows IH]; intros acc; cbn [foldM List.filter].
  - exists []. by rewrite app_nil_r.
  - unfold docket_row at 1. destruct (nonempty (find_all ["td"] [] row)) eqn:E.
    + destruct (docket_id_of_row_total (find_all ["td"] [] row)) as [i Hi].
      rewrite Hi. cbn. rewrite docket_entry_of_row_spec. cbn.
      destruct (IH (acc ++ [IDict (docket_entry_grammar headers
                                     (find_all ["td"] [] row) i)])) as (es & Hes & HF).
      eexists (_ :: es). rewrite Hes, <- app_assoc. split; [done|].
      constructor; [by exists i | done].
    + cbn. apply IH.
Qed.

Lemma docket_entries_of_spec table :
  ∃ entries,
    docket_entries_of table = Ok entries
    ∧ match find ["tbody"] [] table with
      | Some tbody =>
          Forall2 (fun row e =>
                     ∃ docket_id,
                       docket_id_of_row (find_all ["td"] [] row) = Ok docket_id
                       ∧ e = IDict (docket_entry_grammar (header_keys table)
                                      (find_all ["td"] [] row) docket_id))
                  (rows_with_cells tbody) entries
      | None => entries = []
      end.
Proof.
  unfold docket_entries_of, rows_with_cells.
  destruct (find ["tbody"] [] table) as [tbody|]; [|by exists []].
  destruct (docket_rows_spec (header_keys table) (find_all ["tr"] [] tbody) [])
    as (es & Hes & HF).
  by exists es.
Qed.

Lemma docket_entries_of_entries table entries :
  docket_entries_of table = Ok entries → Forall docket_entry entries.
Proof.
  intros H. destruct (docket_entries_of_spec table) as (es & Hes & HF).
  rewrite H in Hes. injection Hes as <-.
  clear H. destruct (find ["tbody"] [] table); [|by subst].
  induction HF as [|row e rows es (i & _ & ->) _ IH]; [by constructor|].
  constructor; [apply docket_entry_grammar_ok | done].
Qed.

Lemma extract_dockets_shape soup m :
  ∃ o, extract_dockets soup m
       = Ok (match o with Some l => <["docket_history" := VList l]> m | None => m end)
       ∧ ∀ l, o = Some l → l ≠ [] ∧ Forall docket_entry l.
Proof.
  unfold extract_dockets.
  destruct (find ["table"] [("id", "gridDockets")] soup) as [t|]; [|by exists None].
  destruct (docket_entries_of_total t) as [l Hl]. rewrite Hl. cbn.
  destruct (nonempty l) eqn:E; [|by exists None].
  exists (Some l). split; [done|]. intros ? [= <-]. split; [by apply nonempty_true|].
  by eapply docket_entries_of_entries.
Qed.

(** The record is the record of the detail stage with up to three
    sequences written over it. *)
Lemma parse_case_details_decomp soup d r :
  detail_stage soup = Ok d → parse_case_details soup = Ok r →
  ∃ op oc od,
    r = match od with Some l => <["docket_history" := VList l]> | None => id end
          (match oc with Some l => <["charges" := VList l]> | None => id end
             (match op with Some l => <["parties" := VList l]> | None => id end d))
    ∧ (∀ l, op = Some l → l ≠ [] ∧ Forall base_party l)
    ∧ (∀ l, oc = Some l →
            l ≠ [] ∧ Forall (fun i => ∃ s, i = IStr s ∧ PyStr.truthy s = true) l)
    ∧ (∀ l, od = Some l → l ≠ [] ∧ Forall docket_entry l).
Proof.
  intros Hd Hr.
  destruct (parse_case_details_stages soup d Hd) as (m1 & r' & Hp & Hk & Hr').
  rewrite Hr in Hr'. injection Hr' as <-.
  destruct (extract_parties_shape soup d) as (op & Hop & Hpl).
  rewrite Hp in Hop. injection Hop as ->.
  destruct (extract_charges_shape2 soup
              (match op with Some l => <["parties" := VList l]> d | None => d end))
    as (oc & Hoc & Hcl).
  rewrite Hoc in Hk.
  destruct (extract_dockets_shape soup
              (match oc with
               | Some l => <["charges" := VList l]>
                             (match op with Some l => <["parties" := VList l]> d | None => d end)
               | None => match op with Some l => <["parties" := VList l]> d | None => d end
               end)) as (od & Hod & Hdl).
  rewrite Hk in Hod. injection Hod as ->.
  exists op, oc, od. split_and!; try done.
  by destruct op, oc, od.
Qed.

Lemma last_value_elem k us v : last_value k us = Some v → (k, v) ∈ us.
Proof.
  unfold last_value. intros H.
  destruct (last (List.filter _ us)) as [[k' v']|] eqn:E; [|done].
  injection H as ->. apply last_Some in E as [l' E].
  assert ((k', v) ∈ List.filter (fun kv : string * string => String.eqb kv.1 k) us) as Hin.
  { rewrite E. apply elem_of_app. right. apply list_elem_of_here. }
  apply list_elem_of_In, filter_In in Hin as [Hin Hk].
  apply String.eqb_eq in Hk. cbn in Hk. subst. by apply list_elem_of_In.
Qed.

Lemma detail_pairs_good soup kv :
  kv ∈ detail_pairs soup →
  snake_key kv.1 ∧ PyStr.truthy kv.1 = true ∧ PyStr.truthy kv.2 = true.
Proof.
  unfold detail_pairs. intros H.
  apply list_elem_of_In, in_flat_map in H as (table & _ & H).
  destruct (attr_eq_str _ _); [done|].
  apply list_elem_of_In, list_elem_of_omap in H as (row & _ & H).
  unfold row_pair in H.
  destruct (find_all ["th"; "td"] [] row) as [|c0 [|c1 cells]]; [done..|].
  destruct (PyStr.truthy (PyStr.rstrip_colon _) && PyStr.truthy _) eqn:E; [|done].
  injection H as <-. apply andb_true_iff in E as [E1 E2]. cbn [fst snd].
  split_and!; [apply snake_case_snake | by rewrite snake_case_truthy | done].
Qed.

Lemma detail_stage_good soup d k v :
  detail_stage soup = Ok d → d !! k = Some v →
  snake_key k ∧ PyStr.truthy k = true ∧ ∃ s, v = VStr s ∧ PyStr.truthy s = true.
Proof.
  unfold detail_stage. destruct (recover_case_number soup) as [e|cn]; [done|]. cbn.
  rewrite extract_details_pairs. intros [= <-]. rewrite apply_updates_last.
  destruct (last_value k (detail_pairs soup)) as [s|] eqn:E.
  - intros [= <-]. apply last_value_elem, detail_pairs_good in E as (H1 & H2 & H3).
    split_and!; try done. by exists s.
  - unfold store_case_number. destruct cn as [c|]; [|by rewrite lookup_empty].
    destruct (PyStr.truthy c) eqn:Hc; [|by rewrite lookup_empty].
    destruct (decide ("case_number" = k)) as [<-|Hne].
    + rewrite lookup_insert_eq. intros [= <-]. split_and!; try done. by exists c.
    + by rewrite lookup_insert_ne, lookup_empty.
Qed.

(** X7.  Every entry of a record that [parse_case_details] returns is
    well formed: its key is not empty and has neither a space nor a
    capital letter from A to Z; a string value is never empty; and a
    sequence is held only under [parties], [charges] or
    [docket_history] and is never the empty sequence. *)
Theorem X7_record_entries_well_formed (soup : node) (r : gmap string value)
    (k : string) (v : value) :
  parse_case_details soup = Ok r → r !! k = Some v →
  snake_key k ∧ PyStr.truthy k = true
  ∧ match v with
    | VStr s => PyStr.truthy s = true
    | VList l => l ≠ [] ∧ k ∈ ["parties"; "charges"; "docket_history"]
    end.
Proof.
  intros Hr Hv. destruct (detail_stage_total soup) as [d Hd].
  destruct (parse_case_details_decomp soup d r Hd Hr) as (op & oc & od & -> & Hp & Hc & Hdk).
  assert (∀ k v, d !! k = Some v →
                 snake_key k ∧ PyStr.truthy k = true
                 ∧ match v with
                   | VStr s => PyStr.truthy s = true
                   | VList l => l ≠ [] ∧ k ∈ ["parties"; "charges"; "docket_history"]
                   end) as Hgood.
  { intros k0 v0 H0.
    destruct (detail_stage_good soup d k0 v0 Hd H0) as (H1 & H2 & s & -> & H3). done. }
  assert (∀ (key : string) (o : option (list item)) (m : gmap string value),
            snake_key key → PyStr.truthy key = true →
            key ∈ ["parties"; "charges"; "docket_history"] →
            (∀ l, o = Some l → l ≠ []) →
            (∀ k v, m !! k = Some v →
                    snake_key k ∧ PyStr.truthy k = true
                    ∧ match v with
                      | VStr s => PyStr.truthy s = true
                      | VList l => l ≠ [] ∧ k ∈ ["parties"; "charges"; "docket_history"]
                      end) →
            ∀ k v, match o with Some l => <[key := VList l]> | None => id end m !! k = Some v →
                   snake_key k ∧ PyStr.truthy k = true
                   ∧ match v with
                     | VStr s => PyStr.truthy s = true
                     | VList l => l ≠ [] ∧ k ∈ ["parties"; "charges"; "docket_history"]
                     end) as Hstep.
  { intros key o m Hk1 Hk2 Hk3 Ho Hm k0 v0. destruct o as [l|]; [|apply Hm].
    destruct (decide (key = k0)) as [<-|Hne].
    - rewrite lookup_insert_eq. intros [= <-]. split_and!; try done. by apply Ho.
    - rewrite lookup_insert_ne by done. apply Hm. }
  revert k v Hv. apply Hstep; [done|done| | |].
  { repeat first [apply list_elem_of_here | apply list_elem_of_further]. }
  { intros l Hl. by apply Hdk. }
  apply Hstep; [done|done| | |].
  { repeat first [apply list_elem_of_here | apply list_elem_of_further]. }
  { intros l Hl. by apply Hc. }
  apply Hstep; [done|done| | |]; [|by intros l Hl; apply Hp|done].
  repeat first [apply list_elem_of_here | apply list_elem_of_further].
Qed.

Lemma X7_record_entries_well_formed_witness :
  let r : gmap string value :=
    <["docket_history" :=
        VList [IDict (<["id" := SStr "1"]>
                      (<["docket_text" := SStr "stale"]> (<["date" := SStr "old"]> ∅)))]]>
      (<["case_number" := VStr "25TR089095"]> ∅) in
  parse_case_details Demo.case_tree_ids = Ok r
  ∧ snake_key "docket_history" ∧ snake_key "case_number".
Proof.
  cbv zeta.
  assert (parse_case_details Demo.case_tree_ids
          = Ok (<["docket_history" :=
                    VList [IDict (<["id" := SStr "1"]>
                                  (<["docket_text" := SStr "stale"]>
                                   (<["date" := SStr "old"]> ∅)))]]>
                  (<["case_number" := VStr "25TR089095"]> ∅))) as Hr
    by (vm_compute; reflexivity).
  split; [exact Hr|]. split.
  - eapply (X7_record_entries_well_formed Demo.case_tree_ids _ "docket_history");
      [exact Hr | apply lookup_insert_eq].
  - eapply (X7_record_entries_well_formed Demo.case_tree_ids _ "case_number"
              (VStr "25TR089095")); [exact Hr|].
    rewrite lookup_insert_ne by done. apply lookup_insert_eq.
Defined.

(** X8.  The sequences of a record that [parse_case_details] returns
    have elements of one shape each: a party is a mapping with exactly
    a [name] and a [type], both strings (the type is never [None]); a
    charge is a non-empty string; a docket entry is a mapping with
    string values that has an [id] and no empty key. *)
Theorem X8_sequence_elements_shape (soup : node) (r : gmap string value) :
  parse_case_details soup = Ok r →
  (∀ l, r !! "parties" = Some (VList l) → Forall base_party l)
  ∧ (∀ l, r !! "charges" = Some (VList l) →
          Forall (fun i => ∃ s, i = IStr s ∧ PyStr.truthy s = true) l)
  ∧ (∀ l, r !! "docket_history" = Some (VList l) → Forall docket_entry l).
Proof.
  intros Hr. destruct (detail_stage_total soup) as [d Hd].
  destruct (parse_case_details_decomp soup d r Hd Hr) as (op & oc & od & -> & Hp & Hc & Hdk).
  assert (∀ k l, d !! k ≠ Some (VList l)) as Hstr.
  { intros k l Hl. by destruct (detail_stage_strings soup d k _ Hd Hl). }
  split_and!; intros l.
  - destruct od; cbn; [rewrite lookup_insert_ne by done|];
      (destruct oc; cbn; [rewrite lookup_insert_ne by done|]);
      (destruct op as [lp|]; cbn;
       [rewrite lookup_insert_eq; intros [= <-]; by apply Hp
       |intros H; by apply Hstr in H]).
  - destruct od; cbn; [rewrite lookup_insert_ne by done|];
      (destruct oc as [lc|]; cbn;
       [rewrite lookup_insert_eq; intros [= <-]; by apply Hc|]);
      (destruct op; cbn; [rewrite lookup_insert_ne by done|]);
      intros H; by apply Hstr in H.
  - destruct od as [ld|]; cbn;
      [rewrite lookup_insert_eq; intros [= <-]; by apply Hdk|];
      (destruct oc; cbn; [rewrite lookup_insert_ne by done|]);
      (destruct op; cbn; [rewrite lookup_insert_ne by done|]);
      intros H; by apply Hstr in H.
Qed.

Lemma X8_sequence_elements_shape_witness :
  parse_case_details Demo.case_tree_ids
  = Ok (<["docket_history" :=
            VList [IDict (<["id" := SStr "1"]>
                          (<["docket_text" := SStr "stale"]>
                           (<["date" := SStr "old"]> ∅)))]]>
          (<["case_number" := VStr "25TR089095"]> ∅))
  ∧ Forall docket_entry
      [IDict (<["id" := SStr "1"]>
              (<["docket_text" := SStr "stale"]> (<["date" := SStr "old"]> ∅)))].
Proof.
  assert (parse_case_details Demo.case_tree_ids
          = Ok (<["docket_history" :=
                    VList [IDict (<["id" := SStr "1"]>
                                  (<["docket_text" := SStr "stale"]>
                                   (<["date" := SStr "old"]> ∅)))]]>
                  (<["case_number" := VStr "25TR089095"]> ∅))) as Hr
    by (vm_compute; reflexivity).
  split; [exact Hr|].
  destruct (X8_sequence_elements_shape Demo.case_tree_ids _ Hr) as (_ & _ & H).
  apply H. apply lookup_insert_eq.
Defined.

(** ** Docket entries, key by key *)

Lemma to_uint_not_nil n : Nat.to_uint n ≠ Decimal.Nil.
Proof.
  intros H. assert (n = 0) as ->.
  { rewrite <- (DecimalNat.Unsigned.of_to n), H. reflexivity. }
  discriminate.
Qed.

Lemma str_of_nat_inj i j : str_of_nat i = str_of_nat j → i = j.
Proof.
  unfold str_of_nat. intros H.
  apply DecimalNat.Unsigned.to_uint_inj.
  assert (Some (Nat.to_uint i) = Some (Nat.to_uint j)) as [= ->]; [|done].
  rewrite <- (DecimalString.NilZero.usu (Nat.to_uint i)) by apply to_uint_not_nil.
  rewrite <- (DecimalString.NilZero.usu (Nat.to_uint j)) by apply to_uint_not_nil.
  by rewrite H.
Qed.

Lemma column_key_inj i j :
  "column_" +:+ str_of_nat i = "column_" +:+ str_of_nat j → i = j.
Proof. intros H. apply str_of_nat_inj. by apply (inj (String.app "column_")) in H. Qed.

Section FoldInsert.
Context {A B : Type} (key : A → string) (val : B → scalar).

Let put (e : gmap string scalar) (ab : A * B) : gmap string scalar :=
  <[key ab.1 := val ab.2]> e.

Lemma foldl_insert_notin (l : list (A * B)) acc k :
  (∀ ab, ab ∈ l → key ab.1 ≠ k) → foldl put acc l !! k = acc !! k.
Proof.
  revert acc. induction l as [|ab l IH]; intros acc H; cbn; [done|].
  rewrite IH by (intros; apply H; by right).
  unfold put. rewrite lookup_insert_ne; [done|]. apply H. by left.
Qed.

Lemma foldl_insert_last (l : list (A * B)) acc i a b :
  l !! i = Some (a, b) →
  (∀ j ab, i < j → l !! j = Some ab → key ab.1 ≠ key a) →
  foldl put acc l !! key a = Some (val b).
Proof.
  revert acc i. induction l as [|ab l IH]; intros acc [|i] Hi Hlast; try done.
  - cbn in Hi. injection Hi as ->. cbn [foldl].
    rewrite foldl_insert_notin.
    + unfold put. cbn. apply lookup_insert_eq.
    + intros ab' [j Hj]%list_elem_of_lookup_1. apply (Hlast (S j)); [lia|done].
  - cbn [foldl]. apply (IH _ i); [done|].
    intros j ab' Hj Hl. apply (Hlast (S j)); [lia|done].
Qed.

Lemma foldl_insert_keys (l : list (A * B)) acc k :
  is_Some (foldl put acc l !! k) → is_Some (acc !! k) ∨ ∃ ab, ab ∈ l ∧ k = key ab.1.
Proof.
  revert acc. induction l as [|ab l IH]; intros acc H; cbn in H; [by left|].
  apply IH in H as [H|(ab' & Hin & ->)].
  - unfold put in H. destruct (decide (key ab.1 = k)) as [<-|Hne].
    + right. exists ab. split; [by left|done].
    + rewrite lookup_insert_ne in H by done. by left.
  - right. exists ab'. split; [by right|done].
Qed.

End FoldInsert.

(** X9.  The docket table yields one entry for each row of its body that
    has at least one cell, in the order of the rows; a row without cells
    adds nothing.  Each entry is what [docket_entry_of_row] gives for
    the cells of the row and the id read from them. *)
Theorem X9_one_docket_entry_per_row_with_cells (table tbody : node) (entries : list item) :
  find ["tbody"] [] table = Some tbody →
  docket_entries_of table = Ok entries →
  length entries = length (rows_with_cells tbody)
  ∧ ∀ i row, rows_with_cells tbody !! i = Some row →
      ∃ docket_id e,
        docket_id_of_row (find_all ["td"] [] row) = Ok docket_id
        ∧ docket_entry_of_row (header_keys table) (find_all ["td"] [] row) docket_id = Ok e
        ∧ entries !! i = Some (IDict e).
Proof.
  intros Hb He. destruct (docket_entries_of_spec table) as (es & Hes & HF).
  rewrite He in Hes. injection Hes as <-. rewrite Hb in HF.
  split; [symmetry; by eapply Forall2_length|].
  intros i row Hrow.
  destruct (Forall2_lookup_l _ _ _ _ _ HF Hrow) as (e & Hei & docket_id & Hid & ->).
  exists docket_id, (docket_entry_grammar (header_keys table) (find_all ["td"] [] row) docket_id).
  split_and!; [done|apply docket_entry_of_row_spec|done].
Qed.

Lemma X9_one_docket_entry_per_row_with_cells_witness :
  length (find_all ["tr"] [] Demo2.gap_tbody) = 3
  ∧ ∃ entries,
      docket_entries_of Demo2.gap_table = Ok entries
      ∧ length entries = length (rows_with_cells Demo2.gap_tbody)
      ∧ length entries = 2.
Proof.
  split; [reflexivity|].
  assert (docket_entries_of Demo2.gap_table
          = Ok [IDict (<["id" := SStr "5"]> (<["date" := SStr "1/1/2020"]> ∅));
                IDict (<["id" := SStr ""]> (<["date" := SStr "1/2/2020"]> ∅))]) as He
    by (vm_compute; reflexivity).
  eexists. split; [exact He|]. split; [|reflexivity].
  apply (X9_one_docket_entry_per_row_with_cells Demo2.gap_table Demo2.gap_tbody);
    [reflexivity | exact He].
Defined.

(** X10.  When the docket table has no headers, or a row has another
    number of cells than there are headers, the entry of the row keeps
    every cell: the text of cell [i] is under [column_i], different
    cells have different keys, and the entry has no other key than
    these and [id]. *)
Theorem X10_column_fallback_keeps_every_cell (headers : list string)
    (cells : list node) (docket_id : string) (e : gmap string scalar) :
  nonempty headers && (length headers =? length cells)%nat = false →
  docket_entry_of_row headers cells docket_id = Ok e →
  e !! "id" = Some (SStr docket_id)
  ∧ (∀ i c, cells !! i = Some c →
       e !! ("column_" +:+ str_of_nat i) = Some (SStr (get_text_strip c)))
  ∧ (∀ i j, "column_" +:+ str_of_nat i = "column_" +:+ str_of_nat j → i = j)
  ∧ (∀ k, is_Some (e !! k) →
       k = "id" ∨ ∃ i, i < length cells ∧ k = "column_" +:+ str_of_nat i).
Proof.
  intros Hc He. unfold docket_entry_of_row in He. rewrite Hc in He.
  injection He as <-. unfold enumerate.
  assert (∀ x, "id" ≠ "column_" +:+ x) as Hid
    by (intros x; rewrite append_cons; discriminate).
  split_and!.
  - apply lookup_insert_eq.
  - intros i c Hi. rewrite lookup_insert_ne by apply Hid.
    apply (foldl_insert_last (fun i => "column_" +:+ str_of_nat i)
             (fun c => SStr (get_text_strip c)) _ ∅ i i c).
    + apply lookup_zip_with_Some. exists i, c. split_and!; [done| |done].
      apply lookup_seq. split; [done|]. by eapply lookup_lt_Some.
    + intros j [j' c'] Hj (? & ? & [= <- <-] & [-> _]%lookup_seq & _)%lookup_zip_with_Some.
      cbn. intros ->%column_key_inj. lia.
  - apply column_key_inj.
  - intros k Hk. destruct (decide (k = "id")) as [->|Hne]; [by left|right].
    rewrite lookup_insert_ne in Hk by done.
    apply (foldl_insert_keys (fun i => "column_" +:+ str_of_nat i)
             (fun c => SStr (get_text_strip c))) in Hk
      as [[? Hk]|([i c] & Hin & ->)]; [by rewrite lookup_empty in Hk|].
    exists i. split; [|done]. by eapply enumerate_lt.
Qed.

Lemma X10_column_fallback_keeps_every_cell_witness :
  let cells := [Demo.El "td" [] [Demo.Txt "a"]; Demo.El "td" [] [Demo.Txt " b "]] in
  let e : gmap string scalar :=
    <["id" := SStr "7"]> (<["column_1" := SStr "b"]> (<["column_0" := SStr "a"]> ∅)) in
  docket_entry_of_row ["date"] cells "7" = Ok e
  ∧ e !! ("column_" +:+ str_of_nat 1) = Some (SStr "b").
Proof.
  cbv zeta.
  assert (docket_entry_of_row ["date"]
            [Demo.El "td" [] [Demo.Txt "a"]; Demo.El "td" [] [Demo.Txt " b "]] "7"
          = Ok (<["id" := SStr "7"]>
                  (<["column_1" := SStr "b"]> (<["column_0" := SStr "a"]> ∅)))) as He
    by (vm_compute; reflexivity).
  split; [exact He|].
  destruct (X10_column_fallback_keeps_every_cell ["date"]
              [Demo.El "td" [] [Demo.Txt "a"]; Demo.El "td" [] [Demo.Txt " b "]] "7" _
              eq_refl He) as (_ & H & _).
  exact (H 1 (Demo.El "td" [] [Demo.Txt " b "]) eq_refl).
Defined.

(** X11.  When a row has as many cells as the table has headers, its
    entry has the text of a cell under the header of its column, where
    for a header that occurs more than once the last such column wins.
    The key [id] always holds the id read from the image, also when a
    header reads [id]; an empty header gives no key; and the entry has
    no key that is neither [id] nor a header. *)
Theorem X11_header_keys_of_a_docket_row (headers : list string)
    (cells : list node) (docket_id : string) (e : gmap string scalar) :
  nonempty headers = true → length headers = length cells →
  docket_entry_of_row headers cells docket_id = Ok e →
  e !! "id" = Some (SStr docket_id)
  ∧ e !! "" = None
  ∧ (∀ i h c, headers !! i = Some h → cells !! i = Some c →
       h ≠ "id" → h ≠ "" → (∀ j, i < j → headers !! j ≠ Some h) →
       e !! h = Some (SStr (get_text_strip c)))
  ∧ (∀ k, is_Some (e !! k) → k = "id" ∨ k ∈ headers).
Proof.
  intros Hne Hlen He. rewrite docket_entry_of_row_spec in He. injection He as <-.
  unfold docket_entry_grammar. rewrite Hne, Hlen, Nat.eqb_refl. cbn [andb].
  split_and!.
  - apply lookup_insert_eq.
  - rewrite lookup_insert_ne by done. apply lookup_delete_eq.
  - intros i h c Hh Hc Hid Hem Hlast.
    rewrite lookup_insert_ne, lookup_delete_ne by done.
    apply (foldl_insert_last (fun h : string => h)
             (fun c => SStr (get_text_strip c)) _ ∅ i h c).
    + apply lookup_zip_with_Some. by exists h, c.
    + intros j [h' c'] Hj (? & ? & [= <- <-] & Hh' & _)%lookup_zip_with_Some.
      cbn. intros ->. by apply (Hlast j).
  - intros k Hk. destruct (decide (k = "id")) as [->|Hid]; [by left|right].
    rewrite lookup_insert_ne in Hk by done.
    destruct (decide (k = "")) as [->|Hem]; [by rewrite lookup_delete_eq in Hk; destruct Hk|].
    rewrite lookup_delete_ne in Hk by done.
    apply (foldl_insert_keys (fun h : string => h)
             (fun c => SStr (get_text_strip c))) in Hk
      as [[? Hk]|([h c] & Hin & ->)]; [by rewrite lookup_empty in Hk|].
    by apply elem_of_zip_l in Hin.
Qed.

Lemma X11_header_keys_of_a_docket_row_witness :
  let cells := [Demo.El "td" [] [Demo.Txt "x"]; Demo.El "td" [] [Demo.Txt "old"];
                Demo.El "td" [] [Demo.Txt "new"]] in
  let e : gmap string scalar :=
    <["id" := SStr "7"]> (<["date" := SStr "new"]> ∅) in
  docket_entry_of_row ["id"; "date"; "date"] cells "7" = Ok e
  ∧ e !! "id" = Some (SStr "7")
  ∧ e !! "date" = Some (SStr "new").
Proof.
  cbv zeta.
  assert (docket_entry_of_row ["id"; "date"; "date"]
            [Demo.El "td" [] [Demo.Txt "x"]; Demo.El "td" [] [Demo.Txt "old"];
             Demo.El "td" [] [Demo.Txt "new"]] "7"
          = Ok (<["id" := SStr "7"]> (<["date" := SStr "new"]> ∅))) as He
    by (vm_compute; reflexivity).
  split; [exact He|].
  destruct (X11_header_keys_of_a_docket_row ["id"; "date"; "date"]
              [Demo.El "td" [] [Demo.Txt "x"]; Demo.El "td" [] [Demo.Txt "old"];
               Demo.El "td" [] [Demo.Txt "new"]] "7" _ eq_refl eq_refl He)
    as (Hid & _ & H & _).
  split; [exact Hid|].
  apply (H 2 "date" (Demo.El "td" [] [Demo.Txt "new"])); try done.
  intros [|[|[|j]]] Hj; try lia; done.
Defined.

(** ** The record of the summary fragment *)

Lemma summary_pair_good (m : gmap string value) p :
  (∀ k v, m !! k = Some v →
     ∃ s, v = VStr s ∧ snake_key k ∧ PyStr.truthy k = true ∧ shown s = true) →
  ∀ k v, summary_pair m p !! k = Some v →
     ∃ s, v = VStr s ∧ snake_key k ∧ PyStr.truthy k = true ∧ shown s = true.
Proof.
  intros Hm k v. unfold summary_pair.
  destruct (PyStr.truthy _ && shown _) eqn:E; [|apply Hm].
  apply andb_true_iff in E as [E1 E2].
  destruct (decide (snake_case (PyStr.rstrip_colon (get_text_strip p.1)) = k)) as [<-|Hne].
  - rewrite lookup_insert_eq. intros [= <-]. eexists. split; [done|].
    split_and!; [apply snake_case_snake | by rewrite snake_case_truthy | done].
  - rewrite lookup_insert_ne by done. apply Hm.
Qed.

Lemma summary_lists_good dls k v :
  foldl summary_dl ∅ dls !! k = Some v →
  ∃ s, v = VStr s ∧ snake_key k ∧ PyStr.truthy k = true ∧ shown s = true.
Proof.
  revert k v.
  apply (foldl_invariant
           (fun m : gmap string value => ∀ k v, m !! k = Some v →
              ∃ s, v = VStr s ∧ snake_key k ∧ PyStr.truthy k = true ∧ shown s = true));
    [|by intros ??; rewrite lookup_empty].
  intros m dl Hm. unfold summary_dl.
  apply (foldl_invariant
           (fun m : gmap string value => ∀ k v, m !! k = Some v →
              ∃ s, v = VStr s ∧ snake_key k ∧ PyStr.truthy k = true ∧ shown s = true));
    [|done].
  intros m' p Hm'. by apply summary_pair_good.
Qed.

Lemma summary_party_row_shape parties row l :
  summary_party_row parties row = Ok l →
  Forall summary_party parties → Forall summary_party l.
Proof.
  unfold summary_party_row.
  destruct (find_all ["td"] [] row) as [|c0 [|c1 cells]]; cbn -[Nat.leb Nat.ltb];
    try (by intros [= <-]).
  destruct cells as [|c2 cells]; cbn; intros [= <-] H;
    apply Forall_app; (split; [done|]); apply Forall_singleton.
  - eexists _, _, _. split_and!; [done..| |].
    + intros k [x Hk]. destruct (decide (k = "name")) as [->|?]; [set_solver|].
      rewrite lookup_insert_ne in Hk by done.
      destruct (decide (k = "type")) as [->|?]; [set_solver|].
      by rewrite lookup_insert_ne in Hk.
    + by intros x.
  - destruct (PyStr.truthy (get_text_strip c2)) eqn:E.
    + eexists _, _, _. split_and!; [done..| |].
      * intros k [x Hk]. destruct (decide (k = "attorney")) as [->|?]; [set_solver|].
        rewrite lookup_insert_ne in Hk by done.
        destruct (decide (k = "name")) as [->|?]; [set_solver|].
        rewrite lookup_insert_ne in Hk by done.
        destruct (decide (k = "type")) as [->|?]; [set_solver|].
        by rewrite lookup_insert_ne in Hk.
      * rewrite lookup_insert_eq. intros x [= <-]. by eexists.
    + eexists _, _, _. split_and!; [done..| |].
      * intros k [x Hk]. destruct (decide (k = "name")) as [->|?]; [set_solver|].
        rewrite lookup_insert_ne in Hk by done.
        destruct (decide (k = "type")) as [->|?]; [set_solver|].
        by rewrite lookup_insert_ne in Hk.
      * by intros x.
Qed.

Lemma insert_all_shown (d : gmap string scalar) h s :
  shown s = true →
  (∀ k x, d !! k = Some x → ∃ s, x = SStr s ∧ shown s = true) →
  ∀ k x, <[h := SStr s]> d !! k = Some x → ∃ s, x = SStr s ∧ shown s = true.
Proof.
  intros Hs Hd k x. destruct (decide (h = k)) as [->|Hne].
  - rewrite lookup_insert_eq. intros [= <-]. by eexists.
  - rewrite lookup_insert_ne by done. apply Hd.
Qed.

Lemma summary_charge_row_good headers charges row l :
  summary_charge_row headers charges row = Ok l →
  Forall summary_charge charges → Forall summary_charge l.
Proof.
  unfold summary_charge_row. intros H Hc.
  destruct (nonempty (find_all ["td"] [] row)); [|by injection H as <-].
  apply bind_inv in H as (charge & Hcharge & H).
  assert (∀ k x, charge !! k = Some x → ∃ s, x = SStr s ∧ shown s = true) as Hs.
  { destruct (nonempty headers && _).
    - eapply (foldM_invariant
                (fun d : gmap string scalar =>
                   ∀ k x, d !! k = Some x → ∃ s, x = SStr s ∧ shown s = true));
        [| |exact Hcharge]; [|by intros ??; rewrite lookup_empty].
      intros a ic a' Ha. cbn. destruct (shown _) eqn:E; [|by intros [= <-]].
      intros Hb. apply bind_inv in Hb as (h & _ & [= <-]).
      by apply insert_all_shown.
    - injection Hcharge as <-.
      apply (foldl_invariant
               (fun d : gmap string scalar =>
                  ∀ k x, d !! k = Some x → ∃ s, x = SStr s ∧ shown s = true));
        [|by intros ??; rewrite lookup_empty].
      intros a ic Ha. destruct (shown _) eqn:E; [|done]. by apply insert_all_shown. }
  case_bool_decide as Hne; injection H as <-; [|done].
  apply Forall_app. split; [done|]. apply Forall_singleton. by exists charge.
Qed.

(** X12.  The record that [get_case_summary] builds from the fragment
    holds no blank: a string value is not empty and is neither the
    no-break space nor the text [&#160;], and its key is a non-empty
    snake-case key.  A sequence is only under [parties] or [charges] and
    is never empty; a party has a type and a name, and an attorney only
    when that text is not empty; a charge is a non-empty mapping whose
    values are shown strings. *)
Theorem X12_summary_record_holds_no_blank (soup : node) (d : gmap string value)
    (k : string) (v : value) :
  summary_of_soup soup = Ok d → d !! k = Some v →
  match v with
  | VStr s => snake_key k ∧ PyStr.truthy k = true ∧ shown s = true
  | VList l =>
      l ≠ [] ∧ ((k = "parties" ∧ Forall summary_party l)
                ∨ (k = "charges" ∧ Forall summary_charge l))
  end.
Proof.
  unfold summary_of_soup.
  pose proof (summary_lists_good (find_all ["dl"] [("class", "dl-horizontal")] soup)) as H0.
  set (m0 := foldl summary_dl ∅ _) in *.
  intros H Hv. apply bind_inv in H as (m1 & Hm1 & H).
  assert (∀ k v, m1 !! k = Some v →
            match v with
            | VStr s => snake_key k ∧ PyStr.truthy k = true ∧ shown s = true
            | VList l => l ≠ [] ∧ k = "parties" ∧ Forall summary_party l
            end) as H1.
  { assert (∀ k v, m0 !! k = Some v →
              match v with
              | VStr s => snake_key k ∧ PyStr.truthy k = true ∧ shown s = true
              | VList l => l ≠ [] ∧ k = "parties" ∧ Forall summary_party l
              end) as H0'.
    { intros k' v' Hk'. by destruct (H0 k' v' Hk') as (s & -> & ?). }
    destruct (find ["table"] [("id", "gridParties")] soup) as [t|];
      [|by injection Hm1 as <-].
    apply bind_inv in Hm1 as (parties & Hp & Hm1).
    destruct (nonempty parties) eqn:E; injection Hm1 as <-; [|done].
    intros k' v'. destruct (decide ("parties" = k')) as [<-|Hne];
      [|rewrite lookup_insert_ne by done; apply H0'].
    rewrite lookup_insert_eq. intros [= <-].
    split_and!; [by apply nonempty_true|done|].
    destruct (find ["tbody"] [] t) as [b|]; [|by injection Hp as <-].
    eapply (foldM_invariant (Forall summary_party)); [| |exact Hp]; [|done].
    intros a row a' Ha Hrow. by eapply summary_party_row_shape. }
  assert (∀ k v, m1 !! k = Some v →
            match v with
            | VStr s => snake_key k ∧ PyStr.truthy k = true ∧ shown s = true
            | VList l =>
                l ≠ [] ∧ ((k = "parties" ∧ Forall summary_party l)
                          ∨ (k = "charges" ∧ Forall summary_charge l))
            end) as H1'.
  { intros k' v' Hk'. specialize (H1 k' v' Hk'). destruct v'; [done|].
    destruct H1 as (? & ? & ?). split; [done|]. by left. }
  destruct (find ["table"] [("id", "gridCharges")] soup) as [t|];
    [|injection H as <-; by apply H1'].
  apply bind_inv in H as (charges & Hch & H).
  destruct (nonempty charges) eqn:E; injection H as <-; [|by apply H1'].
  revert Hv. destruct (decide ("charges" = k)) as [<-|Hne];
    [|rewrite lookup_insert_ne by done; apply H1'].
  rewrite lookup_insert_eq. intros [= <-].
  split; [by apply nonempty_true|]. right. split; [done|].
  destruct (find ["tbody"] [] t) as [b|]; [|by injection Hch as <-].
  eapply (foldM_invariant (Forall summary_charge)); [| |exact Hch]; [|done].
  intros a row a' Ha Hrow. by eapply summary_charge_row_good.
Qed.

Lemma X12_summary_record_holds_no_blank_witness :
  let d : gmap string value :=
    <["parties" := VList [IDict (<["name" := SStr "Doe, John"]>
                                 (<["type" := SStr "Defendant"]> ∅))]]>
      (<["case_type" := VStr "Traffic"]> ∅) in
  summary_of_soup Demo2.blank_summary = Ok d
  ∧ snake_key "case_type" ∧ PyStr.truthy "case_type" = true ∧ shown "Traffic" = true.
Proof.
  cbv zeta.
  assert (summary_of_soup Demo2.blank_summary
          = Ok (<["parties" := VList [IDict (<["name" := SStr "Doe, John"]>
                                             (<["type" := SStr "Defendant"]> ∅))]]>
                  (<["case_type" := VStr "Traffic"]> ∅))) as Hd
    by (vm_compute; reflexivity).
  split; [exact Hd|].
  apply (X12_summary_record_holds_no_blank Demo2.blank_summary _ "case_type"
           (VStr "Traffic") Hd).
  rewrite lookup_insert_ne by done. apply lookup_insert_eq.
Defined.

(** ** The results endpoint *)

(** [get_results_data] is one POST of the DataTables parameters; the
    answer is an exception of the transport, an [HTTPError], a decode
    error, an error of the log line, or the decoded body. *)
Lemma get_results_data_effect {World} (send : transport World)
    (urljoin : string → string → string) (json_loads : string → option pyobj)
    (start length_ order_column : Z) (order_direction : string) (s : state World) :
  let req := results_request urljoin (base_url s)
               (results_params start length_ order_column order_direction) in
  let out := get_results_data send urljoin json_loads start length_ order_column
               order_direction s in
  let answer := send req (cookies s) (world s) in
  out.2 = mk_state (base_url s) answer.1.2 (_csrf_token_body s) (_csrf_cookie_name s)
            answer.2 (sent s ++ [req])
  ∧ out.1 = match answer.1.1 with
            | inl e => inl (Client e)
            | inr resp =>
                if (400 <=? status_code resp)%nat && (status_code resp <? 600)%nat
                then inl (Client (HTTPError (status_code resp)))
                else match json_loads (text resp) with
                     | None => inl JSONDecodeError
                     | Some (PDict d) =>
                         match obj_len (default (PList []) (d !! "data")) with
                         | inl e => inl e
                         | inr _ => inr (PDict d)
                         end
                     | Some _ => inl AttributeError
                     end
            end.
Proof.
  cbv zeta. unfold get_results_data.
  generalize (results_params start length_ order_column order_direction). intros params.
  unfold mbind, M2_bind, from_client, pure2, gets, session_request.
  cbn -[Nat.leb Nat.ltb]. destruct (send _ (cookies s) (world s)) as [[res jar] w].
  destruct res as [e|resp]; cbn -[Nat.leb Nat.ltb]; [done|].
  unfold raise_for_status.
  destruct ((400 <=? status_code resp)%nat && (status_code resp <? 600)%nat);
    cbn -[Nat.leb Nat.ltb]; [done|].
  destruct (json_loads (text resp)) as [[| | | | |d]|]; cbn; try done.
  by destruct (obj_len _).
Qed.

(** X13.  [get_results_data] sends exactly one request, the POST of the
    DataTables parameters, and returns the decoded body only when the
    response has no error status, the body decodes to an object, and the
    [data] entry of that object, if there is one, has a length.  A body
    that decodes to something other than an object raises
    [AttributeError], and a [data] entry that is [null], a boolean or a
    number raises [TypeError]: both come from the log line, after the
    request has been answered. *)
Theorem X13_results_data_outcomes {World} (send : transport World)
    (urljoin : string → string → string) (json_loads : string → option pyobj)
    (start length_ order_column : Z) (order_direction : string) (s : state World) :
  let req := results_request urljoin (base_url s)
               (results_params start length_ order_column order_direction) in
  let out := get_results_data send urljoin json_loads start length_ order_column
               order_direction s in
  let answer := (send req (cookies s) (world s)).1.1 in
  let no_error_status (resp : response) :=
    (400 <=? status_code resp)%nat && (status_code resp <? 600)%nat = false in
  sent out.2 = sent s ++ [req]
  ∧ (∀ data, out.1 = inr data ↔
       ∃ resp d n, answer = Ok resp ∧ no_error_status resp
                   ∧ json_loads (text resp) = Some (PDict d) ∧ data = PDict d
                   ∧ obj_len (default (PList []) (d !! "data")) = inr n)
  ∧ (∀ resp, answer = Ok resp → no_error_status resp →
       json_loads (text resp) = None → out.1 = inl JSONDecodeError)
  ∧ (∀ resp o, answer = Ok resp → no_error_status resp →
       json_loads (text resp) = Some o → (∀ d, o ≠ PDict d) →
       out.1 = inl AttributeError)
  ∧ (∀ resp d x, answer = Ok resp → no_error_status resp →
       json_loads (text resp) = Some (PDict d) → d !! "data" = Some x →
       x = PNone ∨ (∃ b, x = PBool b) ∨ (∃ n, x = PNum n) →
       out.1 = inl TypeError).
Proof.
  cbv zeta.
  destruct (get_results_data_effect send urljoin json_loads start length_ order_column
              order_direction s) as [Hs Ho].
  rewrite Hs, Ho. clear Hs Ho. split; [done|].
  destruct (send _ (cookies s) (world s)).1.1 as [e|resp].
  { split_and!; try done. intros data. split; [done|]. by intros (? & ? & ? & ? & _). }
  destruct ((400 <=? status_code resp)%nat && (status_code resp <? 600)%nat) eqn:Est.
  { split_and!.
    - intros data. split; [done|]. intros (? & ? & ? & [= <-] & ? & _). congruence.
    - intros ? [= <-]. congruence.
    - intros ?? [= <-]. congruence.
    - intros ??? [= <-]. congruence. }
  split_and!.
  - intros data. split.
    + destruct (json_loads (text resp)) as [[| | | | |d]|] eqn:Ej; try done.
      destruct (obj_len _) as [e|n] eqn:El; [done|]. intros [= <-].
      by exists resp, d, n.
    + intros (? & d & n & [= <-] & _ & -> & -> & ->). done.
  - intros ? [= <-] _ ->. done.
  - intros ? o [= <-] _ -> Ho. destruct o; try done. by destruct (Ho d).
  - intros ? d x [= <-] _ -> -> [->|[[b ->]|[n ->]]]; done.
Qed.

(** ** The orchestrator *)

Lemma not_truthy_empty s : PyStr.truthy s = false → s = "".
Proof. by destruct s. Qed.

(** X14.  [search_and_get_results] by the class of the search response.
    An exception of [search] is raised as it is.  A response that is
    neither a results table nor a case page gives the empty list and
    sends nothing more.  A results table is followed by exactly one
    results POST, for [max_results] rows from row 0 ordered by column 4
    descending; its errors are raised, and otherwise the [data] entry of
    the decoded object is returned, or the empty list when there is no
    such entry: the final lookup cannot raise.  A case page gives the
    one-element list of the record of [get_case_details_with_dockets],
    or the empty list when the final URL is empty.  The branch for
    another response type is never taken. *)
Theorem X14_search_and_get_results_by_class {World} (send : transport World)
    (BeautifulSoup : string → node) (urljoin : string → string → string)
    (strftime_now : World → string) (json_loads : string → option pyobj)
    (c : search_call) (max_results : Z) (s : state World) :
  let run := search_and_get_results send BeautifulSoup urljoin strftime_now json_loads
               c max_results in
  match search_with send BeautifulSoup urljoin c s with
  | (inl e, s1) => run s = (inl (Client e), s1)
  | (inr r, s1) =>
      (response_type r = "unknown" ∧ run s = (inr (PList []), s1))
      ∨ (response_type r = "search_results"
         ∧ let out := get_results_data send urljoin json_loads 0 max_results 4 "desc" s1 in
           (run s).2 = out.2
           ∧ sent out.2
             = sent s1 ++ [results_request urljoin (base_url s1)
                             (results_params 0 max_results 4 "desc")]
           ∧ match out.1 with
             | inl e => (run s).1 = inl e
             | inr data =>
                 ∃ d, data = PDict d ∧ (run s).1 = inr (default (PList []) (d !! "data"))
             end)
      ∨ (response_type r = "case_details" ∧ PyStr.truthy (result_url r) = true
         ∧ match get_case_details_with_dockets send BeautifulSoup urljoin strftime_now
                   (result_url r) s1 with
           | (inl e, s2) => run s = (inl (Client e), s2)
           | (inr case_data, s2) => run s = (inr (PList [obj_of_record case_data]), s2)
           end)
      ∨ (response_type r = "case_details" ∧ result_url r = ""
         ∧ run s = (inr (PList []), s1))
  end.
Proof.
  cbv zeta. unfold search_and_get_results, mbind, M2_bind, from_client.
  destruct (search_with send BeautifulSoup urljoin c s) as [[e|r] s1] eqn:Hs; [done|].
  apply search_returns_classification in Hs as [resp ->]. unfold classify.
  destruct (find ["table"] [("id", "gridSearchResults")] _) as [t|].
  - right. left. cbn [response_type success negb]. split; [done|].
    change (String.eqb "search_results" "case_details") with false.
    change (String.eqb "search_results" "search_results") with true. cbv iota.
    destruct (get_results_data_effect send urljoin json_loads 0 max_results 4 "desc" s1)
      as [Hst Hout].
    destruct (get_results_data send urljoin json_loads 0 max_results 4 "desc" s1)
      as [[e|data] s2] eqn:Hg; cbn [fst snd] in *.
    + split_and!; [done|by rewrite Hst|done].
    + split_and!; [unfold pure2; by destruct (obj_get _ _ _)|by rewrite Hst|].
      destruct (send _ (cookies s1) (world s1)).1.1 as [e|resp']; [done|].
      destruct (_ && _); [done|].
      destruct (json_loads (text resp')) as [[| | | | |d]|]; try done.
      destruct (obj_len _); [done|]. injection Hout as ->. by exists d.
  - destruct (PyStr.contains "/CourtCase.aspx/Details/" (url resp)); cbn [response_type success negb result_url].
    + right. right.
      change (String.eqb "case_details" "case_details") with true. cbv iota.
      destruct (PyStr.truthy (url resp)) eqn:Et.
      * left. split_and!; [done..|].
        by destruct (get_case_details_with_dockets _ _ _ _ _ _) as [[e|rec] s2].
      * right. split_and!; [done|by apply not_truthy_empty|done].
    + by left.
Qed.

(** ** The requests of the case retrieval *)

Lemma only_gets_pure {World A} (m : M A) (s : state World) :
  (m s).2 = s → only_gets 0 s (m s).2.
Proof.
  intros ->. split_and!; try done. exists []. by rewrite app_nil_r.
Qed.

Lemma only_gets_request {World} (send : transport World) (r : request) (s : state World) :
  req_verb r = GET → req_data r = ∅ → only_gets 1 s (session_request send r s).2.
Proof.
  intros Hv Hd. unfold session_request.
  destruct (send r (cookies s) (world s)) as [[res jar] w]. cbn.
  split_and!; try done. exists [r]. split_and!; [done..|]. by apply Forall_singleton.
Qed.

Lemma only_gets_bind {World A B} (m : M A) (f : A → M B) (n k t : nat) (s : state World) :
  only_gets n s (m s).2 → (∀ a s1, only_gets k s1 (f a s1).2) → n + k ≤ t →
  only_gets t s ((m ≫= f) s).2.
Proof.
  intros (H1 & H2 & H3 & e1 & H4 & H5 & H6) Hf Hle. unfold mbind, M_bind.
  destruct (m s) as [[e|a] s1]; cbn in *.
  - split_and!; try done. exists e1. split_and!; [done|lia|done].
  - destruct (Hf a s1) as (G1 & G2 & G3 & e2 & G4 & G5 & G6).
    split_and!; try congruence. exists (e1 ++ e2). split_and!.
    + by rewrite G4, H4, app_assoc.
    + rewrite length_app. lia.
    + by apply Forall_app.
Qed.

Lemma only_gets_le {World} (n t : nat) (s s' : state World) :
  only_gets n s s' → n ≤ t → only_gets t s s'.
Proof.
  intros (H1 & H2 & H3 & e & H4 & H5 & H6) Hle. split_and!; try done.
  exists e. split; [done|]. split; [lia|done].
Qed.

Lemma bindM_unfold {World A B} (m : M A) (f : A → M B) (s : state World) :
  (m ≫= f) s = match m s with
               | (inl e, s') => (inl e, s')
               | (inr a, s') => f a s'
               end.
Proof. reflexivity. Qed.

Lemma only_gets_raise_for_status {World} (r : response) (s : state World) :
  only_gets 0 s (raise_for_status r s).2.
Proof.
  apply only_gets_pure. unfold raise_for_status. by destruct (_ && _).
Qed.

Lemma only_gets_summary {World} (send : transport World)
    (BeautifulSoup : string → node) (urljoin : string → string → string)
    (strftime_now : World → string) (case_id digest : string) (s : state World) :
  only_gets 1 s (get_case_summary send BeautifulSoup urljoin strftime_now case_id digest s).2.
Proof.
  unfold get_case_summary.
  eapply (only_gets_bind _ _ 0 1); [by apply only_gets_pure| |lia]. intros current_time s0.
  eapply (only_gets_bind _ _ 0 1); [by apply only_gets_pure| |lia]. intros base s1.
  eapply (only_gets_bind _ _ 1 0); [by apply only_gets_request| |lia]. intros resp s2.
  eapply (only_gets_bind _ _ 0 0); [apply only_gets_raise_for_status| |lia]. intros [] s3.
  eapply (only_gets_bind _ _ 0 0); [by apply only_gets_pure| |lia]. intros d s4.
  by apply only_gets_pure.
Qed.

Lemma only_gets_dockets {World} (send : transport World)
    (BeautifulSoup : string → node) (urljoin : string → string → string)
    (strftime_now : World → string) (case_id digest : string) (s : state World) :
  only_gets 1 s (get_case_dockets send BeautifulSoup urljoin strftime_now case_id digest s).2.
Proof.
  unfold get_case_dockets.
  eapply (only_gets_bind _ _ 0 1); [by apply only_gets_pure| |lia]. intros current_time s0.
  eapply (only_gets_bind _ _ 0 1); [by apply only_gets_pure| |lia]. intros base s1.
  eapply (only_gets_bind _ _ 1 0); [by apply only_gets_request| |lia]. intros resp s2.
  eapply (only_gets_bind _ _ 0 0); [apply only_gets_raise_for_status| |lia]. intros [] s3.
  by apply only_gets_pure.
Qed.

Lemma details_sends {World} (send : transport World)
    (BeautifulSoup : string → node) (urljoin : string → string → string)
    (strftime_now : World → string) (case_url : string) (s : state World) :
  only_gets 3 s
    (get_case_details_with_dockets send BeautifulSoup urljoin strftime_now case_url s).2.
Proof.
  unfold get_case_details_with_dockets.
  eapply (only_gets_bind _ _ 1 2); [by apply only_gets_request| |lia]. intros resp s1.
  eapply (only_gets_bind _ _ 0 2); [apply only_gets_raise_for_status| |lia]. intros [] s2.
  eapply (only_gets_bind _ _ 0 2); [by apply only_gets_pure| |lia]. intros case_data s3.
  destruct (PyStr.re_search_cid (text resp)) as [case_id|];
    [destruct (PyStr.re_search_caseDigest (text resp)) as [digest|]|].
  - eapply (only_gets_bind _ _ 1 1); [apply only_gets_summary| |lia]. intros summary s4.
    eapply (only_gets_bind _ _ 1 0); [apply only_gets_dockets| |lia]. intros dockets s5.
    destruct (dockets_success dockets); by apply only_gets_pure.
  - apply (only_gets_le 0); [by apply only_gets_pure|lia].
  - apply (only_gets_le 0); [by apply only_gets_pure|lia].
Qed.

(** X15.  The case retrieval only reads.  Whatever the portal answers
    and whether the call returns or raises,
    [get_case_details_with_dockets] sends the GET of the case URL first
    and at most two requests after it, each a GET without a form body;
    it leaves the base URL, the cached token and the cached cookie name
    of the session as they were. *)
Theorem X15_case_retrieval_only_reads {World} (send : transport World)
    (BeautifulSoup : string → node) (urljoin : string → string → string)
    (strftime_now : World → string) (case_url : string) (s : state World) :
  let out := get_case_details_with_dockets send BeautifulSoup urljoin strftime_now
               case_url s in
  base_url out.2 = base_url s
  ∧ _csrf_token_body out.2 = _csrf_token_body s
  ∧ _csrf_cookie_name out.2 = _csrf_cookie_name s
  ∧ ∃ extra,
      sent out.2 = sent s ++ mk_request GET case_url ∅ ∅ ∅ :: extra
      ∧ length extra ≤ 2
      ∧ Forall (fun r => req_verb r = GET ∧ req_data r = ∅) extra.
Proof.
  cbv zeta. unfold get_case_details_with_dockets. rewrite bindM_unfold.
  pose proof (only_gets_request send (mk_request GET case_url ∅ ∅ ∅) s eq_refl eq_refl)
    as (H1 & H2 & H3 & _).
  assert (sent (session_request send (mk_request GET case_url ∅ ∅ ∅) s).2
          = sent s ++ [mk_request GET case_url ∅ ∅ ∅]) as H4.
  { unfold session_request. by destruct (send _ (cookies s) (world s)) as [[res jar] w]. }
  destruct (session_request send (mk_request GET case_url ∅ ∅ ∅) s) as [[e|resp] s1];
    cbn [fst snd] in *.
  { split_and!; try done. exists []. split; [done|]. split; [cbn; lia|done]. }
  match goal with
  | |- context [(?m s1).2] =>
      assert (only_gets 2 s1 (m s1).2) as (G1 & G2 & G3 & extra & G4 & G5 & G6)
  end.
  { eapply (only_gets_bind _ _ 0 2); [apply only_gets_raise_for_status| |lia]. intros [] s2.
    eapply (only_gets_bind _ _ 0 2); [by apply only_gets_pure| |lia]. intros case_data s3.
    destruct (PyStr.re_search_cid (text resp)) as [case_id|];
      [destruct (PyStr.re_search_caseDigest (text resp)) as [digest|]|].
    - eapply (only_gets_bind _ _ 1 1); [apply only_gets_summary| |lia]. intros summary s4.
      eapply (only_gets_bind _ _ 1 0); [apply only_gets_dockets| |lia]. intros dockets s5.
      destruct (dockets_success dockets); by apply only_gets_pure.
    - apply (only_gets_le 0); [by apply only_gets_pure|lia].
    - apply (only_gets_le 0); [by apply only_gets_pure|lia]. }
  split_and!; try congruence.
  exists extra. split_and!; [|done..]. by rewrite G4, H4, <- app_assoc.
Qed.

(** ** The request budget of the orchestrator *)

Lemma sends_refl {World} (n : nat) (s : state World) : sends_at_most n s s.
Proof. split; [done|]. exists []. rewrite app_nil_r. split; [done|cbn; lia]. Qed.

Lemma sends_trans {World} (n k t : nat) (s s1 s2 : state World) :
  sends_at_most n s s1 → sends_at_most k s1 s2 → n + k ≤ t → sends_at_most t s s2.
Proof.
  intros (H1 & e1 & H2 & H3) (G1 & e2 & G2 & G3) Hle. split; [congruence|].
  exists (e1 ++ e2). split; [by rewrite G2, H2, app_assoc|]. rewrite length_app. lia.
Qed.

Lemma only_gets_sends {World} (n : nat) (s s' : state World) :
  only_gets n s s' → sends_at_most n s s'.
Proof. intros (H1 & _ & _ & e & H2 & H3 & _). split; [done|]. by exists e. Qed.

Lemma search_sends {World} (send : transport World)
    (BeautifulSoup : string → node) (urljoin : string → string → string)
    (c : search_call) (s : state World) :
  sends_at_most (if truthy_opt (_csrf_token_body s) then 1 else 2) s
    (search_with send BeautifulSoup urljoin c s).2.
Proof.
  assert (∀ s0 : state World,
            sends_at_most 1 s0 (post_search send BeautifulSoup urljoin c s0).2) as Hpost.
  { intros s0. destruct (post_search_effect send BeautifulSoup urljoin c s0) as [-> _].
    split; [done|]. by eexists [_]. }
  rewrite search_with_unfold, bindM_unfold.
  destruct (truthy_opt (_csrf_token_body s)); cbn [negb].
  - apply Hpost.
  - destruct (get_search_page_effect send BeautifulSoup urljoin s) as (H1 & H2 & _).
    assert (sends_at_most 1 s (_get_search_page send BeautifulSoup urljoin s).2) as Hland.
    { split; [done|]. by eexists [_]. }
    destruct (_get_search_page send BeautifulSoup urljoin s) as [[e|[]] s1]; cbn [fst snd] in *.
    + eapply sends_trans; [exact Hland|apply (sends_refl 0)|lia].
    + eapply sends_trans; [exact Hland|apply Hpost|lia].
Qed.

Lemma results_sends {World} (send : transport World)
    (urljoin : string → string → string) (json_loads : string → option pyobj)
    (start length_ order_column : Z) (order_direction : string) (s : state World) :
  sends_at_most 1 s
    (get_results_data send urljoin json_loads start length_ order_column order_direction s).2.
Proof.
  destruct (get_results_data_effect send urljoin json_loads start length_ order_column
              order_direction s) as [-> _].
  split; [done|]. by eexists [_].
Qed.

(** X16.  One call of [search_and_get_results] sends at most five
    requests, and at most four on a session that already holds a token;
    whatever the portal answers and whether the call returns or raises,
    the base URL of the session stays as it was. *)
Theorem X16_orchestrator_request_budget {World} (send : transport World)
    (BeautifulSoup : string → node) (urljoin : string → string → string)
    (strftime_now : World → string) (json_loads : string → option pyobj)
    (c : search_call) (max_results : Z) (s : state World) :
  let out := search_and_get_results send BeautifulSoup urljoin strftime_now json_loads
               c max_results s in
  base_url out.2 = base_url s
  ∧ ∃ extra, sent out.2 = sent s ++ extra
             ∧ length extra ≤ (if truthy_opt (_csrf_token_body s) then 4 else 5).
Proof.
  cbv zeta.
  pose proof (search_sends send BeautifulSoup urljoin c s) as Hsearch.
  unfold search_and_get_results, mbind, M2_bind, from_client.
  destruct (search_with send BeautifulSoup urljoin c s) as [[e|r] s1]; cbn [fst snd] in *.
  { eapply sends_trans; [exact Hsearch|apply (sends_refl 0)|].
    destruct (truthy_opt _); lia. }
  assert (∀ s2, sends_at_most 3 s1 s2 →
            sends_at_most (if truthy_opt (_csrf_token_body s) then 4 else 5) s s2) as Hend.
  { intros s2 H. eapply sends_trans; [exact Hsearch|exact H|].
    destruct (truthy_opt _); lia. }
  destruct (negb (success r)); [apply Hend, sends_refl|].
  destruct (String.eqb (response_type r) "case_details").
  - destruct (PyStr.truthy (result_url r)); [|apply Hend, sends_refl].
    pose proof (only_gets_sends _ _ _
                  (details_sends send BeautifulSoup urljoin strftime_now (result_url r) s1))
      as Hd.
    destruct (get_case_details_with_dockets _ _ _ _ _ s1) as [[e|case_data] s2];
      cbn [fst snd] in *; by apply Hend.
  - destruct (String.eqb (response_type r) "search_results"); [|apply Hend, sends_refl].
    pose proof (results_sends send urljoin json_loads 0 max_results 4 "desc" s1) as Hr.
    destruct (get_results_data _ _ _ _ _ _ _ s1) as [[e|data] s2]; cbn [fst snd] in *.
    + apply Hend. eapply sends_trans; [exact Hr|apply (sends_refl 0)|lia].
    + unfold pure2. destruct (obj_get _ _ _); cbn;
        apply Hend; (eapply sends_trans; [exact Hr|apply (sends_refl 0)|lia]).
Qed.

(** ** The search group of the command line *)

(** X17.  With exactly one option of the search group given, as
    [argparse] enforces, the search type and the search term of
    [search_command] go together: a non-empty text is the term, and the
    type is that of its option.  An empty text is never searched under
    its own type: the type falls back to [Name] and the term is [None]
    or the empty string. *)
Theorem X17_search_type_follows_the_term (a : cli_selector) (which v : string) :
  one_given a which v →
  (PyStr.truthy v = true →
     cli_search_term a = Some v ∧ cli_search_type a = which)
  ∧ (v = "" →
     cli_search_type a = "Name" ∧ truthy_opt (cli_search_term a) = false).
Proof.
  intros [[-> ->]|[[-> ->]|[-> ->]]];
    unfold cli_search_term, cli_search_type, py_or; cbn [arg_name arg_case_number
      arg_attorney truthy_opt];
    (split; [intros ->|intros ->]); done.
Qed.

Lemma X17_search_type_follows_the_term_witness :
  cli_search_term (mk_cli_selector None (Some "25TR089095") None) = Some "25TR089095"
  ∧ cli_search_type (mk_cli_selector None (Some "25TR089095") None) = "CaseNumber".
Proof.
  apply (X17_search_type_follows_the_term
           (mk_cli_selector None (Some "25TR089095") None) "CaseNumber" "25TR089095").
  - right. left. split; reflexivity.
  - reflexivity.
Defined.

(** ** The DataTables parameters *)

(** X18.  Whatever the arguments of [get_results_data] are, its request
    has exactly 37 parameters: the seven of the table and five for each
    of the six columns, none written twice.  The four arguments go to
    [start], [length], [order[0][column]] and [order[0][dir]]; of the
    columns only column 0 is not orderable. *)
Theorem X18_results_params_shape (start length_ order_column : Z)
    (order_direction : string) :
  let params := results_params start length_ order_column order_direction in
  size params = 37
  ∧ params !! "start" = Some (SStr (str_of_int start))
  ∧ params !! "length" = Some (SStr (str_of_int length_))
  ∧ params !! "order[0][column]" = Some (SStr (str_of_int order_column))
  ∧ params !! "order[0][dir]" = Some (SStr order_direction)
  ∧ ∀ i, i < 6 →
      params !! ("columns[" +:+ str_of_nat i +:+ "][orderable]")
      = Some (SStr (if (i =? 0)%nat then "false" else "true"))
      ∧ params !! ("columns[" +:+ str_of_nat i +:+ "][data]") = Some (SStr (str_of_nat i)).
Proof.
  cbv zeta. unfold results_params.
  generalize (str_of_int start) (str_of_int length_) (str_of_int order_column).
  intros a b c. split_and!; try (vm_compute; reflexivity).
  intros i Hi. do 6 (destruct i as [|i]; [split; vm_compute; reflexivity|]). lia.
Qed.
